(** * DCA strategy comparison (src/dca_strategy.py)

    A shallow embedding of the simulators, the comparator and the chart
    inputs of [dca_strategy.py], and the properties of the specification
    checked against it.

    Numbers.  The program computes in numpy's [float64] and [int64].  The
    arithmetic of the simulators (lines 21-23, 31-33, 41-43) is written
    once over a class [Number] and is read at two instances:
    - [binary64]: Rocq's primitive IEEE 754 binary64 floats, the arithmetic
      the program runs with (division by zero gives an infinity or NaN and
      never raises, as numpy scalars do);
    - [exact]: the rationals [Qc], the same formulas without rounding.
    Everything else (tables, sorting, deviations) is in binary64.

    Tables.  A pandas [DataFrame] is an index of timestamps and an ordered
    association of column names to typed columns.  Frames are Python
    objects: they live in a heap and are passed by reference, so that
    [purchases['cost'] = amount] is an update of the heap.  A missing
    column raises [KeyError].

    What is taken from pandas and numpy rather than from the source file is
    said at each definition: label slicing (on a monotonic increasing
    index in [main], on any index in [loc_frame]) and [resample], [sum]
    skipping NaN in numpy's order of addition, [min] skipping NaN,
    [sort_values] putting NaN last, [pivot] and [reindex].  Reading the CSV file, parsing a date
    ([strptime] is a parameter of the prompt loop), the CSV export and the
    drawing itself are not modelled: [main] starts from the loaded table
    and the two accepted dates, and a figure is the data it draws. *)

From Stdlib Require Import ZArith List String Ascii Floats QArith Qcanon Lia.
From Stdlib Require Import DecimalString Permutation Sorted.
From stdpp Require Import base option list.

(** ** Numbers *)

(** A Python/numpy scalar and a pandas column are integers ([int64]) or
    floats ([float64]).  An integer scalar [SInt z] is a Python int in the
    range of [int64] ([int64_amount] below); the statements that depend on
    the value of an integer amount say so. *)
Inductive scalar (F : Type) : Type :=
| SInt (z : Z)
| SFloat (f : F).
Arguments SInt {F} z.
Arguments SFloat {F} f.

Inductive column (F : Type) : Type :=
| IntCol (xs : list Z)
| FloatCol (xs : list F).
Arguments IntCol {F} xs.
Arguments FloatCol {F} xs.

(** The arithmetic the program uses on floats. *)
Class Number (F : Type) : Type := {
  of_int64 : Z → F;            (* int64 -> float64 conversion *)
  fadd : F → F → F;
  fdiv : F → F → F;
  fisnan : F → bool
}.

(** numpy's [int64]: two's complement wrap-around. *)
Definition wrap64 (z : Z) : Z := ((z + 2 ^ 63) mod 2 ^ 64 - 2 ^ 63)%Z.

(** Conversion of an [int64] to binary64 (round to nearest even, as
    [PrimFloat.of_uint63] does on the magnitude), for [z] in the range of
    [int64]. *)
Definition float_of_int64 (z : Z) : float :=
  match z with
  | Z0 => 0%float
  | Zpos _ => PrimFloat.of_uint63 (Uint63.of_Z z)
  | Zneg p =>
      if (Z.pos p <? 2 ^ 63)%Z
      then PrimFloat.opp (PrimFloat.of_uint63 (Uint63.of_Z (Z.pos p)))
      else PrimFloat.opp (PrimFloat.of_uint63 (Uint63.of_Z (2 ^ 62)) * 2)%float
  end.

#[export] Instance binary64 : Number float := {
  of_int64 := float_of_int64;
  fadd := PrimFloat.add;
  fdiv := PrimFloat.div;
  fisnan := PrimFloat.is_nan
}.

(** The same operations without rounding.  There is no NaN or infinity
    ([Qcdiv] by zero is zero); the instance is only read where no division
    by zero occurs. *)
Definition exact : Number Qc := {|
  of_int64 := fun z => Q2Qc (inject_Z z);
  fadd := Qcplus;
  fdiv := Qcdiv;
  fisnan := fun _ => false
|}.

Section Columns.
Context {F : Type} `{Number F}.

(** [float(x)] of a scalar: what numpy does to the integer operand of a
    true division. *)
Definition to_float (s : scalar F) : F :=
  match s with
  | SInt z => of_int64 z
  | SFloat f => f
  end.

Definition col_len (c : column F) : nat :=
  match c with
  | IntCol xs => length xs
  | FloatCol xs => length xs
  end.

(** [astype(float64)]. *)
Definition col_floats (c : column F) : list F :=
  match c with
  | IntCol xs => map of_int64 xs
  | FloatCol xs => xs
  end.

(** Rows of a column kept by a boolean mask ([s[mask]]). *)
Fixpoint select {A : Type} (mask : list bool) (xs : list A) : list A :=
  match mask, xs with
  | b :: mask', x :: xs' =>
      if b then x :: select mask' xs' else select mask' xs'
  | _, _ => []
  end.

Definition col_select (mask : list bool) (c : column F) : column F :=
  match c with
  | IntCol xs => IntCol (select mask xs)
  | FloatCol xs => FloatCol (select mask xs)
  end.

(** [Series.sum()] ([skipna=True]).  An [int64] column sums in [int64]
    (wrapping).  In a [float64] column pandas puts [0.0] in place of
    every NaN ([nanops.nansum]) and numpy adds the cells of the array
    ([add.reduce] on a contiguous array: [pairwise_sum] of
    [loops_utils.h.src]):
    - fewer than 8 cells are added one after the other;
    - 8 to 128 cells are added in eight running sums, [r[k]] taking the
      cells [k], [k + 8], ... of the full groups of eight; these are
      combined as [((r0+r1)+(r2+r3))+((r4+r5)+(r6+r7))], and the
      [n mod 8] last cells are added to the result one after the other;
    - more than 128 cells are split at [n/2] rounded down to a multiple of
      8, and the sums of the two parts are added.
    A sum starts with its first cell: numpy (from 1.25 on) starts from
    [-0.0], which changes no float it is added to (older versions start
    from [0.0]; the two differ in the sign of a sum that is a negative
    zero).  The sum of an empty column is [0], resp. [0.0]. *)
Definition fillna0 (x : F) : F := if fisnan x then of_int64 0 else x.

(** Cells added one after the other. *)
Definition seq_sum (xs : list F) : F :=
  match xs with
  | [] => of_int64 0
  | x :: xs' => fold_left fadd xs' x
  end.

(** [r[k] += a[i + k]] for the eight running sums. *)
Fixpoint add_lanes (r xs : list F) : list F :=
  match r, xs with
  | a :: r', x :: xs' => fadd a x :: add_lanes r' xs'
  | _, _ => r
  end.

(** The loop over the full groups of eight after the first: the running
    sums and the cells that are left. *)
Fixpoint accumulate (groups : nat) (r xs : list F) : list F * list F :=
  match groups with
  | O => (r, xs)
  | S groups' => accumulate groups' (add_lanes r (firstn 8 xs)) (skipn 8 xs)
  end.

(** The block of 8 to 128 cells (with fewer than 8 cells there are no
    eight running sums, and the cells are added one after the other). *)
Definition unrolled_sum (xs : list F) : F :=
  let (r, rest) := accumulate (length xs / 8 - 1) (firstn 8 xs) (skipn 8 xs) in
  match r with
  | [r0; r1; r2; r3; r4; r5; r6; r7] =>
      fold_left fadd rest
        (fadd (fadd (fadd r0 r1) (fadd r2 r3)) (fadd (fadd r4 r5) (fadd r6 r7)))
  | _ => seq_sum xs
  end.

(** The recursion of [pairwise_sum] halves the array until a part has at
    most 128 cells; [fuel] bounds its depth, and the length of the array
    is enough fuel (lemma [pairwise_sum_fuel]). *)
Fixpoint pairwise_sum (fuel : nat) (xs : list F) : F :=
  let n := length xs in
  if (n <? 8)%nat then seq_sum xs
  else if (n <=? 128)%nat then unrolled_sum xs
  else
    match fuel with
    | O => unrolled_sum xs
    | S fuel' =>
        let n2 := (n / 2 - (n / 2) mod 8)%nat in
        fadd (pairwise_sum fuel' (firstn n2 xs)) (pairwise_sum fuel' (skipn n2 xs))
    end.

Definition float_sum (xs : list F) : F :=
  pairwise_sum (length xs) (map fillna0 xs).
Definition int_sum (xs : list Z) : Z := wrap64 (fold_left Z.add xs 0%Z).

Definition col_sum (c : column F) : scalar F :=
  match c with
  | IntCol xs => SInt (int_sum xs)
  | FloatCol xs => SFloat (float_sum xs)
  end.

(** [a / b] on numpy scalars: true division in [float64]; it does not
    raise on a zero divisor. *)
Definition truediv (a b : scalar F) : F := fdiv (to_float a) (to_float b).

(** [amount / series]: element-wise true division, a [float64] column. *)
Definition rtruediv (amount : scalar F) (c : column F) : column F :=
  FloatCol (map (fun p => fdiv (to_float amount) p) (col_floats c)).

(** A scalar broadcast to a column of [n] rows ([df['cost'] = amount]):
    the column has the scalar's type. *)
Definition broadcast (amount : scalar F) (n : nat) : column F :=
  match amount with
  | SInt z => IntCol (repeat z n)
  | SFloat f => FloatCol (repeat f n)
  end.

(** Lines 31-33, 21-23, 41-43: the average price from the matched open
    prices. *)
Definition avg_price_of (amount : scalar F) (open : column F) : F :=
  let btc_bought := rtruediv amount open in
  let cost := broadcast amount (col_len open) in
  truediv (col_sum cost) (col_sum btc_bought).
End Columns.

(** The closed form of the specification, [n / sum(1 / price_i)], in the
    same arithmetic, the terms added from left to right as the expression
    [1/10 + 1/20 + 1/30] of the specification is. *)
Definition closed_form {F : Type} `{Number F} (prices : list F) : F :=
  fdiv (of_int64 (Z.of_nat (length prices)))
       (seq_sum (map (fun p => fdiv (of_int64 1) p) prices)).

(** ** Timestamps

    A pandas [Timestamp] is a number of nanoseconds since 1970-01-01 00:00
    (a Thursday; pandas numbers weekdays from Monday = 0). *)
Definition NS_PER_HOUR : Z := 3600000000000.
Definition NS_PER_DAY : Z := 24 * NS_PER_HOUR.

Definition hour_of (t : Z) : Z := ((t / NS_PER_HOUR) mod 24)%Z.
Definition dayofweek (t : Z) : Z := ((t / NS_PER_DAY + 3) mod 7)%Z.

(** ** Data frames *)

Record DataFrame : Type := mkDataFrame {
  index : list Z;
  columns : list (string * column float)
}.

Fixpoint lookup_col (name : string) (cols : list (string * column float))
  : option (column float) :=
  match cols with
  | [] => None
  | (k, c) :: cols' => if String.eqb k name then Some c else lookup_col name cols'
  end.

(** [df[name] = c]: replaces the column of that name, or appends a new
    one. *)
Fixpoint set_col (name : string) (c : column float)
  (cols : list (string * column float)) : list (string * column float) :=
  match cols with
  | [] => [(name, c)]
  | (k, c') :: cols' =>
      if String.eqb k name then (k, c) :: cols' else (k, c') :: set_col name c cols'
  end.

(** Rows kept by a boolean mask, in every column ([df[mask]]). *)
Definition frame_select (mask : list bool) (df : DataFrame) : DataFrame :=
  {| index := select mask (index df);
     columns := map (fun kc => (fst kc, col_select mask (snd kc))) (columns df) |}.

(** Rows [i, j) by position. *)
Definition slice {A : Type} (i j : nat) (xs : list A) : list A :=
  firstn (j - i) (skipn i xs).

Definition col_slice (i j : nat) (c : column float) : column float :=
  match c with
  | IntCol xs => IntCol (slice i j xs)
  | FloatCol xs => FloatCol (slice i j xs)
  end.

Definition frame_slice (i j : nat) (df : DataFrame) : DataFrame :=
  {| index := slice i j (index df);
     columns := map (fun kc => (fst kc, col_slice i j (snd kc))) (columns df) |}.

(** [index.searchsorted(v, side)] on a monotonic increasing index: the
    number of labels before [v] (side left), resp. not after [v] (side
    right). *)
Definition searchsorted_left (idx : list Z) (v : Z) : nat :=
  length (List.filter (fun t => (t <? v)%Z) idx).
Definition searchsorted_right (idx : list Z) (v : Z) : nat :=
  length (List.filter (fun t => (t <=? v)%Z) idx).

(** [df.loc[start:end]] with two [datetime] bounds on a monotonic
    increasing [DatetimeIndex] (the Price Series of the data model): pandas
    slices by position from [searchsorted(start, 'left')] to
    [searchsorted(end, 'right')].  What pandas does on an index in another
    order is [loc_frame] below; the two agree on a monotonic increasing
    index (lemma [loc_frame_sorted]). *)
Definition loc_slice_frame (start_date end_date : Z) (df : DataFrame) : DataFrame :=
  frame_slice (searchsorted_left (index df) start_date)
              (searchsorted_right (index df) end_date) df.

(** [dropna()]: a row is kept when none of its cells is NaN. *)
Definition col_notna (c : column float) : list bool :=
  match c with
  | IntCol xs => map (fun _ => true) xs
  | FloatCol xs => map (fun x => negb (PrimFloat.is_nan x)) xs
  end.

Fixpoint zip_andb (xs ys : list bool) : list bool :=
  match xs, ys with
  | x :: xs', y :: ys' => (x && y) :: zip_andb xs' ys'
  | _, _ => []
  end.

Definition notna_mask (df : DataFrame) : list bool :=
  fold_right (fun kc m => zip_andb (col_notna (snd kc)) m)
             (repeat true (length (index df))) (columns df).

Definition dropna_frame (df : DataFrame) : DataFrame :=
  frame_select (notna_mask df) df.

(** [resample('H').first()]: one row per hour from the first to the last
    hour of the index, labelled by the start of the hour; each cell is the
    first non-NaN value of its column among the rows of that hour (in index
    order, the index being monotonic increasing), NaN when there is none.
    The columns come out as [float64] (pandas keeps [int64] when no hour is
    empty; the values agree after conversion). *)
Definition hour_bin (t : Z) : Z := (t / NS_PER_HOUR)%Z.

Definition first_valid (xs : list float) : float :=
  match List.filter (fun x => negb (PrimFloat.is_nan x)) xs with
  | [] => PrimFloat.nan
  | x :: _ => x
  end.

Definition bins (idx : list Z) : list Z :=
  match idx with
  | [] => []
  | t :: ts =>
      let lo := fold_left Z.min (map hour_bin ts) (hour_bin t) in
      let hi := fold_left Z.max (map hour_bin ts) (hour_bin t) in
      map (fun k => (lo + Z.of_nat k)%Z) (seq 0 (Z.to_nat (hi - lo + 1)))
  end.

Definition resample_first_col (idx : list Z) (bs : list Z) (c : column float)
  : column float :=
  FloatCol (map (fun b =>
                   first_valid (select (map (fun t => (hour_bin t =? b)%Z) idx)
                                       (col_floats c))) bs).

Definition resample_first_frame (df : DataFrame) : DataFrame :=
  let bs := bins (index df) in
  {| index := map (fun b => (b * NS_PER_HOUR)%Z) bs;
     columns := map (fun kc => (fst kc, resample_first_col (index df) bs (snd kc)))
                    (columns df) |}.

(** ** The heap of frames and the monad of the program

    A frame variable of the program is a reference into the heap.  A
    computation takes the heap, returns a value or raises, and leaves a
    heap. *)
Abbreviation loc := nat (only parsing).

Inductive exn : Type :=
| KeyError (key : string)
| InvalidReference.

Inductive outcome (A : Type) : Type :=
| Return (a : A)
| Raise (e : exn).
Arguments Return {A} a.
Arguments Raise {A} e.

Abbreviation heap := (list DataFrame) (only parsing).

Definition M (A : Type) : Type := heap → outcome A * heap.

#[export] Instance M_ret : MRet M := fun A a h => (Return a, h).
#[export] Instance M_bind : MBind M := fun A B f m h =>
  match m h with
  | (Return a, h') => f a h'
  | (Raise e, h') => (Raise e, h')
  end.

Definition raise {A : Type} (e : exn) : M A := fun h => (Raise e, h).

Definition deref (l : loc) : M DataFrame := fun h =>
  match h !! l with
  | Some df => (Return df, h)
  | None => (Raise InvalidReference, h)
  end.

Definition alloc (df : DataFrame) : M loc := fun h => (Return (length h), h ++ [df]).

Definition store (l : loc) (df : DataFrame) : M unit := fun h => (Return tt, <[l := df]> h).

(** pandas operations on references. *)
Definition getitem_mask (l : loc) (mask : list bool) : M loc :=
  df ← deref l; alloc (frame_select mask df).

Definition copy (l : loc) : M loc :=
  df ← deref l; alloc df.

Definition getitem (l : loc) (name : string) : M (column float) :=
  df ← deref l;
  match lookup_col name (columns df) with
  | Some c => mret c
  | None => raise (KeyError name)
  end.

Definition setitem (l : loc) (name : string) (c : column float) : M unit :=
  df ← deref l;
  store l {| index := index df; columns := set_col name c (columns df) |}.

Definition setitem_scalar (l : loc) (name : string) (v : scalar float) : M unit :=
  df ← deref l;
  store l {| index := index df;
             columns := set_col name (broadcast v (length (index df))) (columns df) |}.

Definition get_index (l : loc) : M (list Z) :=
  df ← deref l; mret (index df).

Definition resample_first (l : loc) : M loc :=
  df ← deref l; alloc (resample_first_frame df).

Definition dropna (l : loc) : M loc :=
  df ← deref l; alloc (dropna_frame df).

Definition loc_slice (l : loc) (start_date end_date : Z) : M loc :=
  df ← deref l; alloc (loc_slice_frame start_date end_date df).

(** ** The simulators (lines 16-44) *)

(** Lines 21-24, 31-34, 41-44, shared by the three simulators. *)
Definition buy (purchases : loc) (amount : scalar float) : M (loc * float) :=
  open ← getitem purchases "Open";
  _ ← setitem purchases "btc_bought" (rtruediv amount open);
  _ ← setitem_scalar purchases "cost" amount;
  cost ← getitem purchases "cost";
  btc_bought ← getitem purchases "btc_bought";
  let avg_price := truediv (col_sum cost) (col_sum btc_bought) in
  mret (purchases, avg_price).

Definition simulate_hourly_dca (data : loc) (amount : scalar float) : M (loc * float) :=
  resampled ← resample_first data;
  purchases ← dropna resampled;
  buy purchases amount.

Definition simulate_daily_dca (data : loc) (hour : Z) (amount : scalar float)
  : M (loc * float) :=
  idx ← get_index data;
  selected ← getitem_mask data (map (fun t => (hour_of t =? hour)%Z) idx);
  purchases ← copy selected;
  buy purchases amount.

Definition simulate_weekly_dca (data : loc) (weekday hour : Z) (amount : scalar float)
  : M (loc * float) :=
  idx ← get_index data;
  selected ← getitem_mask data
    (map (fun t => (dayofweek t =? weekday)%Z && (hour_of t =? hour)%Z) idx);
  purchases ← copy selected;
  buy purchases amount.

(** ** The comparator (main, lines 147-172) *)

(** A row of the results table: [Relative_Deviation] is the column added
    on line 172 (and recomputed on line 96 for a chart). *)
Record result : Type := mkResult {
  Strategy : string;
  Avg_Price : float
}.

Record ranked : Type := mkRanked {
  entry : result;
  Relative_Deviation : float
}.

Definition weekday_names : list string :=
  ["Monday"; "Tuesday"; "Wednesday"; "Thursday"; "Friday"; "Saturday"; "Sunday"]%string.

(** [f'{n}'] of a Python int. *)
Definition str_of_int (n : Z) : string := NilZero.string_of_int (Z.to_int n).

Definition weekly_label (day hour : Z) : string :=
  ("Weekly " ++ nth (Z.to_nat day) weekday_names "" ++ " " ++ str_of_int hour ++ ":00")%string.

Definition daily_label (hour : Z) : string :=
  ("Daily " ++ str_of_int hour ++ ":00")%string.

Definition hourly_label : string := "Hourly".

(** [range(n)]. *)
Definition range (n : nat) : list Z := map Z.of_nat (seq 0 n).

(** A [for] loop that appends one value per iteration. *)
Fixpoint for_each {A B : Type} (xs : list A) (body : A → M B) : M (list B) :=
  match xs with
  | [] => mret []
  | x :: xs' =>
      b ← body x;
      bs ← for_each xs' body;
      mret (b :: bs)
  end.

(** [sort_values(by='Avg_Price')] (ascending, [na_position='last']): pandas
    sorts the rows whose key is not NaN and puts the NaN rows after them in
    their original order.  The sort is an insertion sort here; pandas'
    default is not stable, so rows with equal keys may come in another
    order there. *)
Fixpoint insert_by_price (r : result) (rs : list result) : list result :=
  match rs with
  | [] => [r]
  | r' :: rs' =>
      if PrimFloat.ltb (Avg_Price r) (Avg_Price r')
      then r :: r' :: rs'
      else r' :: insert_by_price r rs'
  end.

Definition sort_by_price (rs : list result) : list result :=
  fold_left (fun acc r => insert_by_price r acc) rs [].

Definition notna (r : result) : bool := negb (PrimFloat.is_nan (Avg_Price r)).

Definition sort_values (rs : list result) : list result :=
  sort_by_price (List.filter notna rs) ++ List.filter (fun r => negb (notna r)) rs.

(** [Series.min()] ([skipna=True]): the least value that is not NaN; NaN
    when there is none. *)
Definition series_min (xs : list float) : float :=
  match List.filter (fun x => negb (PrimFloat.is_nan x)) xs with
  | [] => PrimFloat.nan
  | x :: xs' => fold_left (fun m y => if PrimFloat.ltb y m then y else m) xs' x
  end.

(** Lines 96 and 172: [((avg - best) / best) * 100]. *)
Definition relative_deviation (best avg : float) : float :=
  (((avg - best) / best) * 100)%float.

Definition with_deviation (rs : list result) : list ranked :=
  let best := series_min (map Avg_Price rs) in
  map (fun r => {| entry := r; Relative_Deviation := relative_deviation best (Avg_Price r) |}) rs.

(** Lines 147-172: the results of the 168 weekly, 24 daily and the hourly
    strategy, sorted, with their deviation from the best. *)
Definition compare_strategies (filtered_data : loc) : M (list ranked) :=
  weekly ← for_each (range 7) (fun day =>
    for_each (range 24) (fun hour =>
      r ← simulate_weekly_dca filtered_data day hour (SInt 100);
      mret {| Strategy := weekly_label day hour; Avg_Price := snd r |}));
  daily ← for_each (range 24) (fun hour =>
    r ← simulate_daily_dca filtered_data hour (SInt 100);
    mret {| Strategy := daily_label hour; Avg_Price := snd r |});
  r ← simulate_hourly_dca filtered_data (SInt 100);
  let results := concat weekly ++ daily ++ [{| Strategy := hourly_label; Avg_Price := snd r |}] in
  mret (with_deviation (sort_values results)).

(** Line 137: the date range the prompt accepts. *)
Definition valid_range (min_date max_date start_date end_date : Z) : bool :=
  (min_date <=? start_date)%Z && (start_date <=? max_date)%Z &&
  (min_date <=? end_date)%Z && (end_date <=? max_date)%Z &&
  (start_date <=? end_date)%Z.

(** [main] from line 144 on, for the loaded table [data] and the two dates
    the prompt has accepted: the ranked table that is written to the CSV
    file and handed to the charts. *)
Definition main (data : loc) (start_date end_date : Z) : M (list ranked) :=
  filtered_data ← loc_slice data start_date end_date;
  compare_strategies filtered_data.

(** ** The bar charts (lines 88-116)

    What a chart draws: the rows of [top_30] with their recomputed
    deviation. *)
Definition visualize_bar_chart (results : list ranked) : list ranked :=
  let top_30 := firstn 30 results in
  with_deviation (map entry top_30).

Definition is_weekly (r : ranked) : bool := String.prefix "Weekly" (Strategy (entry r)).

Definition filtered_results (results : list ranked) : list ranked :=
  List.filter (fun r => negb (is_weekly r)) results.

Definition visualize_filtered_bar_chart (results : list ranked) : list ranked :=
  visualize_bar_chart (filtered_results results).

(** ** Fixtures *)

(** An hourly series of [n] rows from [t0] on with the constant open price
    [price] (one column, [Open]). *)
Definition hourly_index (t0 : Z) (n : nat) : list Z :=
  map (fun k => (t0 + Z.of_nat k * NS_PER_HOUR)%Z) (seq 0 n).

(** A table with the one column [Open], constant. *)
Definition constant_frame (idx : list Z) (price : float) : DataFrame :=
  {| index := idx;
     columns := [("Open"%string, FloatCol (repeat price (length idx)))] |}.

Definition constant_series (t0 : Z) (n : nat) (price : float) : DataFrame :=
  constant_frame (hourly_index t0 n) price.

(** 2024-01-01 00:00, a Monday. *)
Definition monday_2024 : Z := 1704067200 * 1000000000.

(** The fixture of the specification: three rows with the open prices
    10, 20 and 30, on three Mondays at 00:00, so that the hourly strategy,
    the daily strategy of hour 0 and the weekly strategy of Monday, hour 0,
    all buy at the three rows. *)
Definition fixture_10_20_30 : DataFrame :=
  {| index := [monday_2024; monday_2024 + 7 * NS_PER_DAY; monday_2024 + 14 * NS_PER_DAY]%Z;
     columns := [("Open"%string, FloatCol [10; 20; 30]%float)] |}.

Definition run {A : Type} (m : M A) (h : heap) : outcome A := fst (m h).

(** ** The three simulators as one family

    The strategies the comparator enumerates, the simulator of each, and
    the rows each one buys at (the frame [purchases] before the two columns
    are added). *)
Inductive strategy : Type :=
| Hourly
| Daily (hour : Z)
| Weekly (weekday hour : Z).

Definition simulate (s : strategy) (data : loc) (amount : scalar float)
  : M (loc * float) :=
  match s with
  | Hourly => simulate_hourly_dca data amount
  | Daily hour => simulate_daily_dca data hour amount
  | Weekly weekday hour => simulate_weekly_dca data weekday hour amount
  end.

Definition bucket (s : strategy) (t : Z) : bool :=
  match s with
  | Hourly => true
  | Daily hour => (hour_of t =? hour)%Z
  | Weekly weekday hour => (dayofweek t =? weekday)%Z && (hour_of t =? hour)%Z
  end.

Definition matched (s : strategy) (df : DataFrame) : DataFrame :=
  match s with
  | Hourly => dropna_frame (resample_first_frame df)
  | _ => frame_select (map (bucket s) (index df)) df
  end.

(** The cells of a column of the table in the rows a strategy buys at. *)
Definition matched_col (s : strategy) (df : DataFrame) (c : column float)
  : column float :=
  match s with
  | Hourly =>
      col_select (notna_mask (resample_first_frame df))
                 (resample_first_col (index df) (bins (index df)) c)
  | _ => col_select (map (bucket s) (index df)) c
  end.

(** The intermediate frame a simulator allocates before [purchases]. *)
Definition derived (s : strategy) (df : DataFrame) : DataFrame :=
  match s with
  | Hourly => resample_first_frame df
  | _ => frame_select (map (bucket s) (index df)) df
  end.

(** Every column of a frame has one cell per row. *)
Definition wf_frame (df : DataFrame) : Prop :=
  Forall (fun kc => col_len (snd kc) = length (index df)) (columns df).

(** The cell of a column in the row at position [k]. *)
Definition cell (c : column float) (k : nat) : option (scalar float) :=
  match c with
  | IntCol xs => SInt <$> xs !! k
  | FloatCol xs => SFloat <$> xs !! k
  end.

(** The row at position [k] of [df] is the row at position [k'] of [df']:
    the same label and the same cell in every column. *)
Definition same_row (df : DataFrame) (k : nat) (df' : DataFrame) (k' : nat) : Prop :=
  index df' !! k' = index df !! k ∧
  ∀ (name : string) (c : column float),
    lookup_col name (columns df) = Some c →
    ∃ c', lookup_col name (columns df') = Some c' ∧ cell c' k' = cell c k.

(** Every frame of [h] is still there, unchanged, in [h']. *)
Definition preserved (h h' : heap) : Prop :=
  ∀ (l : loc) (df : DataFrame), h !! l = Some df → h' !! l = Some df.

(** The frame [buy] leaves at [purchases]. *)
Definition bought (amount : scalar float) (open : column float) (df : DataFrame)
  : DataFrame :=
  {| index := index df;
     columns := set_col "cost" (broadcast amount (length (index df)))
                  (set_col "btc_bought" (rtruediv amount open) (columns df)) |}.


(** ** The table of the comparator, strategy by strategy *)

Definition label (s : strategy) : string :=
  match s with
  | Hourly => hourly_label
  | Daily hour => daily_label hour
  | Weekly weekday hour => weekly_label weekday hour
  end.

(** The strategies in the order in which lines 151-169 append their
    results. *)
Definition all_strategies : list strategy :=
  concat (map (fun day => map (Weekly day) (range 24)) (range 7)) ++
  map Daily (range 24) ++ [Hourly].

(** The result of a strategy on a table whose [Open] column is [open]. *)
Definition strategy_result (df : DataFrame) (open : column float) (s : strategy)
  : result :=
  {| Strategy := label s;
     Avg_Price := avg_price_of (SInt 100) (matched_col s df open) |}.

(** ** Hours in text *)

Definition digit (d : Z) : string :=
  String (ascii_of_nat (48 + Z.to_nat d)) EmptyString.

(** An hour of the day in decimal, without padding: one digit for 0-9,
    two for 10-23. *)
Definition hour_text (hour : Z) : string :=
  if (hour <? 10)%Z then digit hour
  else (digit (hour / 10) ++ digit (hour mod 10))%string.

(** The [HH] of the specification: two digits, zero-padded. *)
Definition padded_hour (hour : Z) : string :=
  (digit (hour / 10) ++ digit (hour mod 10))%string.

(** The labels with the hour written by [hour_text]. *)
Definition expected_labels : list string :=
  concat (map (fun day =>
                 map (fun hour => ("Weekly " ++ day ++ " " ++ hour_text hour ++ ":00")%string)
                     (range 24))
              weekday_names) ++
  map (fun hour => ("Daily " ++ hour_text hour ++ ":00")%string) (range 24) ++
  ["Hourly"%string].

(** [s.endswith(suffix)]. *)
Definition ends_with (suffix s : string) : bool :=
  let n := String.length s in
  let m := String.length suffix in
  (m <=? n)%nat && String.eqb (substring (n - m) m s) suffix.

(** The label ends with [HH:00] for an hour [HH] of the day. *)
Definition hh_formatted (s : string) : bool :=
  existsb (fun hour => ends_with (padded_hour hour ++ ":00") s) (range 24).

Definition labels (table : list ranked) : list string :=
  map (fun r => Strategy (entry r)) table.

(** ** Order and sign of average prices *)

(** [a] may stand before [b] in the ascending order: [b] is not less. *)
Definition ranks_before (a b : result) : Prop :=
  PrimFloat.ltb (Avg_Price b) (Avg_Price a) = false.

(** [0 < x < inf]. *)
Definition positive_finite (x : float) : bool :=
  PrimFloat.ltb 0 x && PrimFloat.ltb x infinity.

(** An hourly table with a gap: one row on Monday 2024-01-01 00:00 and one
    on Thursday 00:00. *)
Definition gap_series : DataFrame :=
  {| index := [monday_2024; monday_2024 + 3 * NS_PER_DAY]%Z;
     columns := [("Open"%string, FloatCol [100; 100]%float)] |}.

(** ** The constant table: what each strategy should give *)

(** The strategy buys at no row of the table. *)
Definition buys_nothing (s : strategy) (df : DataFrame) : bool :=
  match index (matched s df) with
  | [] => true
  | _ :: _ => false
  end.

(** The row of a strategy in the ranked table of a table with the constant
    open price 100: average price 100 and deviation 0 when it buys, NaN
    and NaN when it does not. *)
Definition constant_row (df : DataFrame) (s : strategy) : ranked :=
  if buys_nothing s df
  then {| entry := {| Strategy := label s; Avg_Price := nan |};
          Relative_Deviation := nan |}
  else {| entry := {| Strategy := label s; Avg_Price := 100 |};
          Relative_Deviation := 0 |}.

(** ** Amounts and prices in exact arithmetic *)

(** A positive amount: a Python int whose total over [n] purchases stays
    in [int64], or a positive float. *)
Definition positive_amount (n : nat) (amount : scalar Qc) : Prop :=
  match amount with
  | SInt z => (0 < z ∧ Z.of_nat n * z < 2 ^ 63)%Z
  | SFloat q => (0 < q)%Qc
  end.

Definition Qcsum (xs : list Qc) : Qc := fold_right Qcplus 0%Qc xs.

Definition positive_prices (prices : list Qc) : Prop :=
  Forall (fun p => (0 < p)%Qc) prices.

(** The order [sort_values] leaves: the rows with a price first, in
    ascending order, then the NaN rows. *)
Definition ranked_order (rs : list result) : Prop :=
  ∃ priced nans : list result,
    rs = priced ++ nans ∧
    Forall (fun r => PrimFloat.is_nan (Avg_Price r) = false) priced ∧
    Forall (fun r => PrimFloat.is_nan (Avg_Price r) = true) nans ∧
    StronglySorted ranks_before priced.

(** ** The heat maps (lines 46-86)

    A heat map is the labelled matrix that is handed to [sns.heatmap]. *)

(** Line 58. *)
Definition day_order : list string :=
  ["Monday"; "Tuesday"; "Wednesday"; "Thursday"; "Friday"; "Saturday"; "Sunday"]%string.

(** The frame that [pivot] returns: row labels, column labels and one row
    of cells per row label. *)
Record grid : Type := mkGrid {
  row_labels : list string;
  col_labels : list Z;
  cells : list (list float)
}.

(** The distinct labels in ascending order (the axes [pivot] builds). *)
Fixpoint insert_sorted {A : Type} (leb : A → A → bool) (x : A) (xs : list A) : list A :=
  match xs with
  | [] => [x]
  | y :: ys =>
      if leb x y
      then if leb y x then xs else x :: xs
      else y :: insert_sorted leb x ys
  end.

Definition sorted_unique {A : Type} (leb : A → A → bool) (xs : list A) : list A :=
  fold_right (insert_sorted leb) [] xs.

(** The values of the rows [(Day, Hour, Avg_Price)] with a given day and
    hour. *)
Definition entries_at (rows : list (string * Z * float)) (day : string) (hour : Z)
  : list float :=
  map snd (List.filter (fun r => String.eqb (fst (fst r)) day && (snd (fst r) =? hour)%Z)
                       rows).

(** [df.pivot(index='Day', columns='Hour', values='Avg_Price')] on the
    rows [(Day, Hour, Avg_Price)] of a frame: the days, sorted, label the
    rows, the hours, sorted, label the columns, and a cell holds the value
    of the row with that day and hour, NaN when there is none.  [None] is
    the [ValueError] that pandas raises when two rows have the same day
    and hour. *)
Definition pivot (rows : list (string * Z * float)) : option grid :=
  let days := sorted_unique String.leb (map (fun r => fst (fst r)) rows) in
  let hours := sorted_unique Z.leb (map (fun r => snd (fst r)) rows) in
  if forallb (fun day =>
       forallb (fun hour => (length (entries_at rows day hour) <=? 1)%nat) hours) days
  then Some {| row_labels := days;
               col_labels := hours;
               cells := map (fun day => map (fun hour => hd nan (entries_at rows day hour))
                                            hours) days |}
  else None.

(** [reindex(labels)]: the rows in the order of [labels]; a label that the
    frame does not have gets a row of NaN. *)
Definition reindex (labels : list string) (g : grid) : grid :=
  {| row_labels := labels;
     col_labels := col_labels g;
     cells := map (fun l =>
                match List.find (fun lc => String.eqb (fst lc) l)
                                (combine (row_labels g) (cells g)) with
                | Some lc => snd lc
                | None => repeat nan (length (col_labels g))
                end) labels |}.

(** [sort_values(by='Hour', ascending=False)] on rows [(Hour, Avg_Price)]
    (an insertion sort; the hours of line 74 are distinct, so that the
    order of equal keys plays no role). *)
Fixpoint insert_by_hour_desc (r : Z * float) (rs : list (Z * float)) : list (Z * float) :=
  match rs with
  | [] => [r]
  | r' :: rs' =>
      if (fst r' <? fst r)%Z then r :: r' :: rs' else r' :: insert_by_hour_desc r rs'
  end.

Definition sort_by_hour_desc (rs : list (Z * float)) : list (Z * float) :=
  fold_left (fun acc r => insert_by_hour_desc r acc) rs [].

(** What [generate_heatmaps] draws: the matrix of the first heat map and
    the rows [(Hour, Avg_Price)] of the second ([set_index('Hour')]), or
    the [ValueError] of [pivot]. *)
Inductive heatmaps : Type :=
| Drawn (heatmap_daily_hourly : grid) (hourly_df : list (Z * float))
| DuplicateEntries.

Definition generate_heatmaps (data : loc) (amount : scalar float) : M heatmaps :=
  daily_hourly_results ← for_each (range 7) (fun day =>
    for_each (range 24) (fun hour =>
      r ← simulate_weekly_dca data day hour amount;
      mret (day, hour, snd r)));
  let daily_hourly_df :=
    map (fun r => (nth (Z.to_nat (fst (fst r))) day_order ""%string, snd (fst r), snd r))
        (concat daily_hourly_results) in
  match pivot daily_hourly_df with
  | None => mret DuplicateEntries
  | Some heatmap_daily_hourly =>
      let heatmap_daily_hourly := reindex (rev day_order) heatmap_daily_hourly in
      hourly_results ← for_each (range 24) (fun hour =>
        r ← simulate_daily_dca data hour amount;
        mret (hour, snd r));
      mret (Drawn heatmap_daily_hourly (sort_by_hour_desc hourly_results))
  end.


(** ** The prompt (lines 130-142)

    The lines typed at the prompt are a list; [input()] takes the first
    and raises [EOFError] when none is left, which ends the program
    (line 140 catches [ValueError] only).  [strptime] stands for
    [datetime.strptime(_, "%Y-%m-%d")] with the date as a timestamp,
    [None] for its [ValueError]; [min_date] and [max_date] are the least
    and the greatest label of a table that is not empty. *)
Inductive message : Type :=
| OutOfRange      (* line 140 *)
| InvalidFormat.  (* line 142 *)

Inductive prompted : Type :=
| Accepted (start_date end_date : Z)
| EOFError.

Section Prompt.

Variable strptime : string → option Z.
Variables min_date max_date : Z.

(** One turn of the loop on the two lines it has read: the dates, or the
    message it prints. *)
Definition read_dates (start_date end_date : string) : message + Z * Z :=
  match strptime start_date with
  | None => inl InvalidFormat
  | Some start_date =>
      match strptime end_date with
      | None => inl InvalidFormat
      | Some end_date =>
          if valid_range min_date max_date start_date end_date
          then inr (start_date, end_date)
          else inl OutOfRange
      end
  end.

(** The loop: the messages printed and how it ends. *)
Fixpoint prompt (lines : list string) : list message * prompted :=
  match lines with
  | start_date :: end_date :: rest =>
      match read_dates start_date end_date with
      | inr (start_date, end_date) => ([], Accepted start_date end_date)
      | inl m => let (ms, r) := prompt rest in (m :: ms, r)
      end
  | _ => ([], EOFError)
  end.

End Prompt.

(** A stand-in for [strptime] that knows two dates. *)
Definition two_dates (s : string) : option Z :=
  if String.eqb s "2024-01-01" then Some monday_2024
  else if String.eqb s "2024-01-15" then Some (monday_2024 + 14 * NS_PER_DAY)%Z
  else None.

(** The amounts the model covers: a float, or a Python int in the range
    of [int64].  (With a larger int pandas makes the [cost] column
    [uint64] or [object], which [broadcast] and [of_int64] do not
    describe.) *)
Definition int64_amount {F : Type} (amount : scalar F) : Prop :=
  match amount with
  | SInt z => (- 2 ^ 63 <= z < 2 ^ 63)%Z
  | SFloat _ => True
  end.

(** ** [df.loc[start:end]] on an index in any order

    [loc_slice_frame] is the slice on a monotonic increasing index.  In
    general [Index.slice_locs] asks [get_slice_bound] for the two
    positions.  A label that occurs in the index gives the position of
    its first occurrence (left bound) or the position after its last
    (right bound) when its occurrences are consecutive; when they are
    not, pandas raises [KeyError] (no slice bound for a non-unique
    label).  A label that does not occur is located by [searchsorted] on
    a monotonic index, increasing or decreasing
    ([_searchsorted_monotonic]), and raises [KeyError] on an index that is
    neither.  [None] stands for the [KeyError]. *)
Fixpoint is_monotonic (le : Z → Z → bool) (idx : list Z) : bool :=
  match idx with
  | x :: (y :: _) as rest => le x y && is_monotonic le rest
  | _ => true
  end.

Fixpoint first_position (idx : list Z) (v : Z) : nat :=
  match idx with
  | [] => 0
  | x :: idx' => if (x =? v)%Z then 0 else S (first_position idx' v)
  end.

Definition occurrences (idx : list Z) (v : Z) : nat :=
  length (List.filter (fun t => (t =? v)%Z) idx).

Inductive side : Type := side_left | side_right.

Definition get_slice_bound (idx : list Z) (v : Z) (sd : side) : option nat :=
  let n := occurrences idx v in
  if (n =? 0)%nat then
    if is_monotonic Z.leb idx then
      Some (match sd with
            | side_left => searchsorted_left idx v
            | side_right => searchsorted_right idx v
            end)
    else if is_monotonic Z.geb idx then
      Some (length idx - match sd with
                         | side_left => searchsorted_right (rev idx) v
                         | side_right => searchsorted_left (rev idx) v
                         end)%nat
    else None
  else
    let i := first_position idx v in
    if forallb (fun t => (t =? v)%Z) (firstn n (skipn i idx))
    then Some (match sd with
               | side_left => i
               | side_right => (i + n)%nat
               end)
    else None.

Definition loc_frame (start_date end_date : Z) (df : DataFrame) : option DataFrame :=
  i ← get_slice_bound (index df) start_date side_left;
  j ← get_slice_bound (index df) end_date side_right;
  Some (frame_slice i j df).

(** A table with the newest row first: Tuesday 2024-01-02 00:00, then
    Monday 00:00. *)
Definition newest_first : DataFrame :=
  {| index := [monday_2024 + NS_PER_DAY; monday_2024]%Z;
     columns := [("Open"%string, FloatCol [200; 100]%float)] |}.

(** * Properties *)

(** ** Columns of a frame *)

Lemma lookup_set_same name c cols :
  lookup_col name (set_col name c cols) = Some c.
Proof.
  induction cols as [|[k c'] cols IH]; simpl.
  - by rewrite String.eqb_refl.
  - destruct (String.eqb k name) eqn:E; simpl; rewrite E; auto.
Qed.

Lemma lookup_set_other name name' c cols :
  String.eqb name name' = false →
  lookup_col name' (set_col name c cols) = lookup_col name' cols.
Proof.
  intros Hne. induction cols as [|[k c'] cols IH]; simpl.
  - by rewrite Hne.
  - destruct (String.eqb k name) eqn:E; simpl.
    + apply String.eqb_eq in E. subst k. by rewrite Hne.
    + by rewrite IH.
Qed.

(** ** Running the simulators *)

Lemma deref_some (h : heap) (l : loc) (df : DataFrame) :
  h !! l = Some df → deref l h = (Return df, h).
Proof. intros E. unfold deref. by rewrite E. Qed.

Lemma deref_none (h : heap) (l : loc) :
  h !! l = None → deref l h = (Raise InvalidReference, h).
Proof. intros E. unfold deref. by rewrite E. Qed.

Lemma buy_run (h : heap) (p : loc) (df : DataFrame) (amount : scalar float) :
  h !! p = Some df →
  buy p amount h =
    match lookup_col "Open" (columns df) with
    | Some open =>
        (Return (p, truediv (col_sum (broadcast amount (length (index df))))
                            (col_sum (rtruediv amount open))),
         <[p := bought amount open df]> h)
    | None => (Raise (KeyError "Open"), h)
    end.
Proof.
  intros Hp. pose proof (lookup_lt_Some _ _ _ Hp) as Hlt.
  unfold buy, getitem, setitem, setitem_scalar, store, mbind, M_bind, mret, M_ret, raise.
  rewrite (deref_some _ _ _ Hp).
  destruct (lookup_col "Open" (columns df)) as [open|] eqn:Hopen; [|done].
  rewrite (deref_some _ _ _ Hp).
  erewrite deref_some by (by apply list_lookup_insert_eq).
  rewrite list_insert_insert_eq.
  erewrite deref_some by (by apply list_lookup_insert_eq).
  cbn [columns index].
  rewrite lookup_set_same.
  erewrite deref_some by (by apply list_lookup_insert_eq).
  cbn [columns index].
  rewrite lookup_set_other by reflexivity.
  rewrite lookup_set_same.
  reflexivity.
Qed.

Lemma deref_fresh (h : heap) (df : DataFrame) :
  deref (length h) (h ++ [df]) = (Return df, h ++ [df]).
Proof.
  apply deref_some. rewrite lookup_app_r by lia. by rewrite Nat.sub_diag.
Qed.

Ltac run_masked Hd :=
  unfold get_index, getitem_mask, copy, alloc, mbind, M_bind, mret, M_ret;
  repeat (first [ rewrite (deref_some _ _ _ Hd) | rewrite deref_fresh ];
          cbn beta iota);
  rewrite length_app; simpl length; rewrite Nat.add_1_r;
  rewrite <- app_assoc; reflexivity.

Lemma simulate_daily_dca_run (h : heap) (data : loc) (df : DataFrame) hour amount :
  h !! data = Some df →
  simulate_daily_dca data hour amount h =
    buy (S (length h)) amount
      (h ++ [frame_select (map (fun t => (hour_of t =? hour)%Z) (index df)) df;
             frame_select (map (fun t => (hour_of t =? hour)%Z) (index df)) df]).
Proof. intros Hd. unfold simulate_daily_dca. run_masked Hd. Qed.

Lemma simulate_weekly_dca_run (h : heap) (data : loc) (df : DataFrame) weekday hour amount :
  h !! data = Some df →
  simulate_weekly_dca data weekday hour amount h =
    buy (S (length h)) amount
      (h ++ [frame_select (map (fun t => (dayofweek t =? weekday)%Z && (hour_of t =? hour)%Z) (index df)) df;
             frame_select (map (fun t => (dayofweek t =? weekday)%Z && (hour_of t =? hour)%Z) (index df)) df]).
Proof. intros Hd. unfold simulate_weekly_dca. run_masked Hd. Qed.

Lemma simulate_hourly_dca_run (h : heap) (data : loc) (df : DataFrame) amount :
  h !! data = Some df →
  simulate_hourly_dca data amount h =
    buy (S (length h)) amount
      (h ++ [resample_first_frame df; dropna_frame (resample_first_frame df)]).
Proof.
  intros Hd. unfold simulate_hourly_dca, resample_first, dropna.
  run_masked Hd.
Qed.

Lemma simulate_run (s : strategy) (h : heap) (data : loc) (df : DataFrame) amount :
  h !! data = Some df →
  simulate s data amount h =
    buy (S (length h)) amount (h ++ [derived s df; matched s df]).
Proof.
  intros Hd. destruct s; simpl.
  - by apply simulate_hourly_dca_run.
  - by apply simulate_daily_dca_run.
  - by apply simulate_weekly_dca_run.
Qed.

Lemma simulate_dangling (s : strategy) (h : heap) (data : loc) amount :
  h !! data = None → simulate s data amount h = (Raise InvalidReference, h).
Proof.
  intros Hd.
  destruct s; simpl;
    unfold simulate_hourly_dca, simulate_daily_dca, simulate_weekly_dca,
      resample_first, get_index, mbind, M_bind;
    by rewrite (deref_none _ _ Hd).
Qed.

Lemma lookup_purchases (h : heap) (a b : DataFrame) :
  (h ++ [a; b]) !! S (length h) = Some b.
Proof.
  rewrite lookup_app_r by lia.
  replace (S (length h) - length h)%nat with 1%nat by lia. reflexivity.
Qed.

(** What a simulator returns and the heap it leaves, when the table has an
    [Open] column in the rows it buys at. *)
Lemma simulate_returns (s : strategy) (h : heap) (data : loc) (df : DataFrame)
    amount (open : column float) :
  h !! data = Some df →
  lookup_col "Open" (columns (matched s df)) = Some open →
  simulate s data amount h =
    (Return (S (length h),
             truediv (col_sum (broadcast amount (length (index (matched s df)))))
                     (col_sum (rtruediv amount open))),
     h ++ [derived s df; bought amount open (matched s df)]).
Proof.
  intros Hd Hopen.
  rewrite (simulate_run _ _ _ _ _ Hd).
  rewrite (buy_run _ _ _ _ (lookup_purchases h _ _)), Hopen.
  f_equal.
  rewrite insert_app_r_alt by lia.
  replace (S (length h) - length h)%nat with 1%nat by lia. reflexivity.
Qed.

Lemma simulate_raises (s : strategy) (h : heap) (data : loc) (df : DataFrame) amount :
  h !! data = Some df →
  lookup_col "Open" (columns (matched s df)) = None →
  simulate s data amount h =
    (Raise (KeyError "Open"), h ++ [derived s df; matched s df]).
Proof.
  intros Hd Hopen.
  rewrite (simulate_run _ _ _ _ _ Hd).
  by rewrite (buy_run _ _ _ _ (lookup_purchases h _ _)), Hopen.
Qed.

Lemma preserved_app (h : heap) (xs : list DataFrame) : preserved h (h ++ xs).
Proof. intros l df Hl. by apply lookup_app_l_Some. Qed.

Lemma simulate_preserved (s : strategy) (h : heap) (data : loc) (amount : scalar float) :
  preserved h (snd (simulate s data amount h)).
Proof.
  destruct (h !! data) as [df|] eqn:Hd.
  - destruct (lookup_col "Open" (columns (matched s df))) as [open|] eqn:Hopen.
    + rewrite (simulate_returns _ _ _ _ _ _ Hd Hopen). apply preserved_app.
    + rewrite (simulate_raises _ _ _ _ _ Hd Hopen). apply preserved_app.
  - rewrite (simulate_dangling _ _ _ _ Hd). by intros l df Hl.
Qed.

(** C8. The simulators never change a frame that exists when they are
    called, the input table included: whatever the heap, the table, the
    strategy and the amount, every frame of the heap is the same after the
    call (also when the call raises), and the frame [purchases] a simulator
    returns is a new one. *)
Theorem simulators_leave_input_unchanged
    (s : strategy) (h : heap) (data : loc) (amount : scalar float) :
  preserved h (snd (simulate s data amount h)) ∧
  (∀ (purchases : loc) (avg_price : float),
     fst (simulate s data amount h) = Return (purchases, avg_price) →
     h !! purchases = None ∧
     ∃ df, snd (simulate s data amount h) !! purchases = Some df).
Proof.
  split; [apply simulate_preserved|].
  intros purchases avg_price.
  destruct (h !! data) as [df|] eqn:Hd.
  - destruct (lookup_col "Open" (columns (matched s df))) as [open|] eqn:Hopen.
    + rewrite (simulate_returns _ _ _ _ _ _ Hd Hopen). simpl.
      intros [= <- _]. split.
      * apply lookup_ge_None. lia.
      * eexists. apply lookup_purchases.
    + rewrite (simulate_raises _ _ _ _ _ Hd Hopen). intros [=].
  - rewrite (simulate_dangling _ _ _ _ Hd). intros [=].
Qed.

(** ** Well-formed frames and the matched rows *)

Lemma lookup_col_map (f : column float → column float) name cols :
  lookup_col name (map (fun kc => (fst kc, f (snd kc))) cols) =
  f <$> lookup_col name cols.
Proof.
  induction cols as [|[k c] cols IH]; simpl; [done|].
  destruct (String.eqb k name); [done|apply IH].
Qed.

Lemma lookup_col_In name cols c :
  lookup_col name cols = Some c → In (name, c) cols.
Proof.
  induction cols as [|[k c'] cols IH]; simpl; [done|].
  destruct (String.eqb k name) eqn:E.
  - intros [= ->]. apply String.eqb_eq in E. subst. by left.
  - intros Hc. right. by apply IH.
Qed.

Lemma wf_lookup df name c :
  wf_frame df → lookup_col name (columns df) = Some c →
  col_len c = length (index df).
Proof.
  intros Hwf Hc. apply lookup_col_In in Hc.
  unfold wf_frame in Hwf. rewrite Forall_forall in Hwf.
  apply list_elem_of_In in Hc.
  exact (Hwf _ Hc).
Qed.

Lemma select_length {A B : Type} (mask : list bool) (xs : list A) (ys : list B) :
  length xs = length ys → length (select mask xs) = length (select mask ys).
Proof.
  revert xs ys. induction mask as [|b mask IH]; intros [|x xs] [|y ys] Hl;
    simpl in *; try done.
  destruct b; simpl; auto.
Qed.

Lemma col_select_len (mask : list bool) (c : column float) (idx : list Z) :
  col_len c = length idx →
  col_len (col_select mask c) = length (select mask idx).
Proof. destruct c; simpl; intros Hl; by apply select_length. Qed.

Lemma frame_select_lookup mask df name c :
  lookup_col name (columns df) = Some c →
  lookup_col name (columns (frame_select mask df)) = Some (col_select mask c).
Proof.
  intros Hc. unfold frame_select. cbn [columns].
  by rewrite lookup_col_map, Hc.
Qed.

Lemma resample_first_lookup df name c :
  lookup_col name (columns df) = Some c →
  lookup_col name (columns (resample_first_frame df)) =
    Some (resample_first_col (index df) (bins (index df)) c).
Proof.
  intros Hc. unfold resample_first_frame. cbn [columns].
  by rewrite lookup_col_map, Hc.
Qed.

Lemma matched_lookup (s : strategy) df name c :
  lookup_col name (columns df) = Some c →
  lookup_col name (columns (matched s df)) = Some (matched_col s df c).
Proof.
  intros Hc. destruct s; cbn [matched matched_col].
  - unfold dropna_frame. apply frame_select_lookup.
    by apply resample_first_lookup.
  - by apply frame_select_lookup.
  - by apply frame_select_lookup.
Qed.

Lemma matched_col_len (s : strategy) df c :
  col_len c = length (index df) →
  col_len (matched_col s df c) = length (index (matched s df)).
Proof.
  intros Hl. destruct s; cbn [matched matched_col].
  - unfold dropna_frame, frame_select, resample_first_frame, resample_first_col.
    cbn [index col_select col_len].
    apply select_length. by rewrite !length_map.
  - by apply col_select_len.
  - by apply col_select_len.
Qed.

(** A simulator returns the average price of the formula at the open
    prices of the rows it buys at. *)
Lemma simulate_avg_price (s : strategy) (h : heap) (data : loc) (df : DataFrame)
    amount (open : column float) :
  h !! data = Some df →
  wf_frame df →
  lookup_col "Open" (columns df) = Some open →
  run (simulate s data amount) h =
    Return (S (length h), avg_price_of amount (matched_col s df open)).
Proof.
  intros Hd Hwf Hopen. unfold run.
  rewrite (simulate_returns _ _ _ _ _ _ Hd (matched_lookup s _ _ _ Hopen)).
  simpl. unfold avg_price_of.
  by rewrite (matched_col_len s df open (wf_lookup _ _ _ Hwf Hopen)).
Qed.

Lemma col_len_0 (c : column float) :
  col_len c = 0%nat → c = IntCol [] ∨ c = FloatCol [].
Proof. destruct c as [[|]|[|]]; simpl; intros; try done; auto. Qed.

Lemma avg_price_of_empty (amount : scalar float) (c : column float) :
  col_len c = 0%nat →
  ∃ cost btc_bought : scalar float,
    avg_price_of amount c = truediv cost btc_bought ∧
    to_float cost = 0%float ∧ to_float btc_bought = 0%float ∧
    PrimFloat.is_nan (truediv cost btc_bought) = true.
Proof.
  intros Hc. unfold avg_price_of. rewrite Hc.
  exists (col_sum (broadcast amount 0)), (col_sum (rtruediv amount c)).
  split; [done|].
  destruct (col_len_0 c Hc) as [-> | ->]; destruct amount; by vm_compute.
Qed.

(** C3. A strategy that buys at no row of the table (the table having its
    [Open] column): the simulator does not raise; it returns the quotient
    of a zero total cost by a zero total quantity, which is NaN. *)
Theorem empty_match_gives_nan (s : strategy) (h : heap) (data : loc) (df : DataFrame)
    (amount : scalar float) :
  h !! data = Some df →
  wf_frame df →
  is_Some (lookup_col "Open" (columns df)) →
  index (matched s df) = [] →
  ∃ (purchases : loc) (cost btc_bought : scalar float),
    run (simulate s data amount) h = Return (purchases, truediv cost btc_bought) ∧
    to_float cost = 0%float ∧ to_float btc_bought = 0%float ∧
    PrimFloat.is_nan (truediv cost btc_bought) = true.
Proof.
  intros Hd Hwf [open Hopen] Hempty.
  rewrite (simulate_avg_price _ _ _ _ _ _ Hd Hwf Hopen).
  destruct (avg_price_of_empty amount (matched_col s df open)) as (cost & btc & -> & H).
  { rewrite (matched_col_len s df open (wf_lookup _ _ _ Hwf Hopen)).
    by rewrite Hempty. }
  by exists (S (length h)), cost, btc.
Qed.

(** ** The average price in exact arithmetic *)

Section Exact.
Local Existing Instance exact.
Local Open Scope Qc_scope.

Lemma fold_left_Qcplus (xs : list Qc) (a : Qc) :
  fold_left Qcplus xs a = a + Qcsum xs.
Proof.
  revert a. induction xs as [|x xs IH]; intros a; simpl.
  - ring.
  - rewrite IH. ring.
Qed.

Lemma Qcsum_app (xs ys : list Qc) : Qcsum (xs ++ ys) = Qcsum xs + Qcsum ys.
Proof.
  induction xs as [|x xs IH]; simpl.
  - change (Qcsum ys = 0 + Qcsum ys). ring.
  - rewrite IH. ring.
Qed.

Lemma seq_sum_exact (xs : list Qc) : seq_sum xs = Qcsum xs.
Proof.
  destruct xs as [|x xs]; [done|]. unfold seq_sum. by rewrite fold_left_Qcplus.
Qed.

Lemma add_lanes_nil (r : list Qc) : add_lanes r [] = r.
Proof. by destruct r. Qed.

Lemma add_lanes_length (r ys : list Qc) : length (add_lanes r ys) = length r.
Proof.
  revert ys. induction r as [|a r IH]; intros [|y ys]; simpl; try done. by rewrite IH.
Qed.

Lemma add_lanes_exact (r ys : list Qc) :
  (length ys <= length r)%nat → Qcsum (add_lanes r ys) = Qcsum r + Qcsum ys.
Proof.
  revert ys. induction r as [|a r IH]; intros [|y ys] Hl; simpl in *; try lia.
  - change (0 = 0 + 0). ring.
  - change (a + Qcsum r = a + Qcsum r + 0). ring.
  - rewrite IH by lia. ring.
Qed.

Lemma accumulate_exact (groups : nat) (r xs : list Qc) :
  length r = 8%nat ∨ xs = [] →
  Qcsum (fst (accumulate groups r xs)) + Qcsum (snd (accumulate groups r xs)) =
  Qcsum r + Qcsum xs.
Proof.
  revert r xs. induction groups as [|g IH]; intros r xs Hr; simpl; [done|].
  rewrite IH.
  - destruct Hr as [Hr| ->].
    + rewrite add_lanes_exact by (rewrite length_firstn; lia).
      rewrite <- (firstn_skipn 8 xs) at 3. rewrite Qcsum_app. ring.
    + by rewrite firstn_nil, skipn_nil, add_lanes_nil.
  - destruct Hr as [Hr| ->]; [left; by rewrite add_lanes_length|right; apply skipn_nil].
Qed.

Lemma unrolled_sum_exact (xs : list Qc) : unrolled_sum xs = Qcsum xs.
Proof.
  unfold unrolled_sum.
  assert (length (firstn 8 xs) = 8%nat ∨ skipn 8 xs = []) as Hr.
  { destruct (Nat.le_gt_cases 8 (length xs)) as [Hn|Hn].
    - left. rewrite length_firstn. lia.
    - right. apply skipn_all2. lia. }
  pose proof (accumulate_exact (length xs / 8 - 1) (firstn 8 xs) (skipn 8 xs) Hr) as Hacc.
  assert (Qcsum (firstn 8 xs) + Qcsum (skipn 8 xs) = Qcsum xs) as Hxs
    by (by rewrite <- Qcsum_app, firstn_skipn).
  rewrite Hxs in Hacc. clear Hxs Hr.
  destruct (accumulate _ _ _) as [r rest]. cbn [fst snd] in Hacc.
  destruct r as [|r0 [|r1 [|r2 [|r3 [|r4 [|r5 [|r6 [|r7 [|r8 r]]]]]]]]];
    try apply seq_sum_exact.
  rewrite fold_left_Qcplus, <- Hacc. simpl. ring.
Qed.

Lemma pairwise_sum_exact (fuel : nat) (xs : list Qc) : pairwise_sum fuel xs = Qcsum xs.
Proof.
  revert xs. induction fuel as [|fuel IH]; intros xs; simpl.
  - destruct (_ <? 8)%nat; [apply seq_sum_exact|].
    destruct (_ <=? 128)%nat; apply unrolled_sum_exact.
  - destruct (_ <? 8)%nat; [apply seq_sum_exact|].
    destruct (_ <=? 128)%nat; [apply unrolled_sum_exact|].
    rewrite !IH.
    change (Qcsum (firstn (length xs / 2 - (length xs / 2) mod 8) xs) +
            Qcsum (skipn (length xs / 2 - (length xs / 2) mod 8) xs) = Qcsum xs).
    by rewrite <- Qcsum_app, firstn_skipn.
Qed.

Lemma float_sum_exact (xs : list Qc) : float_sum xs = Qcsum xs.
Proof.
  unfold float_sum. rewrite pairwise_sum_exact. f_equal.
  induction xs as [|x xs IH]; simpl; [done|]. by rewrite IH.
Qed.

Lemma Qcsum_scale (a : Qc) (prices : list Qc) :
  Qcsum (map (fun p => a / p) prices) = a * Qcsum (map (fun p => 1 / p) prices).
Proof.
  induction prices as [|p prices IH]; simpl.
  - ring.
  - rewrite IH. unfold Qcdiv. ring.
Qed.

Lemma Qcinv_pos (p : Qc) : 0 < p → 0 < 1 / p.
Proof.
  intros Hp. unfold Qcdiv. rewrite Qcmult_1_l.
  unfold Qclt, Qcinv, Q2Qc in *. cbn [this] in *.
  rewrite !Qred_correct in *. by apply Qinv_lt_0_compat.
Qed.

Lemma Qcplus_pos_nonneg (a b : Qc) : 0 < a → 0 <= b → 0 < a + b.
Proof.
  intros Ha Hb.
  unfold Qclt, Qcle, Qcplus, Q2Qc in *. cbn [this] in *.
  rewrite !Qred_correct in *.
  apply (Qplus_lt_le_compat 0 a 0 b); assumption.
Qed.

Lemma Qcsum_inv_nonneg (prices : list Qc) :
  positive_prices prices → 0 <= Qcsum (map (fun p => 1 / p) prices).
Proof.
  induction 1 as [|p prices Hp _ IH]; simpl.
  - apply Qcle_refl.
  - apply Qclt_le_weak, Qcplus_pos_nonneg; [by apply Qcinv_pos|done].
Qed.

Lemma Qcsum_inv_pos (prices : list Qc) :
  prices ≠ [] → positive_prices prices →
  0 < Qcsum (map (fun p => 1 / p) prices).
Proof.
  intros Hne Hpos. destruct Hpos as [|p prices Hp Hrest]; [done|]. simpl.
  apply Qcplus_pos_nonneg; [by apply Qcinv_pos|by apply Qcsum_inv_nonneg].
Qed.

Lemma fold_left_Zadd_repeat (z : Z) (n : nat) (a : Z) :
  fold_left Z.add (repeat z n) a = (a + Z.of_nat n * z)%Z.
Proof.
  revert a. induction n as [|n IH]; intros a.
  - simpl. lia.
  - cbn [repeat fold_left]. rewrite IH. lia.
Qed.

Lemma wrap64_small (z : Z) : (- 2 ^ 63 <= z < 2 ^ 63)%Z → wrap64 z = z.
Proof.
  intros Hz. unfold wrap64. rewrite Z.mod_small; lia.
Qed.

Lemma Q2Qc_inject_plus (a b : Z) :
  Q2Qc (inject_Z (a + b)) = Q2Qc (inject_Z a) + Q2Qc (inject_Z b).
Proof.
  apply Qc_is_canon. unfold Qcplus, Q2Qc. cbn [this].
  rewrite !Qred_correct. rewrite inject_Z_plus. reflexivity.
Qed.

Lemma Qcsum_repeat (q : Qc) (n : nat) :
  Qcsum (repeat q n) = Q2Qc (inject_Z (Z.of_nat n)) * q.
Proof.
  induction n as [|n IH].
  - change (0 = 0 * q). ring.
  - change (q + Qcsum (repeat q n) = Q2Qc (inject_Z (Z.of_nat (S n))) * q).
    rewrite IH, Nat2Z.inj_succ. unfold Z.succ.
    rewrite Q2Qc_inject_plus. change (Q2Qc (inject_Z 1)) with 1. ring.
Qed.

Lemma Q2Qc_inject_mult (a b : Z) :
  Q2Qc (inject_Z (a * b)) = Q2Qc (inject_Z a) * Q2Qc (inject_Z b).
Proof.
  apply Qc_is_canon. unfold Qcmult, Q2Qc. cbn [this].
  rewrite !Qred_correct. rewrite inject_Z_mult. reflexivity.
Qed.

Lemma Q2Qc_inject_pos (z : Z) : (0 < z)%Z → 0 < Q2Qc (inject_Z z).
Proof.
  intros Hz. unfold Qclt, Q2Qc. cbn [this]. rewrite !Qred_correct.
  change 0%Q with (inject_Z 0). by rewrite <- Zlt_Qlt.
Qed.

(** The total cost is [n * amount]. *)
Lemma total_cost_exact (n : nat) (amount : scalar Qc) :
  positive_amount n amount →
  to_float (col_sum (broadcast amount n)) =
    Q2Qc (inject_Z (Z.of_nat n)) * to_float amount ∧ 0 < to_float amount.
Proof.
  destruct amount as [z|q]; simpl.
  - intros [Hz Hn]. split; [|by apply Q2Qc_inject_pos].
    unfold int_sum. rewrite fold_left_Zadd_repeat, Z.add_0_l.
    rewrite wrap64_small by lia. apply Q2Qc_inject_mult.
  - intros Hq. split; [|done].
    rewrite float_sum_exact. apply Qcsum_repeat.
Qed.

(** In exact arithmetic the average price is the closed form. *)
Lemma avg_price_exact (amount : scalar Qc) (prices : list Qc) :
  positive_amount (length prices) amount →
  prices ≠ [] →
  positive_prices prices →
  avg_price_of amount (FloatCol prices) = closed_form prices.
Proof.
  intros Ha Hne Hpos.
  unfold avg_price_of, closed_form, truediv. cbn [col_len].
  destruct (total_cost_exact _ _ Ha) as [-> Hamount].
  cbn [col_len rtruediv col_floats col_sum to_float fdiv exact of_int64].
  rewrite !float_sum_exact, seq_sum_exact.
  change (Q2Qc (inject_Z 1)) with 1.
  rewrite Qcsum_scale.
  pose proof (Qcsum_inv_pos prices Hne Hpos) as HS.
  apply Qclt_not_eq in HS. apply Qclt_not_eq in Hamount.
  field. split; congruence.
Qed.

(** C1 (amended).  For an amount in the range of the model each
    simulator returns the formula [sum(cost) / sum(amount / price_i)]
    evaluated in binary64, with the sums as numpy adds them, at the open
    prices of the rows it buys at.  For every positive amount and every
    non-empty list of positive prices, the same formula evaluated in exact
    arithmetic is the closed form [n / sum(1 / price_i)].  On the fixture
    with the prices 10, 20, 30 and the amount 100 the three simulators
    return, in binary64, exactly the binary64 value of the closed form. *)
Theorem avg_price_closed_form_exact (amount : scalar Qc) (prices : list Qc) :
  positive_amount (length prices) amount →
  prices ≠ [] →
  positive_prices prices →
  @avg_price_of Qc exact amount (FloatCol prices) = @closed_form Qc exact prices ∧
  (∀ (s : strategy) (h : heap) (data : loc) (df : DataFrame)
     (amount64 : scalar float) (open : column float),
     int64_amount amount64 →
     h !! data = Some df →
     wf_frame df →
     lookup_col "Open" (columns df) = Some open →
     run (simulate s data amount64) h =
       Return (S (length h),
               @avg_price_of float binary64 amount64 (matched_col s df open))) ∧
  (∀ s : strategy, In s [Hourly; Daily 0; Weekly 0 0] →
     run (simulate s 0%nat (SInt 100)) [fixture_10_20_30] =
       Return (2%nat, @closed_form float binary64 [10; 20; 30]%float)).
Proof.
  intros Ha Hne Hpos. split; [|split].
  - by apply avg_price_exact.
  - intros s h data df amount64 open _ Hd Hwf Hopen. by apply simulate_avg_price.
  - intros s [<-|[<-|[<-|[]]]]; vm_compute; reflexivity.
Qed.

(** C9 (amended).  For an amount in the range of the model each simulator
    returns the formula [sum(cost) / sum(amount / price_i)] evaluated in
    binary64, with the sums as numpy adds them, at the open prices of the
    rows it buys at.  Evaluated in exact arithmetic, on a non-empty list
    of positive prices, the formula gives the same average price for any
    two positive amounts. *)
Theorem avg_price_independent_of_amount_exact
    (amount amount' : scalar Qc) (prices : list Qc) :
  positive_amount (length prices) amount →
  positive_amount (length prices) amount' →
  prices ≠ [] →
  positive_prices prices →
  @avg_price_of Qc exact amount (FloatCol prices) =
    @avg_price_of Qc exact amount' (FloatCol prices) ∧
  (∀ (s : strategy) (h : heap) (data : loc) (df : DataFrame)
     (amount64 : scalar float) (open : column float),
     int64_amount amount64 →
     h !! data = Some df →
     wf_frame df →
     lookup_col "Open" (columns df) = Some open →
     run (simulate s data amount64) h =
       Return (S (length h),
               @avg_price_of float binary64 amount64 (matched_col s df open))).
Proof.
  intros Ha Ha' Hne Hpos. split.
  - rewrite (avg_price_exact amount) by done.
    by rewrite (avg_price_exact amount').
  - intros s h data df amount64 open _ Hd Hwf Hopen. by apply simulate_avg_price.
Qed.
End Exact.

Lemma avg_price_closed_form_exact_witness :
  @avg_price_of Qc exact (SInt 100) (FloatCol (map (fun z => Q2Qc (inject_Z z)) [10; 20; 30]%Z)) =
    @closed_form Qc exact (map (fun z => Q2Qc (inject_Z z)) [10; 20; 30]%Z) ∧
  (∀ (s : strategy) (h : heap) (data : loc) (df : DataFrame)
     (amount64 : scalar float) (open : column float),
     int64_amount amount64 →
     h !! data = Some df →
     wf_frame df →
     lookup_col "Open" (columns df) = Some open →
     run (simulate s data amount64) h =
       Return (S (length h),
               @avg_price_of float binary64 amount64 (matched_col s df open))) ∧
  (∀ s : strategy, In s [Hourly; Daily 0; Weekly 0 0] →
     run (simulate s 0%nat (SInt 100)) [fixture_10_20_30] =
       Return (2%nat, @closed_form float binary64 [10; 20; 30]%float)).
Proof.
  apply (avg_price_closed_form_exact (SInt 100)
           (map (fun z => Q2Qc (inject_Z z)) [10; 20; 30]%Z)).
  - simpl. lia.
  - discriminate.
  - repeat constructor.
Defined.

Lemma avg_price_independent_of_amount_exact_witness :
  @avg_price_of Qc exact (SInt 1) (FloatCol [Q2Qc (inject_Z 49)]) =
    @avg_price_of Qc exact (SInt 100) (FloatCol [Q2Qc (inject_Z 49)]) ∧
  (∀ (s : strategy) (h : heap) (data : loc) (df : DataFrame)
     (amount64 : scalar float) (open : column float),
     int64_amount amount64 →
     h !! data = Some df →
     wf_frame df →
     lookup_col "Open" (columns df) = Some open →
     run (simulate s data amount64) h =
       Return (S (length h),
               @avg_price_of float binary64 amount64 (matched_col s df open))).
Proof.
  apply (avg_price_independent_of_amount_exact (SInt 1) (SInt 100) [Q2Qc (inject_Z 49)]).
  - simpl. lia.
  - simpl. lia.
  - discriminate.
  - repeat constructor.
Defined.

(** C1, as stated, fails in binary64.  By rounding: one row with the open
    price 49 at 00:00 and the amount 100; the daily simulator of hour 0
    returns [100 / (100 / 49) = 49.0], the closed form [1 / (1 / 49)] is
    [49.00000000000001].  By overflow: one row with the positive open
    price [2^-1020] and the amount 100; [100 / 2^-1020] is infinite and
    the simulator returns [0.0], the closed form is [2^-1020]. *)
Lemma avg_price_differs_from_closed_form_binary64 :
  (∃ avg_price : float,
     run (simulate_daily_dca 0%nat 0 (SInt 100)) [constant_series monday_2024 1 49%float] =
       Return (2%nat, avg_price) ∧
     PrimFloat.eqb avg_price (closed_form [49%float]) = false) ∧
  PrimFloat.ltb 0 0x1p-1020 = true ∧
  run (simulate_daily_dca 0%nat 0 (SInt 100))
      [constant_series monday_2024 1 0x1p-1020%float] = Return (2%nat, 0%float) ∧
  closed_form [0x1p-1020%float] = 0x1p-1020%float.
Proof.
  split; [eexists; split; [vm_compute; reflexivity|]; vm_compute; reflexivity|].
  split; [vm_compute; reflexivity|]. split; vm_compute; reflexivity.
Qed.

(** C9, as stated, fails in binary64.  By rounding: on the table with the
    one price 49 the amounts 1 and 100 give [49.00000000000001] and
    [49.0].  By overflow: on the table with the one price [2^-1020] the
    amount 1 gives the price and the amount 100 gives [0.0]; on two rows
    with the price 1 the amount 100 gives [1.0] and the float amount
    [2^1023], whose total cost is infinite, gives NaN. *)
Lemma avg_price_depends_on_amount_binary64 :
  (∃ avg_price avg_price' : float,
     run (simulate_daily_dca 0%nat 0 (SInt 1)) [constant_series monday_2024 1 49%float] =
       Return (2%nat, avg_price) ∧
     run (simulate_daily_dca 0%nat 0 (SInt 100)) [constant_series monday_2024 1 49%float] =
       Return (2%nat, avg_price') ∧
     PrimFloat.eqb avg_price avg_price' = false) ∧
  run (simulate_daily_dca 0%nat 0 (SInt 1))
      [constant_series monday_2024 1 0x1p-1020%float] = Return (2%nat, 0x1p-1020%float) ∧
  run (simulate_daily_dca 0%nat 0 (SInt 100))
      [constant_series monday_2024 1 0x1p-1020%float] = Return (2%nat, 0%float) ∧
  run (simulate_hourly_dca 0%nat (SInt 100))
      [constant_series monday_2024 2 1%float] = Return (2%nat, 1%float) ∧
  run (simulate_hourly_dca 0%nat (SFloat 0x1p1023%float))
      [constant_series monday_2024 2 1%float] = Return (2%nat, nan).
Proof.
  split.
  { do 2 eexists. split; [vm_compute; reflexivity|].
    split; [vm_compute; reflexivity|]. vm_compute. reflexivity. }
  repeat split; vm_compute; reflexivity.
Qed.

Lemma constant_frame_wf (idx : list Z) (price : float) :
  wf_frame (constant_frame idx price).
Proof.
  unfold wf_frame, constant_frame. cbn [columns index].
  repeat constructor. cbn [snd col_len]. by rewrite repeat_length.
Qed.

Lemma constant_series_wf (t0 : Z) (n : nat) (price : float) :
  wf_frame (constant_series t0 n price).
Proof. apply constant_frame_wf. Qed.

Lemma empty_match_gives_nan_witness :
  ∃ (purchases : loc) (cost btc_bought : scalar float),
    run (simulate (Weekly 2 0) 0%nat (SInt 100)) [constant_series monday_2024 48 100%float] =
      Return (purchases, truediv cost btc_bought) ∧
    to_float cost = 0%float ∧ to_float btc_bought = 0%float ∧
    PrimFloat.is_nan (truediv cost btc_bought) = true.
Proof.
  apply (empty_match_gives_nan (Weekly 2 0) [constant_series monday_2024 48 100%float]
           0%nat (constant_series monday_2024 48 100%float) (SInt 100)).
  - reflexivity.
  - apply constant_series_wf.
  - by eexists.
  - vm_compute. reflexivity.
Defined.


(** ** The date-range filter *)

Lemma filter_none {A : Type} (f : A → bool) (l : list A) :
  Forall (fun y => f y = false) l → List.filter f l = [].
Proof.
  induction 1 as [|y l Hy _ IH]; simpl; [done|]. by rewrite Hy.
Qed.

Lemma searchsorted_left_le (idx : list Z) (k : nat) (t v : Z) :
  Sorted Z.le idx → idx !! k = Some t → (v <= t)%Z →
  (searchsorted_left idx v <= k)%nat.
Proof.
  intros Hs. apply Sorted_StronglySorted in Hs; [|intros ? ? ?; lia].
  unfold searchsorted_left.
  revert k. induction Hs as [|x idx Hs IH Hx]; intros k Hk Hv.
  - done.
  - destruct k as [|k]; simpl in *.
    + injection Hk as ->.
      destruct (Z.ltb_spec t v); [lia|].
      rewrite filter_none; [done|].
      eapply Forall_impl; [exact Hx|]. intros y Hy. simpl in Hy.
      apply Z.ltb_ge. lia.
    + specialize (IH k Hk Hv).
      destruct (x <? v)%Z; simpl; lia.
Qed.

Lemma searchsorted_right_gt (idx : list Z) (k : nat) (t v : Z) :
  Sorted Z.le idx → idx !! k = Some t → (t <= v)%Z →
  (k < searchsorted_right idx v)%nat.
Proof.
  intros Hs. apply Sorted_StronglySorted in Hs; [|intros ? ? ?; lia].
  unfold searchsorted_right.
  revert k. induction Hs as [|x idx Hs IH Hx]; intros k Hk Hv.
  - done.
  - assert (x <= t)%Z as Hxt.
    { destruct k as [|k]; simpl in Hk.
      - injection Hk as ->. lia.
      - rewrite Forall_forall in Hx. apply Hx.
        by eapply list_elem_of_lookup_2. }
    simpl. destruct (Z.leb_spec x v); [|lia]. simpl.
    destruct k as [|k]; [lia|]. simpl in Hk.
    specialize (IH k Hk Hv). lia.
Qed.

Lemma slice_lookup {A : Type} (i j k : nat) (xs : list A) :
  (i <= k < j)%nat → slice i j xs !! (k - i)%nat = xs !! k.
Proof.
  intros Hk. unfold slice.
  rewrite lookup_take_lt by lia. rewrite lookup_drop. f_equal. lia.
Qed.

Lemma col_slice_cell (i j k : nat) (c : column float) :
  (i <= k < j)%nat → cell (col_slice i j c) (k - i) = cell c k.
Proof. intros Hk. destruct c; simpl; by rewrite slice_lookup. Qed.

Lemma frame_slice_same_row (i j k : nat) (df : DataFrame) :
  (i <= k < j)%nat → same_row df k (frame_slice i j df) (k - i).
Proof.
  intros Hk. split.
  - by apply slice_lookup.
  - intros name c Hc. exists (col_slice i j c). split.
    + unfold frame_slice. cbn [columns]. by rewrite lookup_col_map, Hc.
    + by apply col_slice_cell.
Qed.

Lemma main_run (h : heap) (data : loc) (df : DataFrame) (start_date end_date : Z) :
  h !! data = Some df →
  main data start_date end_date h =
    compare_strategies (length h) (h ++ [loc_slice_frame start_date end_date df]).
Proof.
  intros Hd. unfold main, loc_slice, alloc, mbind, M_bind.
  by rewrite (deref_some _ _ _ Hd).
Qed.

(** ** The table of the comparator *)

(** A loop whose body returns [g x] and keeps an invariant of the heap
    returns [map g xs] and keeps the invariant. *)
Lemma for_each_map {A B : Type} (I : heap → Prop) (g : A → B)
    (xs : list A) (body : A → M B) (h : heap) :
  I h →
  (∀ x h, I h → ∃ h', body x h = (Return (g x), h') ∧ I h') →
  ∃ h', for_each xs body h = (Return (map g xs), h') ∧ I h'.
Proof.
  intros Hh Hbody. revert h Hh.
  induction xs as [|x xs IH]; intros h Hh; simpl.
  - by exists h.
  - destruct (Hbody x h Hh) as (h1 & E1 & H1).
    destruct (IH h1 H1) as (h2 & E2 & H2).
    exists h2. unfold mbind, M_bind. by rewrite E1, E2.
Qed.

Lemma simulate_step (s : strategy) (fd : loc) (df : DataFrame) (open : column float)
    (h : heap) :
  wf_frame df →
  lookup_col "Open" (columns df) = Some open →
  h !! fd = Some df →
  ∃ h',
    (r ← simulate s fd (SInt 100);
     mret {| Strategy := label s; Avg_Price := snd r |}) h =
      (Return (strategy_result df open s), h') ∧
    h' !! fd = Some df.
Proof.
  intros Hwf Hopen Hd.
  pose proof (simulate_avg_price s h fd df (SInt 100) open Hd Hwf Hopen) as Hrun.
  pose proof (simulate_preserved s h fd (SInt 100) fd df Hd) as Hkeep.
  unfold run in Hrun.
  destruct (simulate s fd (SInt 100) h) as [o h'] eqn:E. simpl in *. subst o.
  exists h'. split; [|done].
  unfold mbind, M_bind. by rewrite E.
Qed.

Lemma results_of_all_strategies (df : DataFrame) (open : column float) :
  concat (map (fun day => map (fun hour => strategy_result df open (Weekly day hour))
                              (range 24)) (range 7)) ++
  map (fun hour => strategy_result df open (Daily hour)) (range 24) ++
  [strategy_result df open Hourly] =
  map (strategy_result df open) all_strategies.
Proof.
  reflexivity.
Qed.

(** The comparator returns the sorted results of the 193 strategies, with
    their deviation, when the table has an [Open] column. *)
Lemma compare_strategies_run (h : heap) (fd : loc) (df : DataFrame)
    (open : column float) :
  h !! fd = Some df →
  wf_frame df →
  lookup_col "Open" (columns df) = Some open →
  run (compare_strategies fd) h =
    Return (with_deviation (sort_values (map (strategy_result df open) all_strategies))).
Proof.
  intros Hd Hwf Hopen. unfold run, compare_strategies.
  set (I := fun h' : heap => h' !! fd = Some df).
  destruct (for_each_map I
              (fun day => map (fun hour => strategy_result df open (Weekly day hour)) (range 24))
              (range 7)
              (fun day => for_each (range 24) (fun hour =>
                 r ← simulate_weekly_dca fd day hour (SInt 100);
                 mret {| Strategy := weekly_label day hour; Avg_Price := snd r |}))
              h Hd) as (h1 & E1 & H1).
  { intros day h0 H0.
    apply (for_each_map I (fun hour => strategy_result df open (Weekly day hour))); [done|].
    intros hour h0' H0'. by apply (simulate_step (Weekly day hour)). }
  destruct (for_each_map I (fun hour => strategy_result df open (Daily hour))
              (range 24)
              (fun hour =>
                 r ← simulate_daily_dca fd hour (SInt 100);
                 mret {| Strategy := daily_label hour; Avg_Price := snd r |})
              h1 H1) as (h2 & E2 & H2).
  { intros hour h0 H0. by apply (simulate_step (Daily hour)). }
  destruct (simulate_step Hourly fd df open h2 Hwf Hopen H2) as (h3 & E3 & _).
  unfold mbind, M_bind in *. rewrite E1, E2.
  cbn [simulate label] in E3.
  destruct (simulate_hourly_dca fd (SInt 100) h2) as [[r|e] h3'] eqn:E; [|done].
  unfold mret, M_ret in *.
  assert ({| Strategy := hourly_label; Avg_Price := snd r |} =
          strategy_result df open Hourly) as Er by congruence.
  cbn [fst].
  by rewrite <- results_of_all_strategies, <- Er.
Qed.

(** ** Sorting permutes the rows *)

Lemma insert_by_price_perm (r : result) (rs : list result) :
  Permutation (insert_by_price r rs) (r :: rs).
Proof.
  induction rs as [|r' rs IH]; simpl; [done|].
  destruct (PrimFloat.ltb (Avg_Price r) (Avg_Price r')); [done|].
  rewrite IH. apply perm_swap.
Qed.

Lemma sort_by_price_perm (rs : list result) : Permutation (sort_by_price rs) rs.
Proof.
  unfold sort_by_price.
  assert (∀ acc, Permutation (fold_left (fun acc r => insert_by_price r acc) rs acc)
                             (rs ++ acc)) as Hgen.
  { induction rs as [|r rs IH]; intros acc; simpl; [done|].
    rewrite IH, insert_by_price_perm. by rewrite Permutation_middle. }
  rewrite Hgen. by rewrite app_nil_r.
Qed.

Lemma filter_split_perm {A : Type} (f : A → bool) (l : list A) :
  Permutation (List.filter f l ++ List.filter (fun x => negb (f x)) l) l.
Proof.
  induction l as [|x l IH]; simpl; [done|].
  destruct (f x); simpl.
  - by rewrite IH.
  - rewrite <- Permutation_middle. by rewrite IH.
Qed.

Lemma sort_values_perm (rs : list result) : Permutation (sort_values rs) rs.
Proof.
  unfold sort_values. rewrite sort_by_price_perm. apply filter_split_perm.
Qed.

Lemma entries_with_deviation (rs : list result) : map entry (with_deviation rs) = rs.
Proof.
  unfold with_deviation. rewrite map_map. simpl. apply map_id.
Qed.

Lemma labels_with_deviation (rs : list result) :
  labels (with_deviation rs) = map Strategy rs.
Proof.
  unfold labels. rewrite <- (entries_with_deviation rs) at 2. by rewrite map_map.
Qed.

Lemma labels_of_all_strategies : map label all_strategies = expected_labels.
Proof. vm_compute. reflexivity. Qed.

Lemma table_labels (df : DataFrame) (open : column float) :
  Permutation
    (labels (with_deviation (sort_values (map (strategy_result df open) all_strategies))))
    expected_labels.
Proof.
  rewrite labels_with_deviation.
  rewrite <- labels_of_all_strategies.
  assert (map label all_strategies =
          map Strategy (map (strategy_result df open) all_strategies)) as ->.
  { rewrite map_map. apply map_ext. reflexivity. }
  apply Permutation_map, sort_values_perm.
Qed.

Lemma filter_length_perm {A : Type} (f : A → bool) (l l' : list A) :
  Permutation l l' → length (List.filter f l) = length (List.filter f l').
Proof.
  induction 1 as [|x l l' _ IH|x y l|l l' l'' _ IH1 _ IH2]; simpl.
  - done.
  - destruct (f x); simpl; by rewrite IH.
  - destruct (f x), (f y); done.
  - by rewrite IH1.
Qed.

Lemma filter_map_comm {A B : Type} (f : B → bool) (g : A → B) (l : list A) :
  List.filter f (map g l) = map g (List.filter (fun x => f (g x)) l).
Proof.
  induction l as [|x l IH]; simpl; [done|].
  destruct (f (g x)); simpl; by rewrite IH.
Qed.

(** C5 (amended).  The labels of the ranked table are, in some order, the
    168 labels [Weekly <weekday> <hour>:00], the 24 labels
    [Daily <hour>:00] and the label [Hourly] (which has no hour), where
    [<hour>] is the hour in decimal without padding: one digit for the hours
    0 to 9, two digits for 10 to 23. *)
Theorem labels_have_unpadded_hours (h : heap) (fd : loc) (df : DataFrame) :
  h !! fd = Some df →
  wf_frame df →
  is_Some (lookup_col "Open" (columns df)) →
  ∃ table : list ranked,
    run (compare_strategies fd) h = Return table ∧
    Permutation (labels table) expected_labels ∧
    Forall (fun hour => str_of_int hour = hour_text hour ∧
                        String.length (hour_text hour) = if (hour <? 10)%Z then 1%nat else 2%nat)
           (range 24).
Proof.
  intros Hd Hwf [open Hopen]. eexists. split; [|split].
  - by apply (compare_strategies_run h fd df open).
  - apply table_labels.
  - vm_compute. repeat constructor.
Qed.

Lemma labels_have_unpadded_hours_witness :
  ∃ table : list ranked,
    run (compare_strategies 0%nat) [constant_series monday_2024 48 100%float] = Return table ∧
    Permutation (labels table) expected_labels ∧
    Forall (fun hour => str_of_int hour = hour_text hour ∧
                        String.length (hour_text hour) = if (hour <? 10)%Z then 1%nat else 2%nat)
           (range 24).
Proof.
  apply (labels_have_unpadded_hours [constant_series monday_2024 48 100%float] 0%nat
           (constant_series monday_2024 48 100%float)).
  - reflexivity.
  - apply constant_series_wf.
  - by eexists.
Defined.

Lemma In_by_eqb (s : string) (l : list string) :
  existsb (String.eqb s) l = true → In s l.
Proof.
  intros Hex. apply existsb_exists in Hex as (x & Hx & E).
  apply String.eqb_eq in E. by subst.
Qed.

(** C5, as stated, fails: the table has the label [Daily 0:00], which does
    not end with a two-digit hour [HH:00]. *)
Lemma label_hour_not_padded :
  ∃ table : list ranked,
    run (compare_strategies 0%nat) [constant_series monday_2024 48 100%float] = Return table ∧
    In "Daily 0:00"%string (labels table) ∧
    hh_formatted "Daily 0:00" = false.
Proof.
  eexists. split; [vm_compute; reflexivity|]. split; [|by vm_compute].
  apply In_by_eqb. vm_compute. reflexivity.
Qed.

(** ** The filtered chart *)

Lemma filtered_results_length (table : list ranked) :
  Permutation (labels table) expected_labels →
  length table = 193%nat ∧ length (filtered_results table) = 25%nat.
Proof.
  intros Hperm. split.
  - apply Permutation_length in Hperm. unfold labels in Hperm.
    rewrite length_map in Hperm. rewrite Hperm. by vm_compute.
  - unfold filtered_results, is_weekly.
    rewrite <- (length_map (fun r => Strategy (entry r))).
    rewrite <- (filter_map_comm (fun s => negb (String.prefix "Weekly" s))
                  (fun r => Strategy (entry r)) table).
    fold (labels table).
    rewrite (filter_length_perm _ _ _ Hperm). by vm_compute.
Qed.

(** ** Facts of binary64 arithmetic

    From the specification of the primitive floats ([FloatAxioms]). *)

Lemma SFcompare_lt_trans (x y z : spec_float) :
  SFcompare x y = Some Lt → SFcompare y z = Some Lt → SFcompare x z = Some Lt.
Proof.
  destruct x as [sx|sx| |sx mx ex], y as [sy|sy| |sy my ey], z as [sz|sz| |sz mz ez];
    simpl; try discriminate; try reflexivity;
    try (destruct sx; try discriminate; try reflexivity);
    try (destruct sy; try discriminate; try reflexivity);
    try (destruct sz; try discriminate; try reflexivity).
  all: change (Pos.compare_cont Eq) with Pos.compare.
  all: destruct (Z.compare_spec ex ey), (Z.compare_spec ey ez), (Z.compare_spec ex ez);
       try discriminate; try reflexivity; try lia; subst.
  all: destruct (Pos.compare_spec mx my), (Pos.compare_spec my mz), (Pos.compare_spec mx mz);
       simpl; try discriminate; try reflexivity; try lia.
Qed.

Lemma SFcompare_lt_asym (x y : spec_float) :
  SFcompare x y = Some Lt → SFcompare y x ≠ Some Lt.
Proof.
  destruct x as [sx|sx| |sx mx ex], y as [sy|sy| |sy my ey];
    simpl; try discriminate;
    try (destruct sx; try discriminate);
    try (destruct sy; try discriminate).
  all: change (Pos.compare_cont Eq) with Pos.compare.
  all: destruct (Z.compare_spec ex ey), (Z.compare_spec ey ex);
       try discriminate; try lia; subst.
  all: destruct (Pos.compare_spec mx my), (Pos.compare_spec my mx);
       simpl; try discriminate; try lia.
Qed.

Lemma ltb_trans (a b c : float) :
  PrimFloat.ltb a b = true → PrimFloat.ltb b c = true → PrimFloat.ltb a c = true.
Proof.
  rewrite !FloatAxioms.ltb_spec. unfold SFltb.
  destruct (SFcompare (Prim2SF a) (Prim2SF b)) as [[]|] eqn:E1; try discriminate.
  destruct (SFcompare (Prim2SF b) (Prim2SF c)) as [[]|] eqn:E2; try discriminate.
  intros _ _. by rewrite (SFcompare_lt_trans _ _ _ E1 E2).
Qed.

Lemma ltb_asym (a b : float) :
  PrimFloat.ltb a b = true → PrimFloat.ltb b a = false.
Proof.
  rewrite !FloatAxioms.ltb_spec. unfold SFltb.
  destruct (SFcompare (Prim2SF a) (Prim2SF b)) as [[]|] eqn:E1; try discriminate.
  intros _. apply SFcompare_lt_asym in E1.
  destruct (SFcompare (Prim2SF b) (Prim2SF a)) as [[]|]; congruence.
Qed.

Lemma is_nan_false (x : float) :
  PrimFloat.is_nan x = false ↔ Prim2SF x ≠ S754_nan.
Proof.
  unfold PrimFloat.is_nan. rewrite FloatAxioms.eqb_spec. unfold SFeqb.
  destruct (Prim2SF x) as [s|s| |s m e]; simpl.
  - split; [discriminate|reflexivity].
  - destruct s; (split; [discriminate|reflexivity]).
  - split; [discriminate|congruence].
  - change (Pos.compare_cont Eq) with Pos.compare.
    destruct s; rewrite Z.compare_refl, Pos.compare_refl; simpl;
      (split; [discriminate|reflexivity]).
Qed.

Lemma is_nan_true (x : float) :
  PrimFloat.is_nan x = true ↔ Prim2SF x = S754_nan.
Proof.
  unfold PrimFloat.is_nan. rewrite FloatAxioms.eqb_spec. unfold SFeqb.
  destruct (Prim2SF x) as [s|s| |s m e]; simpl.
  - split; discriminate.
  - destruct s; (split; discriminate).
  - split; reflexivity.
  - change (Pos.compare_cont Eq) with Pos.compare.
    destruct s; rewrite Z.compare_refl, Pos.compare_refl; simpl;
      (split; discriminate).
Qed.

Lemma is_nan_eq (x : float) : PrimFloat.is_nan x = true → x = nan.
Proof. intros E. apply is_nan_true in E. by apply Prim2SF_inj. Qed.

Lemma ltb_nan_l (x y : float) :
  PrimFloat.is_nan x = true → PrimFloat.ltb x y = false.
Proof.
  intros E. apply is_nan_true in E. rewrite FloatAxioms.ltb_spec, E. reflexivity.
Qed.

Lemma positive_finite_spec (x : float) :
  positive_finite x = true → ∃ m e, Prim2SF x = S754_finite false m e.
Proof.
  unfold positive_finite. intros [H0 Hinf]%andb_prop. revert H0 Hinf.
  rewrite !FloatAxioms.ltb_spec. unfold SFltb.
  change (Prim2SF 0) with (S754_zero false).
  change (Prim2SF infinity) with (S754_infinity false).
  destruct (Prim2SF x) as [s|s| |s m e]; simpl; try discriminate.
  - destruct s; discriminate.
  - destruct s; try discriminate. intros _ _. eauto.
Qed.

Lemma positive_finite_notnan (x : float) :
  positive_finite x = true → PrimFloat.is_nan x = false.
Proof.
  intros (m & e & E)%positive_finite_spec. apply is_nan_false. by rewrite E.
Qed.

(** The deviation of a positive finite price from itself is [0.0]. *)
Lemma relative_deviation_self (x : float) :
  positive_finite x = true → relative_deviation x x = 0%float.
Proof.
  intros (m & e & Hx)%positive_finite_spec.
  apply Prim2SF_inj. unfold relative_deviation.
  rewrite FloatAxioms.mul_spec, FloatAxioms.div_spec, FloatAxioms.sub_spec, Hx.
  unfold SF64sub, SFsub. rewrite Z.sub_diag.
  reflexivity.
Qed.

(** A deviation from NaN is NaN. *)
Lemma relative_deviation_nan (x : float) :
  PrimFloat.is_nan (relative_deviation nan x) = true.
Proof.
  apply is_nan_true. unfold relative_deviation.
  rewrite FloatAxioms.mul_spec, FloatAxioms.div_spec, FloatAxioms.sub_spec.
  change (Prim2SF nan) with S754_nan.
  by destruct (Prim2SF x).
Qed.

Lemma shr_1_nonneg (mrs : shr_record) : (0 <= shr_m mrs → 0 <= shr_m (shr_1 mrs))%Z.
Proof. destruct mrs as [m r s]. destruct m as [|[p|p|]|p]; simpl; lia. Qed.

Lemma iter_shr_1_nonneg (p : positive) (mrs : shr_record) :
  (0 <= shr_m mrs → 0 <= shr_m (SpecFloat.iter_pos shr_1 p mrs))%Z.
Proof.
  revert mrs. induction p as [p IH|p IH|]; intros mrs Hm; simpl.
  - apply IH, IH, shr_1_nonneg, Hm.
  - apply IH, IH, Hm.
  - apply shr_1_nonneg, Hm.
Qed.

Lemma shr_fexp_nonneg (m e : Z) (l : location) :
  (0 <= m → 0 <= shr_m (fst (shr_fexp prec emax m e l)))%Z.
Proof.
  intros Hm. unfold shr_fexp, shr.
  assert (0 <= shr_m (shr_record_of_loc m l))%Z as Hr by (destruct l as [|[]]; exact Hm).
  destruct (fexp prec emax (Zdigits2 m + e) - e)%Z; simpl; auto.
  by apply iter_shr_1_nonneg.
Qed.

Lemma round_nearest_even_nonneg (mx : Z) (lx : location) :
  (0 <= mx → 0 <= round_nearest_even mx lx)%Z.
Proof.
  intros Hm. destruct lx as [|[]]; simpl; try destruct (Z.even mx); lia.
Qed.

(** Rounding a non-negative mantissa does not give NaN. *)
Lemma binary_round_aux_not_nan (sx : bool) (mx ex : Z) (lx : location) :
  (0 <= mx)%Z → binary_round_aux prec emax sx mx ex lx ≠ S754_nan.
Proof.
  intros Hm. unfold binary_round_aux.
  pose proof (shr_fexp_nonneg mx ex lx Hm) as H1.
  destruct (shr_fexp prec emax mx ex lx) as [mrs' e']. simpl in H1.
  pose proof (shr_fexp_nonneg (round_nearest_even (shr_m mrs') (loc_of_shr_record mrs'))
                e' loc_Exact (round_nearest_even_nonneg _ _ H1)) as H2.
  destruct (shr_fexp prec emax _ e' loc_Exact) as [mrs'' e'']. simpl in H2.
  destruct (shr_m mrs''); [discriminate| |lia].
  destruct (e'' <=? emax - prec)%Z; discriminate.
Qed.

Lemma binary_normalize_not_nan (m e : Z) (szero : bool) :
  binary_normalize prec emax m e szero ≠ S754_nan.
Proof.
  destruct m; simpl; [discriminate| |]; unfold binary_round;
    destruct (shl_align _ _ _); by apply binary_round_aux_not_nan.
Qed.

Lemma SF64sub_finite_not_nan (x : spec_float) (s : bool) (m : positive) (e : Z) :
  x ≠ S754_nan → SF64sub x (S754_finite s m e) ≠ S754_nan.
Proof.
  intros Hx. destruct x as [sx|sx| |sx mx ex]; simpl; try discriminate; [congruence|].
  apply binary_normalize_not_nan.
Qed.

Lemma SF64div_finite_not_nan (x : spec_float) (s : bool) (m : positive) (e : Z) :
  x ≠ S754_nan → SF64div x (S754_finite s m e) ≠ S754_nan.
Proof.
  intros Hx. destruct x as [sx|sx| |sx mx ex]; simpl; try discriminate; [congruence|].
  unfold SF64div, SFdiv, SFdiv_core_binary.
  set (m' := match _ with Z0 => _ | Zpos _ => _ | Zneg _ => _ end).
  assert (0 <= m')%Z as Hm'.
  { subst m'. destruct (_ - _ - _)%Z; try lia. apply Z.shiftl_nonneg. lia. }
  pose proof (Z.div_pos m' (Z.pos m) Hm' eq_refl) as Hq.
  unfold Z.div in Hq.
  destruct (Z.div_eucl m' (Z.pos m)) as [q r].
  by apply binary_round_aux_not_nan.
Qed.

Lemma SF64mul_finite_not_nan (x : spec_float) (s : bool) (m : positive) (e : Z) :
  x ≠ S754_nan → SF64mul x (S754_finite s m e) ≠ S754_nan.
Proof.
  intros Hx. destruct x as [sx|sx| |sx mx ex]; simpl; try discriminate; [congruence|].
  by apply binary_round_aux_not_nan.
Qed.

(** The deviation of a price that is not NaN from a positive finite best
    price is not NaN. *)
Lemma relative_deviation_notnan (best avg : float) :
  positive_finite best = true →
  PrimFloat.is_nan avg = false →
  PrimFloat.is_nan (relative_deviation best avg) = false.
Proof.
  intros (m & e & Hb)%positive_finite_spec Ha%is_nan_false.
  apply is_nan_false. unfold relative_deviation.
  rewrite FloatAxioms.mul_spec, FloatAxioms.div_spec, FloatAxioms.sub_spec, Hb.
  change (Prim2SF 100) with (S754_finite false 7036874417766400 (-46)).
  by apply SF64mul_finite_not_nan, SF64div_finite_not_nan, SF64sub_finite_not_nan.
Qed.

(** ** The ranked table: order, minimum, deviations *)

Lemma insert_by_price_sorted (r : result) (rs : list result) :
  StronglySorted ranks_before rs → StronglySorted ranks_before (insert_by_price r rs).
Proof.
  induction 1 as [|r' rs Hs IH Hr']; simpl.
  - repeat constructor.
  - destruct (PrimFloat.ltb (Avg_Price r) (Avg_Price r')) eqn:E.
    + constructor; [by constructor|]. constructor.
      * by apply ltb_asym.
      * eapply Forall_impl; [exact Hr'|]. intros z Hz. unfold ranks_before in *.
        destruct (PrimFloat.ltb (Avg_Price z) (Avg_Price r)) eqn:Ez; [|done].
        by rewrite (ltb_trans _ _ _ Ez E) in Hz.
    + constructor; [done|].
      eapply Permutation_Forall; [symmetry; apply insert_by_price_perm|].
      by constructor.
Qed.

Lemma sort_by_price_sorted (rs : list result) :
  StronglySorted ranks_before (sort_by_price rs).
Proof.
  unfold sort_by_price.
  assert (∀ acc, StronglySorted ranks_before acc →
                 StronglySorted ranks_before
                   (fold_left (fun acc r => insert_by_price r acc) rs acc)) as Hgen.
  { induction rs as [|r rs IH]; intros acc Hacc; simpl; [done|].
    by apply IH, insert_by_price_sorted. }
  apply Hgen. constructor.
Qed.

Lemma filter_Forall {A : Type} (f : A → bool) (l : list A) :
  Forall (fun x => f x = true) (List.filter f l).
Proof.
  apply Forall_forall. intros x Hx. apply list_elem_of_In in Hx.
  by apply filter_In in Hx as [_ Hx].
Qed.

Lemma filter_all {A : Type} (f : A → bool) (l : list A) :
  Forall (fun x => f x = true) l → List.filter f l = l.
Proof.
  induction 1 as [|x l Hx _ IH]; simpl; [done|]. by rewrite Hx, IH.
Qed.

Lemma fold_min_head (x : float) (rest : list float) :
  Forall (fun y => PrimFloat.ltb y x = false) rest →
  fold_left (fun m y => if PrimFloat.ltb y m then y else m) rest x = x.
Proof.
  induction 1 as [|y rest Hy _ IH]; simpl; [done|]. by rewrite Hy.
Qed.

(** The sorted rows: those with a price first, in ascending order, then
    the NaN rows; the minimum that [Series.min] finds is the price of the
    first row with a price, NaN when there is none. *)
Lemma sort_values_shape (rs : list result) :
  ∃ priced nans : list result,
    sort_values rs = priced ++ nans ∧
    Forall (fun r => PrimFloat.is_nan (Avg_Price r) = false) priced ∧
    Forall (fun r => PrimFloat.is_nan (Avg_Price r) = true) nans ∧
    StronglySorted ranks_before priced ∧
    series_min (map Avg_Price (sort_values rs)) =
      match priced with
      | [] => nan
      | r :: _ => Avg_Price r
      end.
Proof.
  exists (sort_by_price (List.filter notna rs)),
         (List.filter (fun r => negb (notna r)) rs).
  assert (Forall (fun r => PrimFloat.is_nan (Avg_Price r) = false)
            (sort_by_price (List.filter notna rs))) as Hpriced.
  { eapply Permutation_Forall; [symmetry; apply sort_by_price_perm|].
    eapply Forall_impl; [apply filter_Forall|].
    intros r Hr. by apply negb_true_iff in Hr. }
  assert (Forall (fun r => PrimFloat.is_nan (Avg_Price r) = true)
            (List.filter (fun r => negb (notna r)) rs)) as Hnans.
  { eapply Forall_impl; [apply filter_Forall|].
    intros r Hr. unfold notna in Hr. by rewrite negb_involutive in Hr. }
  pose proof (sort_by_price_sorted (List.filter notna rs)) as Hsorted.
  repeat split; try done.
  unfold series_min, sort_values. rewrite map_app, List.filter_app.
  rewrite (filter_all _ (map Avg_Price (sort_by_price _))).
  2:{ apply Forall_map. eapply Forall_impl; [exact Hpriced|].
      intros r Hr. simpl. by rewrite Hr. }
  rewrite (filter_none _ (map Avg_Price (List.filter _ rs))).
  2:{ apply Forall_map. eapply Forall_impl; [exact Hnans|].
      intros r Hr. simpl. by rewrite Hr. }
  rewrite app_nil_r.
  destruct Hsorted as [|r priced _ Hr]; simpl; [done|].
  apply fold_min_head. apply Forall_map.
  eapply Forall_impl; [exact Hr|]. by intros z Hz.
Qed.

Lemma all_strategies_length : length all_strategies = 193%nat.
Proof. reflexivity. Qed.

(** C7 (amended).  The ranked table has a first row, and no row has a
    lower average price.  When the average price of the first row is a
    positive finite number, its relative deviation is exactly [0.0].  When it
    is NaN (no strategy bought anything), every average price is NaN and
    the deviation of the first row is NaN. *)
Theorem best_rank_has_zero_deviation (h : heap) (fd : loc) (df : DataFrame) :
  h !! fd = Some df →
  wf_frame df →
  is_Some (lookup_col "Open" (columns df)) →
  ∃ (best : ranked) (rest : list ranked),
    run (compare_strategies fd) h = Return (best :: rest) ∧
    Forall (fun r => PrimFloat.ltb (Avg_Price (entry r)) (Avg_Price (entry best)) = false)
           rest ∧
    (positive_finite (Avg_Price (entry best)) = true →
     Relative_Deviation best = 0%float) ∧
    (PrimFloat.is_nan (Avg_Price (entry best)) = true →
     PrimFloat.is_nan (Relative_Deviation best) = true ∧
     Forall (fun r => PrimFloat.is_nan (Avg_Price (entry r)) = true) rest).
Proof.
  intros Hd Hwf [open Hopen].
  rewrite (compare_strategies_run h fd df open Hd Hwf Hopen).
  assert (length (sort_values (map (strategy_result df open) all_strategies)) = 193%nat)
    as Hlen.
  { by rewrite (Permutation_length (sort_values_perm _)), length_map. }
  destruct (sort_values_shape (map (strategy_result df open) all_strategies))
    as (priced & nans & Hs & Hpriced & Hnans & Hsorted & Hmin).
  unfold with_deviation. rewrite Hmin. revert Hlen. rewrite Hs. clear Hs Hmin.
  destruct priced as [|r1 priced].
  - destruct nans as [|r1 nans]; [done|]. intros _.
    inversion Hnans as [|? ? Hr1 Hrest]; subst.
    cbn [app map].
    eexists _, _. split; [reflexivity|]. cbn [entry Relative_Deviation].
    split; [|split].
    + apply Forall_map. eapply Forall_impl; [exact Hrest|].
      intros r Hr. by apply ltb_nan_l.
    + intros Hpos%positive_finite_notnan. congruence.
    + intros _. split; [apply relative_deviation_nan|].
      apply Forall_map. eapply Forall_impl; [exact Hrest|]. by intros r Hr.
  - intros _.
    inversion Hpriced as [|? ? Hr1 _]; subst.
    inversion Hsorted as [|? ? _ Hbefore]; subst.
    cbn [app map].
    eexists _, _. split; [reflexivity|]. cbn [entry Relative_Deviation].
    split; [|split].
    + rewrite map_app. apply Forall_app. split; apply Forall_map.
      * eapply Forall_impl; [exact Hbefore|]. by intros r Hr.
      * eapply Forall_impl; [exact Hnans|]. intros r Hr. by apply ltb_nan_l.
    + apply relative_deviation_self.
    + congruence.
Qed.

Lemma best_rank_has_zero_deviation_witness :
  ∃ (best : ranked) (rest : list ranked),
    run (compare_strategies 0%nat) [constant_series monday_2024 48 100%float] =
      Return (best :: rest) ∧
    Forall (fun r => PrimFloat.ltb (Avg_Price (entry r)) (Avg_Price (entry best)) = false)
           rest ∧
    (positive_finite (Avg_Price (entry best)) = true →
     Relative_Deviation best = 0%float) ∧
    (PrimFloat.is_nan (Avg_Price (entry best)) = true →
     PrimFloat.is_nan (Relative_Deviation best) = true ∧
     Forall (fun r => PrimFloat.is_nan (Avg_Price (entry r)) = true) rest).
Proof.
  apply (best_rank_has_zero_deviation [constant_series monday_2024 48 100%float] 0%nat
           (constant_series monday_2024 48 100%float)).
  - reflexivity.
  - apply constant_series_wf.
  - by eexists.
Defined.

(** C7, as stated, fails: the table [gap_series] has rows on Monday and on
    Thursday; the prompt accepts the range from Tuesday to Wednesday, no
    row is in it, every average price is NaN, and the relative deviation of
    the first-ranked row is NaN. *)
Lemma best_rank_deviation_nan_on_empty_range :
  valid_range monday_2024 (monday_2024 + 3 * NS_PER_DAY)
              (monday_2024 + NS_PER_DAY) (monday_2024 + 2 * NS_PER_DAY) = true ∧
  ∃ (best : ranked) (rest : list ranked),
    run (main 0%nat (monday_2024 + NS_PER_DAY) (monday_2024 + 2 * NS_PER_DAY)) [gap_series] =
      Return (best :: rest) ∧
    PrimFloat.eqb (Relative_Deviation best) 0 = false ∧
    PrimFloat.is_nan (Relative_Deviation best) = true.
Proof.
  split; [reflexivity|]. eexists _, _.
  split; [vm_compute; reflexivity|]. split; [vm_compute; reflexivity|].
  vm_compute. reflexivity.
Qed.

(** C10 (amended).  In the ranked table the rows whose average price is NaN
    stand after all the rows whose average price is not NaN, and these are
    in ascending order (an infinite price after the finite ones).  Every
    deviation is computed from the minimum that [Series.min] returns; when
    at least one row has an average price that is not NaN, this minimum is
    not NaN (it is the price of such a row); and when it is a positive
    finite number, no row with an average price has a NaN deviation. *)
Theorem nan_rows_rank_last (h : heap) (fd : loc) (df : DataFrame) :
  h !! fd = Some df →
  wf_frame df →
  is_Some (lookup_col "Open" (columns df)) →
  ∃ (priced_rows nan_rows : list ranked) (best : float),
    run (compare_strategies fd) h = Return (priced_rows ++ nan_rows) ∧
    Forall (fun r => PrimFloat.is_nan (Avg_Price (entry r)) = false) priced_rows ∧
    StronglySorted ranks_before (map entry priced_rows) ∧
    Forall (fun r => PrimFloat.is_nan (Avg_Price (entry r)) = true) nan_rows ∧
    best = series_min (map (fun r => Avg_Price (entry r)) (priced_rows ++ nan_rows)) ∧
    Forall (fun r => Relative_Deviation r = relative_deviation best (Avg_Price (entry r)))
           (priced_rows ++ nan_rows) ∧
    (priced_rows ≠ [] →
     PrimFloat.is_nan best = false ∧
     ∃ r, head priced_rows = Some r ∧ best = Avg_Price (entry r)) ∧
    (positive_finite best = true →
     Forall (fun r => PrimFloat.is_nan (Relative_Deviation r) = false) priced_rows).
Proof.
  intros Hd Hwf [open Hopen].
  rewrite (compare_strategies_run h fd df open Hd Hwf Hopen).
  destruct (sort_values_shape (map (strategy_result df open) all_strategies))
    as (priced & nans & Hs & Hpriced & Hnans & Hsorted & Hmin).
  revert Hmin. rewrite Hs. clear Hs. unfold with_deviation.
  set (best := series_min (map Avg_Price (priced ++ nans))). intros Hmin.
  set (row := fun r => {| entry := r; Relative_Deviation := relative_deviation best (Avg_Price r) |}).
  exists (map row priced), (map row nans), best.
  split; [by rewrite <- map_app|].
  split; [by apply Forall_map|].
  split; [by rewrite map_map, map_id|].
  split; [by apply Forall_map|]. split.
  { rewrite <- map_app, map_map. reflexivity. }
  split.
  { rewrite <- map_app. by apply Forall_map, Forall_forall. }
  split.
  - intros Hne. destruct priced as [|r priced]; [done|].
    inversion Hpriced as [|? ? Hr _]; subst.
    rewrite Hmin. split; [done|]. by exists (row r).
  - intros Hpos. apply Forall_map.
    eapply Forall_impl; [exact Hpriced|]. intros r Hr.
    by apply relative_deviation_notnan.
Qed.

Lemma nan_rows_rank_last_witness :
  ∃ (priced_rows nan_rows : list ranked) (best : float),
    run (compare_strategies 0%nat) [constant_series monday_2024 48 100%float] =
      Return (priced_rows ++ nan_rows) ∧
    Forall (fun r => PrimFloat.is_nan (Avg_Price (entry r)) = false) priced_rows ∧
    StronglySorted ranks_before (map entry priced_rows) ∧
    Forall (fun r => PrimFloat.is_nan (Avg_Price (entry r)) = true) nan_rows ∧
    best = series_min (map (fun r => Avg_Price (entry r)) (priced_rows ++ nan_rows)) ∧
    Forall (fun r => Relative_Deviation r = relative_deviation best (Avg_Price (entry r)))
           (priced_rows ++ nan_rows) ∧
    (priced_rows ≠ [] →
     PrimFloat.is_nan best = false ∧
     ∃ r, head priced_rows = Some r ∧ best = Avg_Price (entry r)) ∧
    (positive_finite best = true →
     Forall (fun r => PrimFloat.is_nan (Relative_Deviation r) = false) priced_rows).
Proof.
  apply (nan_rows_rank_last [constant_series monday_2024 48 100%float] 0%nat
           (constant_series monday_2024 48 100%float)).
  - reflexivity.
  - apply constant_series_wf.
  - by eexists.
Defined.

(** C10, as stated, fails on the same input as C7: every average price is
    NaN, and the minimum that line 172 uses is NaN. *)
Lemma minimum_nan_on_empty_range :
  valid_range monday_2024 (monday_2024 + 3 * NS_PER_DAY)
              (monday_2024 + NS_PER_DAY) (monday_2024 + 2 * NS_PER_DAY) = true ∧
  ∃ table : list ranked,
    run (main 0%nat (monday_2024 + NS_PER_DAY) (monday_2024 + 2 * NS_PER_DAY)) [gap_series] =
      Return table ∧
    PrimFloat.is_nan (series_min (map (fun r => Avg_Price (entry r)) table)) = true.
Proof.
  split; [reflexivity|]. eexists.
  split; [vm_compute; reflexivity|]. vm_compute. reflexivity.
Qed.


(** ** The constant table *)

Lemma select_repeat {A : Type} (mask : list bool) (x : A) (n : nat) :
  select mask (repeat x n) = repeat x (length (select mask (repeat x n))).
Proof.
  revert n. induction mask as [|b mask IH]; intros [|n]; simpl; try done.
  destruct b; simpl; by rewrite <- IH.
Qed.

Lemma select_length_le {A : Type} (mask : list bool) (xs : list A) :
  (length (select mask xs) <= length xs)%nat.
Proof.
  revert xs. induction mask as [|b mask IH]; intros [|x xs]; simpl; try lia.
  specialize (IH xs). destruct b; simpl; lia.
Qed.

Lemma select_none {A B : Type} (f : B → bool) (idx : list B) (xs : list A) :
  existsb f idx = false → select (map f idx) xs = [].
Proof.
  revert xs. induction idx as [|t idx IH]; intros xs Hf; simpl in *; [done|].
  apply orb_false_iff in Hf as [Ht Hf].
  destruct xs as [|x xs]; [done|]. rewrite Ht. auto.
Qed.

Lemma select_map_self {A : Type} (f : A → bool) (xs : list A) :
  select (map f xs) xs = List.filter f xs.
Proof.
  induction xs as [|x xs IH]; simpl; [done|]. destruct (f x); by rewrite IH.
Qed.

Lemma zip_andb_true (xs : list bool) : zip_andb xs (repeat true (length xs)) = xs.
Proof.
  induction xs as [|x xs IH]; simpl; [done|]. by rewrite IH, andb_true_r.
Qed.

Lemma filter_orb_length {A : Type} (p q : A → bool) (l : list A) :
  (length (List.filter (fun x => p x || q x) l)
   <= length (List.filter p l) + length (List.filter q l))%nat.
Proof.
  induction l as [|x l IH]; simpl; [done|].
  destruct (p x), (q x); simpl; lia.
Qed.

Lemma filter_eq_NoDup (v : Z) (l : list Z) :
  NoDup l → (length (List.filter (fun b => (v =? b)%Z) l) <= 1)%nat.
Proof.
  induction 1 as [|b l Hb _ IH]; simpl; [lia|].
  destruct (Z.eqb_spec v b) as [->|]; [|done].
  rewrite filter_none; [done|].
  apply Forall_forall. intros y Hy. apply Z.eqb_neq. intros ->. done.
Qed.

(** No more bins are occupied than there are rows. *)
Lemma occupied_bins_le (f : Z → Z) (idx bs : list Z) :
  NoDup bs →
  (length (List.filter (fun b => existsb (fun t => (f t =? b)%Z) idx) bs)
   <= length idx)%nat.
Proof.
  intros Hbs. induction idx as [|t idx IH]; simpl.
  - rewrite filter_none; [done|]. by apply Forall_forall.
  - pose proof (filter_orb_length (fun b => (f t =? b)%Z)
                  (fun b => existsb (fun t => (f t =? b)%Z) idx) bs) as H1.
    pose proof (filter_eq_NoDup (f t) bs Hbs) as H2.
    simpl in H1. lia.
Qed.

Lemma bins_NoDup (idx : list Z) : NoDup (bins idx).
Proof.
  unfold bins. destruct idx as [|t ts]; [constructor|].
  generalize (fold_left Z.min (map hour_bin ts) (hour_bin t)).
  generalize (fold_left Z.max (map hour_bin ts) (hour_bin t)). intros hi lo.
  generalize (Z.to_nat (hi - lo + 1)), 0%nat. intros m.
  induction m as [|m IH]; intros start; simpl; constructor.
  - intros Hin%list_elem_of_In. apply in_map_iff in Hin as (k & Hk & Hin).
    apply in_seq in Hin. lia.
  - apply IH.
Qed.

Lemma first_valid_repeat (c : nat) :
  first_valid (repeat 100%float c) = if (c =? 0)%nat then nan else 100%float.
Proof. by destruct c. Qed.

(** The cell of the hour [b] in the resampled constant table. *)
Lemma hour_cell (idx : list Z) (b : Z) :
  first_valid (select (map (fun t => (hour_bin t =? b)%Z) idx)
                      (repeat 100%float (length idx))) =
    if existsb (fun t => (hour_bin t =? b)%Z) idx then 100%float else nan.
Proof.
  rewrite select_repeat, first_valid_repeat.
  destruct (existsb (fun t => (hour_bin t =? b)%Z) idx) eqn:E.
  - destruct (length _ =? 0)%nat eqn:E0; [|done].
    apply Nat.eqb_eq, length_zero_iff_nil in E0.
    apply existsb_exists in E as (t & Ht & E).
    exfalso. clear -Ht E E0. revert E0.
    induction idx as [|t' idx IH]; [done|]. simpl.
    destruct Ht as [->|Ht]; [by rewrite E|].
    destruct (hour_bin t' =? b)%Z; [done|]. by apply IH.
  - by rewrite (select_none _ _ _ E).
Qed.

Lemma constant_notna_mask (idx : list Z) :
  notna_mask (resample_first_frame (constant_frame idx 100)) =
    map (fun b => existsb (fun t => (hour_bin t =? b)%Z) idx) (bins idx).
Proof.
  unfold notna_mask, resample_first_frame, constant_frame, resample_first_col.
  cbn [columns index fold_right snd col_notna col_floats map].
  rewrite !map_map, length_map.
  rewrite (map_ext _ (fun b => existsb (fun t => (hour_bin t =? b)%Z) idx)).
  - rewrite <- (length_map (fun b => existsb (fun t => (hour_bin t =? b)%Z) idx) (bins idx)).
    apply zip_andb_true.
  - intros b. rewrite hour_cell. by destruct (existsb _ idx).
Qed.

(** The open prices a strategy buys at in a constant table of at most 48
    rows: at most 48 times the price 100. *)
Lemma constant_matched_col (s : strategy) (idx : list Z) :
  (length idx <= 48)%nat →
  ∃ k : nat,
    (k <= 48)%nat ∧
    matched_col s (constant_frame idx 100) (FloatCol (repeat 100%float (length idx))) =
      FloatCol (repeat 100%float k).
Proof.
  intros Hn.
  assert (∀ mask, ∃ k : nat, (k <= 48)%nat ∧
            col_select mask (FloatCol (repeat 100%float (length idx))) =
              FloatCol (repeat 100%float k)) as Hmask.
  { intros mask. exists (length (select mask (repeat 100%float (length idx)))). split.
    - pose proof (select_length_le mask (repeat 100%float (length idx))) as Hle.
      rewrite repeat_length in Hle. lia.
    - cbn [col_select]. by rewrite <- select_repeat. }
  destruct s; cbn [matched_col]; [|apply Hmask..].
  rewrite constant_notna_mask.
  unfold resample_first_col, constant_frame. cbn [index col_floats col_select].
  set (occupied := fun b => existsb (fun t => (hour_bin t =? b)%Z) idx).
  exists (length (List.filter occupied (bins idx))). split.
  - pose proof (occupied_bins_le hour_bin idx (bins idx) (bins_NoDup idx)). unfold occupied. lia.
  - f_equal. generalize (bins idx). intros bs.
    induction bs as [|b bs IH]; [done|]. cbn [map select List.filter].
    rewrite hour_cell. fold (occupied b).
    destruct (occupied b); cbn [length repeat]; by rewrite IH.
Qed.

Lemma avg_price_constant (k : nat) :
  (k <= 48)%nat →
  avg_price_of (SInt 100) (FloatCol (repeat 100%float k)) =
    if (k =? 0)%nat then nan else 100%float.
Proof.
  intros Hk.
  do 49 (destruct k as [|k]; [vm_compute; reflexivity|]). lia.
Qed.

Lemma constant_strategy_avg (s : strategy) (idx : list Z) :
  (length idx <= 48)%nat →
  strategy_result (constant_frame idx 100) (FloatCol (repeat 100%float (length idx))) s =
    {| Strategy := label s;
       Avg_Price := if buys_nothing s (constant_frame idx 100) then nan else 100%float |}.
Proof.
  intros Hn. unfold strategy_result. f_equal.
  destruct (constant_matched_col s idx Hn) as (k & Hk & E).
  pose proof (matched_col_len s (constant_frame idx 100)
                (FloatCol (repeat 100%float (length idx)))) as Hlen.
  rewrite E in Hlen. cbn [col_len index constant_frame] in Hlen.
  rewrite !repeat_length in Hlen. specialize (Hlen eq_refl).
  rewrite E, (avg_price_constant k Hk).
  unfold buys_nothing.
  destruct (index (matched s (constant_frame idx 100))); simpl in Hlen; by subst k.
Qed.

(** The ranked table of results whose prices are 100 or NaN: deviation 0
    for the former, NaN for the latter. *)
Lemma constant_ranking (rs : list result) :
  Forall (fun r => Avg_Price r = 100%float ∨ Avg_Price r = nan) rs →
  Permutation (with_deviation (sort_values rs))
    (map (fun r => {| entry := r;
                      Relative_Deviation :=
                        if PrimFloat.is_nan (Avg_Price r) then nan else 0%float |}) rs).
Proof.
  intros Hrs.
  destruct (sort_values_shape rs) as (priced & nans & Hs & Hpriced & Hnans & _ & Hmin).
  pose proof (sort_values_perm rs) as Hperm.
  unfold with_deviation. rewrite Hmin.
  rewrite <- (Permutation_map _ Hperm).
  assert (Forall (fun r => Avg_Price r = 100%float ∨ Avg_Price r = nan) (sort_values rs))
    as Hsorted by (by eapply Permutation_Forall; [symmetry; exact Hperm|]).
  assert (Forall (fun r => Avg_Price r = 100%float) priced) as Hp100.
  { rewrite Hs in Hsorted. apply Forall_app in Hsorted as [Hsorted _].
    rewrite Forall_forall in Hsorted, Hpriced. apply Forall_forall. intros r Hr.
    destruct (Hsorted r Hr) as [E|E]; [done|].
    specialize (Hpriced r Hr). rewrite E in Hpriced. by vm_compute in Hpriced. }
  rewrite Hs.
  replace (map _ (priced ++ nans)) with
    (map (fun r => {| entry := r;
                      Relative_Deviation :=
                        if PrimFloat.is_nan (Avg_Price r) then nan else 0%float |})
         (priced ++ nans)); [done|].
  rewrite !map_app. f_equal.
  - destruct priced as [|r1 priced]; [done|].
    inversion Hp100 as [|? ? E1 _]; subst. rewrite E1.
    apply map_ext_in. intros r Hr%list_elem_of_In.
    rewrite Forall_forall in Hp100. rewrite (Hp100 r Hr). by vm_compute.
  - apply map_ext_in. intros r Hr%list_elem_of_In.
    rewrite Forall_forall in Hnans. pose proof (Hnans r Hr) as En.
    rewrite En. rewrite (is_nan_eq _ En). f_equal.
    destruct priced as [|r1 priced]; [by vm_compute|].
    inversion Hp100 as [|? ? E1 _]; subst. rewrite E1. by vm_compute.
Qed.

Lemma constant_frame_ranked_table (h : heap) (fd : loc) (idx : list Z) :
  h !! fd = Some (constant_frame idx 100) →
  length idx = 48%nat →
  ∃ table : list ranked,
    run (compare_strategies fd) h = Return table ∧
    Permutation table (map (constant_row (constant_frame idx 100)) all_strategies).
Proof.
  intros Hd Hn.
  rewrite (compare_strategies_run h fd _ (FloatCol (repeat 100%float (length idx))) Hd
             (constant_frame_wf idx 100) eq_refl).
  eexists. split; [reflexivity|].
  generalize all_strategies. intros ss.
  assert (map (strategy_result (constant_frame idx 100)
                 (FloatCol (repeat 100%float (length idx)))) ss =
          map (fun s => {| Strategy := label s;
                           Avg_Price := if buys_nothing s (constant_frame idx 100)
                                        then nan else 100%float |}) ss) as ->.
  { apply map_ext. intros s. apply constant_strategy_avg. lia. }
  rewrite constant_ranking.
  - rewrite map_map. apply Permutation_refl'. apply map_ext. intros s.
    unfold constant_row. cbn [Avg_Price].
    by destruct (buys_nothing s (constant_frame idx 100)).
  - apply Forall_map, Forall_forall. intros s _. cbn [Avg_Price].
    destruct (buys_nothing s (constant_frame idx 100)); auto.
Qed.

Lemma fold_min_In (l : list Z) (a : Z) : In (fold_left Z.min l a) (a :: l).
Proof.
  revert a. induction l as [|x l IH]; intros a; simpl; [by left|].
  destruct (IH (Z.min a x)) as [E|Hin]; [|by right; right].
  rewrite <- E. destruct (Z.min_spec a x) as [[_ ->]|[_ ->]]; auto.
Qed.

Lemma fold_min_le (l : list Z) (a : Z) : (fold_left Z.min l a <= a)%Z.
Proof.
  revert a. induction l as [|x l IH]; intros a; simpl; [lia|].
  specialize (IH (Z.min a x)). lia.
Qed.

Lemma fold_max_ge (l : list Z) (a : Z) : (a <= fold_left Z.max l a)%Z.
Proof.
  revert a. induction l as [|x l IH]; intros a; simpl; [lia|].
  specialize (IH (Z.max a x)). lia.
Qed.

(** The hourly strategy buys in every constant table that has a row. *)
Lemma hourly_buys (idx : list Z) :
  idx ≠ [] → buys_nothing Hourly (constant_frame idx 100) = false.
Proof.
  intros Hne. unfold buys_nothing. cbn [matched].
  unfold dropna_frame, frame_select. cbn [index].
  rewrite constant_notna_mask.
  unfold resample_first_frame, constant_frame. cbn [index].
  destruct idx as [|t ts]; [done|]. clear Hne. unfold bins.
  pose proof (fold_min_In (map hour_bin ts) (hour_bin t)) as Hin.
  pose proof (fold_min_le (map hour_bin ts) (hour_bin t)) as Hlo.
  pose proof (fold_max_ge (map hour_bin ts) (hour_bin t)) as Hhi.
  revert Hin Hlo Hhi.
  generalize (fold_left Z.min (map hour_bin ts) (hour_bin t)).
  generalize (fold_left Z.max (map hour_bin ts) (hour_bin t)). intros hi lo Hin Hlo Hhi.
  destruct (Z.to_nat (hi - lo + 1)) as [|m] eqn:Em; [lia|].
  cbn [seq map]. rewrite Z.add_0_r.
  assert (existsb (fun t0 => (hour_bin t0 =? lo)%Z) (t :: ts) = true) as ->.
  { apply existsb_exists. change (hour_bin t :: map hour_bin ts) with (map hour_bin (t :: ts)) in Hin.
    apply in_map_iff in Hin as (t' & E & Hin). exists t'. split; [done|]. by apply Z.eqb_eq. }
  reflexivity.
Qed.

Lemma hour_of_hourly_index (t0 : Z) (k : nat) :
  hour_of (t0 + Z.of_nat k * NS_PER_HOUR) = ((t0 / NS_PER_HOUR + Z.of_nat k) mod 24)%Z.
Proof. unfold hour_of. by rewrite Z.div_add. Qed.

(** In 48 consecutive hours every hour of the day occurs: each daily
    strategy buys. *)
Lemma daily_buys (t0 hour : Z) :
  (0 <= hour < 24)%Z → buys_nothing (Daily hour) (constant_series t0 48 100) = false.
Proof.
  intros Hh. unfold buys_nothing. cbn [matched].
  unfold frame_select, constant_series, constant_frame. cbn [index].
  rewrite select_map_self.
  set (k := Z.to_nat ((hour - t0 / NS_PER_HOUR) mod 24)).
  assert (In (t0 + Z.of_nat k * NS_PER_HOUR)%Z
             (List.filter (bucket (Daily hour)) (hourly_index t0 48))) as Hin.
  { pose proof (Z.mod_pos_bound (hour - t0 / NS_PER_HOUR) 24 eq_refl) as Hk.
    apply filter_In. split.
    - unfold hourly_index. apply in_map_iff. exists k. split; [done|].
      apply in_seq. lia.
    - cbn [bucket]. apply Z.eqb_eq. rewrite hour_of_hourly_index.
      unfold k. rewrite Z2Nat.id by lia.
      rewrite Z.add_mod_idemp_r by lia.
      replace (t0 / NS_PER_HOUR + (hour - t0 / NS_PER_HOUR))%Z with hour by lia.
      apply Z.mod_small. lia. }
  by destruct (List.filter _ _).
Qed.

(** C2 (amended).  For a series of 48 consecutive hours with the constant
    open price 100 (and the amount 100 of [main]), the ranked table has 193
    rows, for each strategy the row of [constant_row]: average price
    exactly 100 and deviation exactly 0 when the strategy buys at one row at
    least, which the hourly and the 24 daily strategies do; NaN and NaN
    when it buys at none. *)
Theorem constant_series_ranked_table (h : heap) (fd : loc) (t0 : Z) :
  h !! fd = Some (constant_series t0 48 100) →
  ∃ table : list ranked,
    run (compare_strategies fd) h = Return table ∧
    length table = 193%nat ∧
    Permutation table (map (constant_row (constant_series t0 48 100)) all_strategies) ∧
    buys_nothing Hourly (constant_series t0 48 100) = false ∧
    Forall (fun hour => buys_nothing (Daily hour) (constant_series t0 48 100) = false)
           (range 24).
Proof.
  intros Hd.
  destruct (constant_frame_ranked_table h fd (hourly_index t0 48) Hd)
    as (table & Hrun & Hperm).
  { unfold hourly_index. by rewrite length_map, length_seq. }
  exists table. split; [done|]. split; [|split; [done|split]].
  - by rewrite (Permutation_length Hperm), length_map, all_strategies_length.
  - by apply hourly_buys.
  - apply Forall_forall. intros hour Hin%list_elem_of_In. apply daily_buys.
    unfold range in Hin. apply in_map_iff in Hin as (k & <- & Hk%in_seq). lia.
Qed.

Lemma constant_series_ranked_table_witness :
  ∃ table : list ranked,
    run (compare_strategies 0%nat) [constant_series monday_2024 48 100%float] = Return table ∧
    length table = 193%nat ∧
    Permutation table
      (map (constant_row (constant_series monday_2024 48 100)) all_strategies) ∧
    buys_nothing Hourly (constant_series monday_2024 48 100) = false ∧
    Forall (fun hour => buys_nothing (Daily hour) (constant_series monday_2024 48 100) = false)
           (range 24).
Proof.
  apply (constant_series_ranked_table [constant_series monday_2024 48 100%float] 0%nat
           monday_2024).
  reflexivity.
Defined.

(** C2, as stated, fails: the 48 hours from Monday 2024-01-01 00:00 cover
    Monday and Tuesday only.  The 120 weekly strategies of the other five
    weekdays buy nothing; their average price and their deviation are NaN,
    not 100 and 0.  The first of them in the table is the row of
    Wednesday, hour 0. *)
Lemma constant_series_has_nan_rows :
  ∃ table : list ranked,
    run (compare_strategies 0%nat) [constant_series monday_2024 48 100%float] = Return table ∧
    length (List.filter (fun r => PrimFloat.is_nan (Avg_Price (entry r))) table) = 120%nat ∧
    table !! 73%nat =
      Some {| entry := {| Strategy := "Weekly Wednesday 0:00"; Avg_Price := nan |};
              Relative_Deviation := nan |} ∧
    PrimFloat.eqb nan 100 = false ∧ PrimFloat.eqb nan 0 = false.
Proof.
  eexists. split; [vm_compute; reflexivity|].
  split; [vm_compute; reflexivity|].
  split; [vm_compute; reflexivity|].
  split; vm_compute; reflexivity.
Qed.

(** * Further properties of the code *)

(** ** The simulators: errors and the frame of purchases *)

Lemma matched_lookup_none (s : strategy) df name :
  lookup_col name (columns df) = None →
  lookup_col name (columns (matched s df)) = None.
Proof.
  intros Hc. destruct s; cbn [matched];
    unfold dropna_frame, frame_select, resample_first_frame; cbn [columns];
    rewrite ?lookup_col_map, Hc; reflexivity.
Qed.

(** X1.  A simulator raises [KeyError: 'Open'] exactly when the table has
    no [Open] column (lines 21, 31, 41), whatever the rows; with the column
    it returns a frame and an average price. *)
Theorem simulate_raises_iff_open_missing (s : strategy) (h : heap) (data : loc)
    (df : DataFrame) (amount : scalar float) :
  h !! data = Some df →
  (lookup_col "Open" (columns df) = None ↔
   run (simulate s data amount) h = Raise (KeyError "Open")) ∧
  (is_Some (lookup_col "Open" (columns df)) ↔
   ∃ (purchases : loc) (avg_price : float),
     run (simulate s data amount) h = Return (purchases, avg_price)).
Proof.
  intros Hd. unfold run.
  destruct (lookup_col "Open" (columns df)) as [open|] eqn:Hopen.
  - rewrite (simulate_returns _ _ _ _ _ _ Hd (matched_lookup s _ _ _ Hopen)).
    cbn [fst]. split.
    + split; intros [=].
    + split; intros _; [by eexists _, _|by eexists].
  - rewrite (simulate_raises _ _ _ _ _ Hd (matched_lookup_none s _ _ Hopen)).
    cbn [fst]. split; [done|].
    split; [intros [? [=]]|intros (? & ? & [=])].
Qed.

Lemma simulate_raises_iff_open_missing_witness :
  (lookup_col "Open" (columns {| index := [monday_2024]; columns := [] |}) = None ↔
   run (simulate (Daily 0) 0%nat (SInt 100)) [{| index := [monday_2024]; columns := [] |}] =
     Raise (KeyError "Open")) ∧
  (is_Some (lookup_col "Open" (columns {| index := [monday_2024]; columns := [] |})) ↔
   ∃ (purchases : loc) (avg_price : float),
     run (simulate (Daily 0) 0%nat (SInt 100)) [{| index := [monday_2024]; columns := [] |}] =
       Return (purchases, avg_price)).
Proof.
  apply (simulate_raises_iff_open_missing (Daily 0)
           [{| index := [monday_2024]; columns := [] |}] 0%nat
           {| index := [monday_2024]; columns := [] |} (SInt 100)).
  reflexivity.
Defined.

Lemma set_col_Forall (P : string * column float → Prop) name c cols :
  Forall P cols → P (name, c) → Forall P (set_col name c cols).
Proof.
  intros Hcols Hc. induction Hcols as [|[k c'] cols Hk Hrest IH]; simpl.
  - by repeat constructor.
  - destruct (String.eqb k name) eqn:E.
    + apply String.eqb_eq in E. subst k. by constructor.
    + by constructor.
Qed.

Lemma frame_select_wf (mask : list bool) (df : DataFrame) :
  wf_frame df → wf_frame (frame_select mask df).
Proof.
  unfold wf_frame, frame_select. cbn [columns index]. intros Hwf.
  apply Forall_map. eapply Forall_impl; [exact Hwf|].
  intros [k c] Hc. simpl in *. by apply col_select_len.
Qed.

Lemma resample_first_wf (df : DataFrame) : wf_frame (resample_first_frame df).
Proof.
  unfold wf_frame, resample_first_frame, resample_first_col. cbn [columns index].
  apply Forall_map, Forall_forall. intros [k c] _. simpl. by rewrite !length_map.
Qed.

Lemma matched_wf (s : strategy) (df : DataFrame) :
  wf_frame df → wf_frame (matched s df).
Proof.
  intros Hwf. destruct s; cbn [matched].
  - apply frame_select_wf, resample_first_wf.
  - by apply frame_select_wf.
  - by apply frame_select_wf.
Qed.

Lemma broadcast_len (amount : scalar float) (n : nat) : col_len (broadcast amount n) = n.
Proof. destruct amount; simpl; apply repeat_length. Qed.

Lemma rtruediv_len (amount : scalar float) (c : column float) :
  col_len (rtruediv amount c) = col_len c.
Proof. destruct c; simpl; by rewrite !length_map. Qed.

Lemma bought_wf (amount : scalar float) (open : column float) (df : DataFrame) :
  wf_frame df → col_len open = length (index df) → wf_frame (bought amount open df).
Proof.
  intros Hwf Hopen. unfold wf_frame, bought. cbn [columns index].
  apply set_col_Forall; [apply set_col_Forall; [exact Hwf|]|]; cbn [snd].
  - by rewrite rtruediv_len.
  - apply broadcast_len.
Qed.

(** X2.  The frame [purchases] a simulator returns: the rows it buys at,
    with the column [cost] holding the amount once per row, the column
    [btc_bought] holding the amount divided by the open price of the row,
    and every other column of the table as it was in these rows (a column
    of the table named [cost] or [btc_bought] is overwritten).  In a
    well-formed table the frame is well-formed: every column, the two new
    ones included, has one cell per row. *)
Theorem purchases_frame (s : strategy) (h : heap) (data : loc) (df : DataFrame)
    (amount : scalar float) (open : column float) :
  h !! data = Some df →
  lookup_col "Open" (columns df) = Some open →
  ∃ (purchases : loc) (avg_price : float) (p : DataFrame),
    run (simulate s data amount) h = Return (purchases, avg_price) ∧
    snd (simulate s data amount h) !! purchases = Some p ∧
    index p = index (matched s df) ∧
    lookup_col "cost" (columns p) = Some (broadcast amount (length (index p))) ∧
    lookup_col "btc_bought" (columns p) =
      Some (rtruediv amount (matched_col s df open)) ∧
    (∀ (name : string) (c : column float),
       name ≠ "cost"%string → name ≠ "btc_bought"%string →
       lookup_col name (columns df) = Some c →
       lookup_col name (columns p) = Some (matched_col s df c)) ∧
    (wf_frame df → wf_frame p).
Proof.
  intros Hd Hopen. unfold run.
  rewrite (simulate_returns _ _ _ _ _ _ Hd (matched_lookup s _ _ _ Hopen)).
  cbn [fst snd].
  eexists _, _, (bought amount (matched_col s df open) (matched s df)).
  split; [reflexivity|]. split; [apply lookup_purchases|].
  unfold bought. cbn [index columns].
  split; [done|]. split; [apply lookup_set_same|]. split; [|split].
  - rewrite lookup_set_other by reflexivity. apply lookup_set_same.
  - intros name c Hcost Hbtc Hc.
    rewrite !lookup_set_other by (apply String.eqb_neq; congruence).
    by apply matched_lookup.
  - intros Hwf. apply bought_wf; [by apply matched_wf|].
    apply matched_col_len. by eapply wf_lookup.
Qed.

Lemma purchases_frame_witness :
  ∃ (purchases : loc) (avg_price : float) (p : DataFrame),
    run (simulate (Daily 0) 0%nat (SInt 100)) [fixture_10_20_30] =
      Return (purchases, avg_price) ∧
    snd (simulate (Daily 0) 0%nat (SInt 100) [fixture_10_20_30]) !! purchases = Some p ∧
    index p = index (matched (Daily 0) fixture_10_20_30) ∧
    lookup_col "cost" (columns p) = Some (broadcast (SInt 100) (length (index p))) ∧
    lookup_col "btc_bought" (columns p) =
      Some (rtruediv (SInt 100) (matched_col (Daily 0) fixture_10_20_30
                                   (FloatCol [10; 20; 30]%float))) ∧
    (∀ (name : string) (c : column float),
       name ≠ "cost"%string → name ≠ "btc_bought"%string →
       lookup_col name (columns fixture_10_20_30) = Some c →
       lookup_col name (columns p) = Some (matched_col (Daily 0) fixture_10_20_30 c)) ∧
    (wf_frame fixture_10_20_30 → wf_frame p).
Proof.
  apply (purchases_frame (Daily 0) [fixture_10_20_30] 0%nat fixture_10_20_30 (SInt 100)
           (FloatCol [10; 20; 30]%float)); reflexivity.
Defined.

(** ** Which rows a simulator buys at *)

Lemma select_map {A B : Type} (g : A → B) (mask : list bool) (xs : list A) :
  select mask (map g xs) = map g (select mask xs).
Proof.
  revert xs. induction mask as [|b mask IH]; intros [|x xs]; simpl; try done.
  destruct b; simpl; by rewrite IH.
Qed.

Lemma col_floats_select (mask : list bool) (c : column float) :
  col_floats (col_select mask c) = select mask (col_floats c).
Proof. destruct c; simpl; [by rewrite select_map|done]. Qed.

Lemma select_combine {A B : Type} (f : A → bool) (idx : list A) (cs : list B) :
  combine (select (map f idx) idx) (select (map f idx) cs) =
  List.filter (fun tc => f (fst tc)) (combine idx cs).
Proof.
  revert cs. induction idx as [|t idx IH]; intros [|c cs]; simpl; try done.
  - by destruct (f t), (select _ _).
  - destruct (f t); simpl; by rewrite IH.
Qed.

(** X3.  The daily and the weekly simulator buy at exactly the rows of the
    table whose timestamp has the hour (and the weekday) asked for (lines
    30 and 40): the timestamps and open prices of [purchases] are those of
    these rows, all of them, in the order of the table. *)
Theorem daily_weekly_buy_at_bucket_rows (s : strategy) (h : heap) (data : loc)
    (df : DataFrame) (amount : scalar float) (open : column float) :
  h !! data = Some df →
  lookup_col "Open" (columns df) = Some open →
  s ≠ Hourly →
  ∃ (purchases : loc) (avg_price : float) (p : DataFrame) (p_open : column float),
    run (simulate s data amount) h = Return (purchases, avg_price) ∧
    snd (simulate s data amount h) !! purchases = Some p ∧
    lookup_col "Open" (columns p) = Some p_open ∧
    combine (index p) (col_floats p_open) =
      List.filter (fun tc => bucket s (fst tc)) (combine (index df) (col_floats open)).
Proof.
  intros Hd Hopen Hs. unfold run.
  rewrite (simulate_returns _ _ _ _ _ _ Hd (matched_lookup s _ _ _ Hopen)).
  cbn [fst snd].
  eexists _, _, (bought amount (matched_col s df open) (matched s df)),
    (matched_col s df open).
  split; [reflexivity|]. split; [apply lookup_purchases|]. split.
  - unfold bought. cbn [columns].
    rewrite !lookup_set_other by reflexivity. by apply matched_lookup.
  - unfold bought. cbn [index].
    destruct s; [done| |]; cbn [matched matched_col frame_select index];
      rewrite col_floats_select; apply select_combine.
Qed.

Lemma daily_weekly_buy_at_bucket_rows_witness :
  ∃ (purchases : loc) (avg_price : float) (p : DataFrame) (p_open : column float),
    run (simulate (Weekly 0 0) 0%nat (SInt 100)) [gap_series] =
      Return (purchases, avg_price) ∧
    snd (simulate (Weekly 0 0) 0%nat (SInt 100) [gap_series]) !! purchases = Some p ∧
    lookup_col "Open" (columns p) = Some p_open ∧
    combine (index p) (col_floats p_open) =
      List.filter (fun tc => bucket (Weekly 0 0) (fst tc))
        (combine (index gap_series) (col_floats (FloatCol [100; 100]%float))).
Proof.
  apply (daily_weekly_buy_at_bucket_rows (Weekly 0 0) [gap_series] 0%nat gap_series
           (SInt 100) (FloatCol [100; 100]%float)); [reflexivity|reflexivity|discriminate].
Defined.

Lemma lookup_map {A B : Type} (g : A → B) (l : list A) (k : nat) :
  map g l !! k = g <$> (l !! k).
Proof.
  revert k. induction l as [|x l IH]; intros [|k]; simpl; try done.
Qed.

Lemma select_In_lookup {A : Type} (mask : list bool) (xs : list A) (x : A) :
  In x (select mask xs) → ∃ k, mask !! k = Some true ∧ xs !! k = Some x.
Proof.
  revert xs. induction mask as [|b mask IH]; intros [|y xs]; simpl; try done.
  destruct b.
  - intros [->|Hin]; [by exists 0%nat|].
    destruct (IH xs Hin) as (k & ? & ?). by exists (S k).
  - intros Hin. destruct (IH xs Hin) as (k & ? & ?). by exists (S k).
Qed.

Lemma zip_andb_lookup (xs ys : list bool) (k : nat) :
  zip_andb xs ys !! k = Some true → xs !! k = Some true ∧ ys !! k = Some true.
Proof.
  revert ys k. induction xs as [|x xs IH]; intros [|y ys] [|k]; simpl; try done.
  - intros [= [-> ->]%andb_prop]. done.
  - apply IH.
Qed.

(** A row that [dropna] keeps has no NaN in any column. *)
Lemma notna_mask_lookup (df : DataFrame) (k : nat) (name : string) (c : column float) :
  notna_mask df !! k = Some true → In (name, c) (columns df) →
  col_notna c !! k = Some true.
Proof.
  unfold notna_mask. generalize (repeat true (length (index df))). intros base.
  induction (columns df) as [|[k' c'] cols IH]; simpl; [done|].
  intros Hm [[= -> ->]|Hin].
  - by apply zip_andb_lookup in Hm as [? _].
  - apply zip_andb_lookup in Hm as [_ ?]. by apply IH.
Qed.

Lemma select_Forall {A : Type} (P : A → Prop) (mask : list bool) (xs : list A) :
  Forall P xs → Forall P (select mask xs).
Proof.
  intros Hxs. revert mask. induction Hxs as [|x xs Hx _ IH]; intros [|b mask]; simpl;
    try constructor.
  destruct b; [constructor|]; auto.
Qed.

Lemma select_StronglySorted {A : Type} (R : A → A → Prop) (mask : list bool) (xs : list A) :
  StronglySorted R xs → StronglySorted R (select mask xs).
Proof.
  intros Hxs. revert mask. induction Hxs as [|x xs _ IH Hx]; intros [|b mask]; simpl;
    try constructor.
  destruct b; [|apply IH]. constructor; [apply IH|by apply select_Forall].
Qed.

Lemma bins_increasing (idx : list Z) : StronglySorted Z.lt (bins idx).
Proof.
  unfold bins. destruct idx as [|t ts]; [constructor|].
  generalize (fold_left Z.min (map hour_bin ts) (hour_bin t)).
  generalize (fold_left Z.max (map hour_bin ts) (hour_bin t)). intros hi lo.
  generalize (Z.to_nat (hi - lo + 1)), 0%nat. intros m.
  induction m as [|m IH]; intros start; simpl; constructor; [apply IH|].
  apply Forall_forall. intros b Hb%list_elem_of_In.
  apply in_map_iff in Hb as (k & <- & Hk%in_seq). lia.
Qed.

Lemma map_StronglySorted {A B : Type} (R : A → A → Prop) (R' : B → B → Prop)
    (g : A → B) (l : list A) :
  (∀ x y, R x y → R' (g x) (g y)) →
  StronglySorted R l → StronglySorted R' (map g l).
Proof.
  intros Hg. induction 1 as [|x l _ IH Hx]; simpl; constructor; [done|].
  apply Forall_map. eapply Forall_impl; [exact Hx|]. intros y. apply Hg.
Qed.

(** X4.  The hourly simulator buys once per hour at most, also when the
    table has several rows in an hour (line 20): the timestamps of
    [purchases] are full hours, strictly increasing, and each is the hour
    of a row of the table. *)
Theorem hourly_buys_once_per_hour (h : heap) (data : loc) (df : DataFrame)
    (amount : scalar float) (open : column float) :
  h !! data = Some df →
  lookup_col "Open" (columns df) = Some open →
  ∃ (purchases : loc) (avg_price : float) (p : DataFrame),
    run (simulate_hourly_dca data amount) h = Return (purchases, avg_price) ∧
    snd (simulate_hourly_dca data amount h) !! purchases = Some p ∧
    StronglySorted Z.lt (index p) ∧
    Forall (fun t => (t mod NS_PER_HOUR = 0)%Z ∧
                     ∃ t', In t' (index df) ∧ (hour_bin t' * NS_PER_HOUR)%Z = t)
           (index p).
Proof.
  intros Hd Hopen. unfold run.
  change (simulate_hourly_dca data amount) with (simulate Hourly data amount).
  rewrite (simulate_returns _ _ _ _ _ _ Hd (matched_lookup Hourly _ _ _ Hopen)).
  cbn [fst snd].
  eexists _, _, (bought amount (matched_col Hourly df open) (matched Hourly df)).
  split; [reflexivity|]. split; [apply lookup_purchases|].
  unfold bought. cbn [index matched]. unfold dropna_frame, frame_select. cbn [index].
  set (R := resample_first_frame df). split.
  - apply select_StronglySorted. unfold R, resample_first_frame. cbn [index].
    eapply map_StronglySorted; [|apply bins_increasing].
    intros x y Hxy. unfold NS_PER_HOUR. lia.
  - apply Forall_forall. intros t Ht%list_elem_of_In.
    apply select_In_lookup in Ht as (k & Hmask & Ht).
    pose proof (notna_mask_lookup R k "Open" _ Hmask
                  (lookup_col_In _ _ _ (resample_first_lookup df _ _ Hopen))) as Hcell.
    unfold R, resample_first_frame in Ht. cbn [index] in Ht.
    rewrite lookup_map in Ht.
    destruct (bins (index df) !! k) as [b|] eqn:Hb; [|done].
    injection Ht as <-. split; [apply Z.mod_mul; done|].
    unfold resample_first_col in Hcell. cbn [col_notna] in Hcell.
    rewrite !lookup_map, Hb in Hcell. simpl in Hcell. injection Hcell as Hcell.
    destruct (existsb (fun t => (hour_bin t =? b)%Z) (index df)) eqn:E.
    + apply existsb_exists in E as (t' & Hin & E%Z.eqb_eq). exists t'. by subst.
    + rewrite (select_none _ _ _ E) in Hcell. by vm_compute in Hcell.
Qed.

Lemma hourly_buys_once_per_hour_witness :
  ∃ (purchases : loc) (avg_price : float) (p : DataFrame),
    run (simulate_hourly_dca 0%nat (SInt 100)) [gap_series] = Return (purchases, avg_price) ∧
    snd (simulate_hourly_dca 0%nat (SInt 100) [gap_series]) !! purchases = Some p ∧
    StronglySorted Z.lt (index p) ∧
    Forall (fun t => (t mod NS_PER_HOUR = 0)%Z ∧
                     ∃ t', In t' (index gap_series) ∧ (hour_bin t' * NS_PER_HOUR)%Z = t)
           (index p).
Proof.
  apply (hourly_buys_once_per_hour [gap_series] 0%nat gap_series (SInt 100)
           (FloatCol [100; 100]%float)); reflexivity.
Defined.

(** ** The comparator: frames, errors, rows *)

Lemma preserved_trans (h1 h2 h3 : heap) :
  preserved h1 h2 → preserved h2 h3 → preserved h1 h3.
Proof. intros H12 H23 l df Hl. by apply H23, H12. Qed.

Lemma bind_preserved {A B : Type} (m : M A) (f : A → M B) :
  (∀ h, preserved h (snd (m h))) →
  (∀ a h, preserved h (snd (f a h))) →
  ∀ h, preserved h (snd ((m ≫= f) h)).
Proof.
  intros Hm Hf h. unfold mbind, M_bind.
  specialize (Hm h). destruct (m h) as [[a|e] h1]; simpl in *; [|done].
  eapply preserved_trans; [exact Hm|apply Hf].
Qed.

Lemma for_each_preserved {A B : Type} (xs : list A) (body : A → M B) :
  (∀ x h, preserved h (snd (body x h))) →
  ∀ h, preserved h (snd (for_each xs body h)).
Proof.
  intros Hbody. induction xs as [|x xs IH]; simpl.
  - intros h. (intros l df Hl; exact Hl).
  - apply bind_preserved; [apply Hbody|]. intros b.
    apply bind_preserved; [apply IH|]. intros bs h. (intros l df Hl; exact Hl).
Qed.

Lemma compare_strategies_preserved (fd : loc) (h : heap) :
  preserved h (snd (compare_strategies fd h)).
Proof.
  revert h. unfold compare_strategies.
  apply bind_preserved.
  { apply for_each_preserved. intros day. apply for_each_preserved. intros hour.
    apply bind_preserved; [|intros r h; (intros l df Hl; exact Hl)].
    intros h. apply (simulate_preserved (Weekly day hour)). }
  intros weekly. apply bind_preserved.
  { apply for_each_preserved. intros hour.
    apply bind_preserved; [|intros r h; (intros l df Hl; exact Hl)].
    intros h. apply (simulate_preserved (Daily hour)). }
  intros daily. apply bind_preserved; [|intros r h; (intros l df Hl; exact Hl)].
  intros h. apply (simulate_preserved Hourly).
Qed.

(** X5.  [main] and the comparator never change a frame that exists when
    they start, the loaded table included: the date filter (line 145) and
    the 193 simulations (lines 151-169) only add frames, also when a
    simulation raises. *)
Theorem main_leaves_frames_unchanged (h : heap) (data : loc) (start_date end_date : Z) :
  preserved h (snd (main data start_date end_date h)) ∧
  preserved h (snd (compare_strategies data h)).
Proof.
  split; [|apply compare_strategies_preserved].
  revert h. unfold main. apply bind_preserved.
  - intros h. unfold loc_slice, alloc. apply bind_preserved.
    + intros h'. unfold deref. destruct (h' !! data); simpl; by intros l df Hl.
    + intros df h'. simpl. apply preserved_app.
  - intros fd h. apply compare_strategies_preserved.
Qed.




(** X7.  The ranked table has each of the 193 strategies exactly once,
    under its own label and with the average price that its simulator
    returns on the filtered table: sorting (line 171) only reorders the
    rows of lines 151-169. *)
Theorem ranked_table_has_each_strategy_once (h : heap) (fd : loc) (df : DataFrame)
    (open : column float) :
  h !! fd = Some df →
  wf_frame df →
  lookup_col "Open" (columns df) = Some open →
  ∃ (table : list ranked) (avg_price : strategy → float),
    run (compare_strategies fd) h = Return table ∧
    Permutation (map entry table)
      (map (fun s => {| Strategy := label s; Avg_Price := avg_price s |}) all_strategies) ∧
    ∀ s : strategy,
      ∃ purchases : loc,
        run (simulate s fd (SInt 100)) h = Return (purchases, avg_price s).
Proof.
  intros Hd Hwf Hopen.
  exists (with_deviation (sort_values (map (strategy_result df open) all_strategies))),
    (fun s => Avg_Price (strategy_result df open s)).
  split; [by apply compare_strategies_run|]. split.
  - rewrite entries_with_deviation. apply sort_values_perm.
  - intros s. eexists. by apply simulate_avg_price.
Qed.

Lemma ranked_table_has_each_strategy_once_witness :
  ∃ (table : list ranked) (avg_price : strategy → float),
    run (compare_strategies 0%nat) [fixture_10_20_30] = Return table ∧
    Permutation (map entry table)
      (map (fun s => {| Strategy := label s; Avg_Price := avg_price s |}) all_strategies) ∧
    ∀ s : strategy,
      ∃ purchases : loc,
        run (simulate s 0%nat (SInt 100)) [fixture_10_20_30] =
          Return (purchases, avg_price s).
Proof.
  apply (ranked_table_has_each_strategy_once [fixture_10_20_30] 0%nat fixture_10_20_30
           (FloatCol [10; 20; 30]%float)).
  - reflexivity.
  - repeat constructor.
  - reflexivity.
Defined.

(** ** The bar charts (lines 88-116) *)

Lemma sort_values_ranked (rs : list result) : ranked_order (sort_values rs).
Proof.
  destruct (sort_values_shape rs) as (priced & nans & Hs & Hp & Hn & Hsorted & _).
  by exists priced, nans.
Qed.

Lemma filter_StronglySorted {A : Type} (R : A → A → Prop) (f : A → bool) (l : list A) :
  StronglySorted R l → StronglySorted R (List.filter f l).
Proof.
  induction 1 as [|x l Hl IH Hx]; simpl; [constructor|].
  destruct (f x); [|done]. constructor; [done|].
  apply Forall_forall. intros y Hy. apply list_elem_of_In in Hy.
  apply filter_In in Hy as [Hy _]. apply list_elem_of_In in Hy.
  by eapply Forall_forall in Hx.
Qed.

Lemma filter_keeps_Forall {A : Type} (P : A → Prop) (f : A → bool) (l : list A) :
  Forall P l → Forall P (List.filter f l).
Proof.
  induction 1 as [|x l Hx _ IH]; simpl; [done|]. destruct (f x); [by constructor|done].
Qed.

Lemma firstn_keeps_Forall {A : Type} (P : A → Prop) (n : nat) (l : list A) :
  Forall P l → Forall P (firstn n l).
Proof.
  intros Hl. rewrite <- (firstn_skipn n l) in Hl. by apply Forall_app in Hl as [Hl _].
Qed.

Lemma firstn_StronglySorted {A : Type} (R : A → A → Prop) (n : nat) (l : list A) :
  StronglySorted R l → StronglySorted R (firstn n l).
Proof.
  intros Hl. revert n. induction Hl as [|x l Hl IH Hx]; intros [|n]; simpl; try constructor.
  - apply IH.
  - by apply firstn_keeps_Forall.
Qed.

Lemma ranked_order_filter (f : result → bool) (rs : list result) :
  ranked_order rs → ranked_order (List.filter f rs).
Proof.
  intros (priced & nans & -> & Hp & Hn & Hsorted).
  exists (List.filter f priced), (List.filter f nans).
  rewrite List.filter_app. split; [done|].
  split; [by apply filter_keeps_Forall|]. split; [by apply filter_keeps_Forall|].
  by apply filter_StronglySorted.
Qed.

Lemma ranked_order_firstn (n : nat) (rs : list result) :
  ranked_order rs → ranked_order (firstn n rs).
Proof.
  intros (priced & nans & -> & Hp & Hn & Hsorted).
  exists (firstn n priced), (firstn (n - length priced) nans).
  rewrite firstn_app. split; [done|].
  split; [by apply firstn_keeps_Forall|]. split; [by apply firstn_keeps_Forall|].
  by apply firstn_StronglySorted.
Qed.

(** On rows in ranked order [Series.min] is the price of the first row. *)
Lemma series_min_ranked (rs : list result) :
  ranked_order rs → series_min (map Avg_Price rs) = hd nan (map Avg_Price rs).
Proof.
  intros (priced & nans & -> & Hp & Hn & Hsorted).
  unfold series_min. rewrite map_app, List.filter_app.
  rewrite (filter_all _ (map Avg_Price priced)).
  2:{ apply Forall_map. eapply Forall_impl; [exact Hp|].
      intros r Hr. simpl. by rewrite Hr. }
  rewrite (filter_none _ (map Avg_Price nans)).
  2:{ apply Forall_map. eapply Forall_impl; [exact Hn|].
      intros r Hr. simpl. by rewrite Hr. }
  rewrite app_nil_r.
  destruct Hsorted as [|r priced _ Hr]; simpl.
  - destruct Hn as [|r nans Hr _]; simpl; [done|]. symmetry. by apply is_nan_eq.
  - apply fold_min_head. apply Forall_map.
    eapply Forall_impl; [exact Hr|]. by intros z Hz.
Qed.

Lemma ltb_nan_r (x y : float) :
  PrimFloat.is_nan y = true → PrimFloat.ltb x y = false.
Proof.
  intros E. apply is_nan_true in E. rewrite FloatAxioms.ltb_spec, E.
  unfold SFltb, SFcompare. by destruct (Prim2SF x) as [| | |[] ? ?].
Qed.

(** In ranked order no row has a lower price than the first. *)
Lemma ranked_order_head (r : result) (rs : list result) :
  ranked_order (r :: rs) →
  Forall (fun r' => PrimFloat.ltb (Avg_Price r') (Avg_Price r) = false) rs.
Proof.
  intros (priced & nans & Hs & Hp & Hn & Hsorted).
  destruct priced as [|r1 priced]; simpl in Hs.
  - subst nans. inversion Hn as [|? ? Hr Hrest]; subst.
    apply Forall_forall. intros r' _. by apply ltb_nan_r.
  - injection Hs as <- ->. apply Forall_app. split.
    + by inversion Hsorted.
    + eapply Forall_impl; [exact Hn|]. intros r' Hr'. by apply ltb_nan_l.
Qed.

(** Recomputing the deviation on the first rows of a table in ranked
    order changes nothing. *)
Lemma with_deviation_firstn (n : nat) (rs : list result) :
  ranked_order rs →
  with_deviation (firstn (S n) rs) = firstn (S n) (with_deviation rs).
Proof.
  intros Hrs. unfold with_deviation.
  rewrite (series_min_ranked _ (ranked_order_firstn (S n) _ Hrs)).
  rewrite (series_min_ranked _ Hrs), firstn_map.
  by destruct rs.
Qed.

(** X8.  The chart of the overall top strategies shows the first 30 rows of
    the ranked table as they are: the deviation that lines 92-96 recompute
    against the best price of the 30 is the one the table has already
    (line 172), because the table is sorted by price. *)
Theorem bar_chart_is_first_30_rows (h : heap) (fd : loc) (df : DataFrame) :
  h !! fd = Some df →
  wf_frame df →
  is_Some (lookup_col "Open" (columns df)) →
  ∃ table : list ranked,
    run (compare_strategies fd) h = Return table ∧
    visualize_bar_chart table = firstn 30 table ∧
    length (visualize_bar_chart table) = 30%nat.
Proof.
  intros Hd Hwf [open Hopen].
  exists (with_deviation (sort_values (map (strategy_result df open) all_strategies))).
  split; [by apply compare_strategies_run|].
  assert (length (sort_values (map (strategy_result df open) all_strategies)) = 193%nat)
    as Hlen.
  { by rewrite (Permutation_length (sort_values_perm _)), length_map. }
  pose proof (sort_values_ranked (map (strategy_result df open) all_strategies)) as Hrs.
  revert Hlen Hrs.
  generalize (sort_values (map (strategy_result df open) all_strategies)).
  intros rs Hlen Hrs.
  assert (visualize_bar_chart (with_deviation rs) = firstn 30 (with_deviation rs)) as E.
  { unfold visualize_bar_chart.
    rewrite <- firstn_map, entries_with_deviation. by apply with_deviation_firstn. }
  split; [exact E|].
  rewrite E, length_firstn. unfold with_deviation. rewrite length_map, Hlen. reflexivity.
Qed.

Lemma bar_chart_is_first_30_rows_witness :
  ∃ table : list ranked,
    run (compare_strategies 0%nat) [fixture_10_20_30] = Return table ∧
    visualize_bar_chart table = firstn 30 table ∧
    length (visualize_bar_chart table) = 30%nat.
Proof.
  apply (bar_chart_is_first_30_rows [fixture_10_20_30] 0%nat fixture_10_20_30).
  - reflexivity.
  - repeat constructor.
  - by eexists.
Defined.

Lemma filtered_entries (rs : list result) :
  map entry (filtered_results (with_deviation rs)) =
  List.filter (fun r => negb (String.prefix "Weekly" (Strategy r))) rs.
Proof.
  unfold filtered_results, with_deviation, is_weekly.
  rewrite filter_map_comm, map_map. simpl. apply map_id.
Qed.

(** X9.  The chart without the weekly strategies has 25 bars, the hourly
    and the 24 daily strategies, in the order of the ranked table.  No bar
    has a lower average price than the first, and the first bar has the
    deviation [0.0] when its price is a positive finite number: the
    deviation is taken against the best of the strategies that remain
    (lines 92-96 after line 115), not against the best of all. *)
Theorem filtered_chart_ranks_remaining (h : heap) (fd : loc) (df : DataFrame) :
  h !! fd = Some df →
  wf_frame df →
  is_Some (lookup_col "Open" (columns df)) →
  ∃ (table : list ranked) (best : ranked) (rest : list ranked),
    run (compare_strategies fd) h = Return table ∧
    visualize_filtered_bar_chart table = best :: rest ∧
    length rest = 24%nat ∧
    map entry (best :: rest) =
      List.filter (fun r => negb (String.prefix "Weekly" (Strategy r))) (map entry table) ∧
    Forall (fun r => PrimFloat.ltb (Avg_Price (entry r)) (Avg_Price (entry best)) = false)
           rest ∧
    (positive_finite (Avg_Price (entry best)) = true →
     Relative_Deviation best = 0%float).
Proof.
  intros Hd Hwf [open Hopen].
  exists (with_deviation (sort_values (map (strategy_result df open) all_strategies))).
  pose proof (compare_strategies_run h fd df open Hd Hwf Hopen) as Hrun.
  pose proof (table_labels df open) as Hperm.
  apply filtered_results_length in Hperm as [_ Hlen].
  pose proof (sort_values_ranked (map (strategy_result df open) all_strategies)) as Hrs.
  revert Hrun Hlen Hrs.
  generalize (sort_values (map (strategy_result df open) all_strategies)).
  intros rs Hrun Hlen Hrs.
  unfold visualize_filtered_bar_chart, visualize_bar_chart.
  rewrite firstn_all2 by lia.
  rewrite <- (length_map entry) in Hlen.
  rewrite entries_with_deviation. rewrite filtered_entries in *.
  apply (ranked_order_filter (fun r => negb (String.prefix "Weekly" (Strategy r)))) in Hrs.
  revert Hlen Hrs.
  generalize (List.filter (fun r => negb (String.prefix "Weekly" (Strategy r))) rs).
  intros [|r rest] Hlen Hrs; [done|].
  pose proof (series_min_ranked _ Hrs) as Hmin.
  eexists _, _. split; [exact Hrun|]. unfold with_deviation. rewrite Hmin.
  cbn [map hd]. split; [reflexivity|]. cbn [entry Relative_Deviation].
  split; [rewrite length_map; simpl in Hlen; lia|].
  split; [by rewrite map_map, map_id|].
  split.
  - apply Forall_map. by apply ranked_order_head.
  - apply relative_deviation_self.
Qed.

Lemma filtered_chart_ranks_remaining_witness :
  ∃ (table : list ranked) (best : ranked) (rest : list ranked),
    run (compare_strategies 0%nat) [fixture_10_20_30] = Return table ∧
    visualize_filtered_bar_chart table = best :: rest ∧
    length rest = 24%nat ∧
    map entry (best :: rest) =
      List.filter (fun r => negb (String.prefix "Weekly" (Strategy r))) (map entry table) ∧
    Forall (fun r => PrimFloat.ltb (Avg_Price (entry r)) (Avg_Price (entry best)) = false)
           rest ∧
    (positive_finite (Avg_Price (entry best)) = true →
     Relative_Deviation best = 0%float).
Proof.
  apply (filtered_chart_ranks_remaining [fixture_10_20_30] 0%nat fixture_10_20_30).
  - reflexivity.
  - repeat constructor.
  - by eexists.
Defined.

(** ** The hours and weekdays partition the rows *)

Lemma hour_of_range (t : Z) : (0 <= hour_of t < 24)%Z.
Proof. unfold hour_of. apply Z.mod_pos_bound. lia. Qed.

Lemma dayofweek_range (t : Z) : (0 <= dayofweek t < 7)%Z.
Proof. unfold dayofweek. apply Z.mod_pos_bound. lia. Qed.

Lemma count_in_range (n : nat) (v : Z) :
  length (List.filter (fun x => (v =? x)%Z) (range n)) =
  if ((0 <=? v) && (v <? Z.of_nat n))%Z then 1%nat else 0%nat.
Proof.
  unfold range. induction n as [|n IH].
  - change (Z.of_nat 0) with 0%Z. simpl.
    destruct (Z.leb_spec 0 v), (Z.ltb_spec v 0); simpl; lia.
  - rewrite seq_S, map_app, List.filter_app, length_app, IH. simpl.
    destruct (Z.eqb_spec v (Z.of_nat n)), (Z.leb_spec 0 v), (Z.ltb_spec v (Z.of_nat n)),
      (Z.ltb_spec v (Z.of_nat (S n))); simpl; lia.
Qed.

Lemma list_sum_zero {A : Type} (xs : list A) : list_sum (map (fun _ => 0%nat) xs) = 0%nat.
Proof. induction xs as [|x xs IH]; simpl; [done|exact IH]. Qed.

Lemma list_sum_ones {A : Type} (xs : list A) :
  list_sum (map (fun _ => 1%nat) xs) = length xs.
Proof. induction xs as [|x xs IH]; simpl; [done|by rewrite IH]. Qed.

Lemma list_sum_ext {A : Type} (f g : A → nat) (xs : list A) :
  (∀ x, f x = g x) → list_sum (map f xs) = list_sum (map g xs).
Proof. intros E. induction xs as [|x xs IH]; simpl; [done|]. by rewrite E, IH. Qed.

(** Counting the pairs that satisfy [p] by rows or by columns. *)
Lemma double_count {A B : Type} (p : A → B → bool) (xs : list A) (ys : list B) :
  list_sum (map (fun x => length (List.filter (p x) ys)) xs) =
  list_sum (map (fun y => length (List.filter (fun x => p x y) xs)) ys).
Proof.
  induction ys as [|y ys IH]; simpl; [apply list_sum_zero|].
  rewrite <- IH. clear IH.
  induction xs as [|x xs IH]; simpl; [done|].
  rewrite IH. destruct (p x y); simpl; lia.
Qed.

Lemma matched_index (s : strategy) (df : DataFrame) :
  s ≠ Hourly → index (matched s df) = List.filter (bucket s) (index df).
Proof. destruct s; [done|..]; intros _; apply select_map_self. Qed.

Lemma count_hours (idx : list Z) :
  list_sum (map (fun hour => length (List.filter (fun t => (hour_of t =? hour)%Z) idx))
                (range 24)) = length idx.
Proof.
  rewrite (double_count (fun hour t => (hour_of t =? hour)%Z)).
  rewrite <- list_sum_ones. apply list_sum_ext. intros t.
  rewrite (count_in_range 24 (hour_of t)).
  pose proof (hour_of_range t).
  destruct (Z.leb_spec 0 (hour_of t)), (Z.ltb_spec (hour_of t) (Z.of_nat 24)); simpl; lia.
Qed.

Lemma count_weekdays (idx : list Z) :
  list_sum (map (fun day => length (List.filter (fun t => (dayofweek t =? day)%Z) idx))
                (range 7)) = length idx.
Proof.
  rewrite (double_count (fun day t => (dayofweek t =? day)%Z)).
  rewrite <- list_sum_ones. apply list_sum_ext. intros t.
  rewrite (count_in_range 7 (dayofweek t)).
  pose proof (dayofweek_range t).
  destruct (Z.leb_spec 0 (dayofweek t)), (Z.ltb_spec (dayofweek t) (Z.of_nat 7));
    simpl; lia.
Qed.

Lemma filter_andb {A : Type} (f g : A → bool) (xs : list A) :
  List.filter (fun x => f x && g x) xs = List.filter g (List.filter f xs).
Proof.
  induction xs as [|x xs IH]; simpl; [done|].
  destruct (f x); simpl; [|done]. destruct (g x); by rewrite IH.
Qed.

(** X10.  The 24 daily strategies partition the rows of the table, and so
    do the 168 weekly strategies: the purchases of the daily strategies
    (line 30) add up to one per row, and those of the weekly strategies
    (line 40) too, whatever the timestamps are. *)
Theorem daily_and_weekly_partition_rows (df : DataFrame) :
  list_sum (map (fun hour => length (index (matched (Daily hour) df))) (range 24)) =
    length (index df) ∧
  list_sum (map (fun day =>
              list_sum (map (fun hour => length (index (matched (Weekly day hour) df)))
                            (range 24)))
            (range 7)) = length (index df).
Proof.
  split.
  - rewrite <- (count_hours (index df)). apply list_sum_ext. intros hour.
    by rewrite matched_index.
  - rewrite <- (count_weekdays (index df)). apply list_sum_ext. intros day.
    rewrite <- (count_hours (List.filter _ (index df))).
    apply list_sum_ext. intros hour.
    rewrite matched_index by done.
    exact (f_equal length
             (filter_andb (fun t => (dayofweek t =? day)%Z) (fun t => (hour_of t =? hour)%Z)
                          (index df))).
Qed.

(** ** The date filter keeps the range and nothing else *)

Lemma slice_nil {A : Type} (i j : nat) : slice i j (@nil A) = [].
Proof. unfold slice. by rewrite skipn_nil, firstn_nil. Qed.

Lemma count_below_none (f : Z → bool) (x : Z) (idx : list Z) :
  Forall (Z.le x) idx → (∀ t, (x <= t)%Z → f t = false) →
  length (List.filter f idx) = 0%nat.
Proof.
  intros Hx Hf. induction Hx as [|t idx Ht _ IH]; simpl; [done|].
  by rewrite (Hf t Ht).
Qed.

(** On a monotonic increasing index the positions between the two
    [searchsorted] results are the rows with a label in the range. *)
Lemma slice_is_select {A : Type} (idx : list Z) (v w : Z) (xs : list A) :
  StronglySorted Z.le idx →
  slice (searchsorted_left idx v) (searchsorted_right idx w) xs =
  select (map (fun t => (v <=? t)%Z && (t <=? w)%Z) idx) xs.
Proof.
  unfold searchsorted_left, searchsorted_right.
  intros Hs. revert xs. induction Hs as [|x idx Hs IH Hx]; intros xs.
  - simpl. unfold slice. by rewrite Nat.sub_0_r.
  - destruct xs as [|c xs]; [by rewrite slice_nil|].
    specialize (IH xs). cbn [List.filter map select].
    destruct (Z.ltb_spec x v) as [Hv|Hv], (Z.leb_spec x w) as [Hw|Hw],
      (Z.leb_spec v x) as [Hv'|Hv']; try lia; cbn [andb length].
    + by rewrite <- IH.
    + rewrite <- IH.
      rewrite (count_below_none (fun t => (t <=? w)%Z) x idx Hx)
        by (intros t Ht; apply Z.leb_gt; lia).
      unfold slice. by rewrite !firstn_O.
    + rewrite <- IH.
      rewrite (count_below_none (fun t => (t <? v)%Z) x idx Hx)
        by (intros t Ht; apply Z.ltb_ge; lia).
      unfold slice. by rewrite !Nat.sub_0_r.
    + rewrite <- IH.
      rewrite (count_below_none (fun t => (t <? v)%Z) x idx Hx)
        by (intros t Ht; apply Z.ltb_ge; lia).
      rewrite (count_below_none (fun t => (t <=? w)%Z) x idx Hx)
        by (intros t Ht; apply Z.leb_gt; lia).
      done.
Qed.

Lemma loc_slice_is_mask (start_date end_date : Z) (df : DataFrame) :
  Sorted Z.le (index df) →
  loc_slice_frame start_date end_date df =
  frame_select (map (fun t => (start_date <=? t)%Z && (t <=? end_date)%Z) (index df)) df.
Proof.
  intros Hs. apply Sorted_StronglySorted in Hs; [|intros ? ? ?; lia].
  unfold loc_slice_frame, frame_slice, frame_select. f_equal.
  - by apply slice_is_select.
  - apply map_ext. intros [name c]. cbn [fst snd]. f_equal.
    destruct c; simpl; f_equal; by apply slice_is_select.
Qed.

(** X11.  On a table with a monotonic increasing index the date filter of
    line 145 keeps the rows whose timestamp lies in
    [start_date, end_date] and no other row: it is the selection by the
    mask [(start_date <= index) & (index <= end_date)], in every column.
    This frame is what the comparator gets, and it has one cell per row in
    every column when the table has. *)
Theorem date_filter_keeps_exactly_the_range (h : heap) (data : loc) (df : DataFrame)
    (start_date end_date : Z) :
  h !! data = Some df →
  Sorted Z.le (index df) →
  ∃ filtered_data : DataFrame,
    main data start_date end_date h =
      compare_strategies (length h) (h ++ [filtered_data]) ∧
    filtered_data =
      frame_select (map (fun t => (start_date <=? t)%Z && (t <=? end_date)%Z) (index df)) df ∧
    index filtered_data =
      List.filter (fun t => (start_date <=? t)%Z && (t <=? end_date)%Z) (index df) ∧
    (wf_frame df → wf_frame filtered_data).
Proof.
  intros Hd Hs. exists (loc_slice_frame start_date end_date df).
  split; [by apply main_run|].
  rewrite (loc_slice_is_mask _ _ _ Hs). split; [done|]. split.
  - cbn [frame_select index]. apply select_map_self.
  - apply frame_select_wf.
Qed.

Lemma date_filter_keeps_exactly_the_range_witness :
  ∃ filtered_data : DataFrame,
    main 0%nat (monday_2024 + NS_PER_DAY) (monday_2024 + 7 * NS_PER_DAY)
         [fixture_10_20_30] =
      compare_strategies 1%nat ([fixture_10_20_30] ++ [filtered_data]) ∧
    filtered_data =
      frame_select
        (map (fun t => ((monday_2024 + NS_PER_DAY) <=? t)%Z &&
                       (t <=? monday_2024 + 7 * NS_PER_DAY)%Z)
             (index fixture_10_20_30)) fixture_10_20_30 ∧
    index filtered_data =
      List.filter (fun t => ((monday_2024 + NS_PER_DAY) <=? t)%Z &&
                            (t <=? monday_2024 + 7 * NS_PER_DAY)%Z)
                  (index fixture_10_20_30) ∧
    (wf_frame fixture_10_20_30 → wf_frame filtered_data).
Proof.
  apply (date_filter_keeps_exactly_the_range [fixture_10_20_30] 0%nat fixture_10_20_30
           (monday_2024 + NS_PER_DAY) (monday_2024 + 7 * NS_PER_DAY)).
  - reflexivity.
  - vm_compute index. repeat (constructor; try (intros [=])).
Defined.

(** ** The heat maps (lines 46-86) *)

(** A simulation followed by a pure use of its average price. *)
Lemma simulate_then {B : Type} (k : float → B) (s : strategy) (fd : loc) (df : DataFrame)
    (open : column float) (amount : scalar float) (h : heap) :
  wf_frame df →
  lookup_col "Open" (columns df) = Some open →
  h !! fd = Some df →
  ∃ h',
    (r ← simulate s fd amount; mret (k (snd r))) h =
      (Return (k (avg_price_of amount (matched_col s df open))), h') ∧
    h' !! fd = Some df.
Proof.
  intros Hwf Hopen Hd.
  pose proof (simulate_avg_price s h fd df amount open Hd Hwf Hopen) as Hrun.
  pose proof (simulate_preserved s h fd amount fd df Hd) as Hkeep.
  unfold run in Hrun.
  destruct (simulate s fd amount h) as [o h'] eqn:E. simpl in *. subst o.
  exists h'. split; [|done].
  unfold mbind, M_bind. by rewrite E.
Qed.

(** The pivot of the 168 rows of lines 52-56 and its reindexing: no
    duplicate, no missing cell. *)
Lemma pivot_weekly (f : Z → Z → float) :
  ∃ g : grid,
    pivot (map (fun r => (nth (Z.to_nat (fst (fst r))) day_order ""%string,
                          snd (fst r), snd r))
               (concat (map (fun day => map (fun hour => (day, hour, f day hour)) (range 24))
                            (range 7)))) = Some g ∧
    reindex (rev day_order) g =
      {| row_labels := ["Sunday"; "Saturday"; "Friday"; "Thursday"; "Wednesday";
                        "Tuesday"; "Monday"]%string;
         col_labels := range 24;
         cells := map (fun day => map (fun hour => f day hour) (range 24))
                      (rev (range 7)) |}.
Proof.
  eexists. split; [vm_compute; reflexivity|]. vm_compute. reflexivity.
Qed.

Lemma sort_daily_desc (f : Z → float) :
  sort_by_hour_desc (map (fun hour => (hour, f hour)) (range 24)) =
  map (fun hour => (hour, f hour)) (rev (range 24)).
Proof. vm_compute. reflexivity. Qed.

Lemma generate_heatmaps_preserved (data : loc) (amount : scalar float) (h : heap) :
  preserved h (snd (generate_heatmaps data amount h)).
Proof.
  revert h. unfold generate_heatmaps.
  apply bind_preserved.
  { apply for_each_preserved. intros day. apply for_each_preserved. intros hour.
    apply bind_preserved; [|intros r h; (intros l df Hl; exact Hl)].
    intros h. apply (simulate_preserved (Weekly day hour)). }
  intros weekly. destruct (pivot _); [|intros h l df Hl; exact Hl].
  apply bind_preserved.
  { apply for_each_preserved. intros hour.
    apply bind_preserved; [|intros r h; (intros l df Hl; exact Hl)].
    intros h. apply (simulate_preserved (Daily hour)). }
  intros daily h l df Hl. exact Hl.
Qed.

Lemma generate_heatmaps_run (h : heap) (data : loc) (df : DataFrame)
    (open : column float) (amount : scalar float) :
  h !! data = Some df →
  wf_frame df →
  lookup_col "Open" (columns df) = Some open →
  run (generate_heatmaps data amount) h =
    Return (Drawn
      {| row_labels := ["Sunday"; "Saturday"; "Friday"; "Thursday"; "Wednesday";
                        "Tuesday"; "Monday"]%string;
         col_labels := range 24;
         cells := map (fun day =>
                    map (fun hour =>
                           avg_price_of amount (matched_col (Weekly day hour) df open))
                        (range 24))
                    (rev (range 7)) |}
      (map (fun hour => (hour, avg_price_of amount (matched_col (Daily hour) df open)))
           (rev (range 24)))).
Proof.
  intros Hd Hwf Hopen.
  unfold run, generate_heatmaps.
  set (I := fun h' : heap => h' !! data = Some df).
  set (f := fun day hour => avg_price_of amount (matched_col (Weekly day hour) df open)).
  set (d := fun hour => avg_price_of amount (matched_col (Daily hour) df open)).
  destruct (for_each_map I
              (fun day => map (fun hour => (day, hour, f day hour)) (range 24))
              (range 7)
              (fun day => for_each (range 24) (fun hour =>
                 r ← simulate_weekly_dca data day hour amount;
                 mret (day, hour, snd r)))
              h Hd) as (h1 & E1 & H1).
  { intros day h0 H0.
    apply (for_each_map I (fun hour => (day, hour, f day hour))); [done|].
    intros hour h0' H0'.
    by apply (simulate_then (fun a => (day, hour, a)) (Weekly day hour)). }
  destruct (for_each_map I (fun hour => (hour, d hour))
              (range 24)
              (fun hour =>
                 r ← simulate_daily_dca data hour amount;
                 mret (hour, snd r))
              h1 H1) as (h2 & E2 & Hh2).
  { intros hour h' Hh'. by apply (simulate_then (fun a => (hour, a)) (Daily hour)). }
  destruct (pivot_weekly f) as (g & Hpivot & Hg).
  unfold mbind at 1. unfold M_bind at 1. rewrite E1, Hpivot.
  unfold mbind at 1. unfold M_bind at 1. rewrite E2. cbn [fst mret M_ret].
  rewrite Hg, (sort_daily_desc d). reflexivity.
Qed.

(** X12.  On a table with an [Open] column [generate_heatmaps] draws both
    heat maps and [pivot] does not fail.  The first has the rows Sunday
    down to Monday (line 62) and the columns 0 to 23; its cell for a day
    and an hour is the average price that the weekly simulator returns for
    them, and no cell is left empty by the pivot.  The second has the rows
    23 down to 0 (line 79) with the average price of the daily simulator.
    The frames that exist before the call are unchanged. *)
Theorem heatmaps_show_each_strategy (h : heap) (data : loc) (df : DataFrame)
    (open : column float) (amount : scalar float) :
  h !! data = Some df →
  wf_frame df →
  lookup_col "Open" (columns df) = Some open →
  run (generate_heatmaps data amount) h =
    Return (Drawn
      {| row_labels := ["Sunday"; "Saturday"; "Friday"; "Thursday"; "Wednesday";
                        "Tuesday"; "Monday"]%string;
         col_labels := range 24;
         cells := map (fun day =>
                    map (fun hour =>
                           avg_price_of amount (matched_col (Weekly day hour) df open))
                        (range 24))
                    (rev (range 7)) |}
      (map (fun hour => (hour, avg_price_of amount (matched_col (Daily hour) df open)))
           (rev (range 24)))) ∧
  (∀ s : strategy,
     ∃ purchases : loc,
       run (simulate s data amount) h =
         Return (purchases, avg_price_of amount (matched_col s df open))) ∧
  preserved h (snd (generate_heatmaps data amount h)).
Proof.
  intros Hd Hwf Hopen. split; [|split].
  - by apply generate_heatmaps_run.
  - intros s. eexists. by apply simulate_avg_price.
  - apply generate_heatmaps_preserved.
Qed.

Lemma heatmaps_show_each_strategy_witness :
  run (generate_heatmaps 0%nat (SInt 100)) [fixture_10_20_30] =
    Return (Drawn
      {| row_labels := ["Sunday"; "Saturday"; "Friday"; "Thursday"; "Wednesday";
                        "Tuesday"; "Monday"]%string;
         col_labels := range 24;
         cells := map (fun day =>
                    map (fun hour =>
                           avg_price_of (SInt 100)
                             (matched_col (Weekly day hour) fixture_10_20_30
                                          (FloatCol [10; 20; 30]%float)))
                        (range 24))
                    (rev (range 7)) |}
      (map (fun hour => (hour, avg_price_of (SInt 100)
                                 (matched_col (Daily hour) fixture_10_20_30
                                              (FloatCol [10; 20; 30]%float))))
           (rev (range 24)))) ∧
  (∀ s : strategy,
     ∃ purchases : loc,
       run (simulate s 0%nat (SInt 100)) [fixture_10_20_30] =
         Return (purchases,
                 avg_price_of (SInt 100)
                   (matched_col s fixture_10_20_30 (FloatCol [10; 20; 30]%float)))) ∧
  preserved [fixture_10_20_30]
            (snd (generate_heatmaps 0%nat (SInt 100) [fixture_10_20_30])).
Proof.
  apply (heatmaps_show_each_strategy [fixture_10_20_30] 0%nat fixture_10_20_30
           (FloatCol [10; 20; 30]%float) (SInt 100)).
  - reflexivity.
  - repeat constructor.
  - reflexivity.
Defined.

(** ** The figures of [main] (lines 144-184) *)










(** ** The prompt (lines 130-142) *)

Lemma pair_ind {A : Type} (P : list A → Prop) :
  P [] → (∀ x, P [x]) → (∀ x y l, P l → P (x :: y :: l)) → ∀ l, P l.
Proof.
  intros Hnil Hone Hstep l.
  assert (P l ∧ ∀ x, P (x :: l)) as [Hl _]; [|exact Hl].
  induction l as [|y l [IH1 IH2]]; [by split|].
  split; [apply IH2|]. intros x. by apply Hstep.
Qed.

Lemma read_dates_accepts (strptime : string → option Z) (min_date max_date : Z)
    (a b : string) (start_date end_date : Z) :
  read_dates strptime min_date max_date a b = inr (start_date, end_date) →
  strptime a = Some start_date ∧ strptime b = Some end_date ∧
  valid_range min_date max_date start_date end_date = true.
Proof.
  unfold read_dates.
  destruct (strptime a) as [s|]; [|done]. destruct (strptime b) as [e|]; [|done].
  destruct (valid_range min_date max_date s e) eqn:Hv; [|done].
  by intros [= <- <-].
Qed.

(** X14.  The prompt loop reads the lines two by two.  For every message
    it prints, the two lines of that turn were rejected: a line that is
    not a date gives the message of line 142, two dates outside the table
    or in the wrong order give that of line 140.  When the loop ends with
    two dates, they are the dates of the first pair that is not rejected,
    both lie between the first and the last timestamp of the table, and
    the start is not after the end.  Otherwise the input has run out, after
    one message for each complete pair. *)
Theorem prompt_accepts_first_valid_pair (strptime : string → option Z)
    (min_date max_date : Z) (lines : list string) (printed : list message)
    (r : prompted) :
  prompt strptime min_date max_date lines = (printed, r) →
  (∀ (k : nat) (m : message),
     printed !! k = Some m →
     ∃ a b : string,
       lines !! (2 * k)%nat = Some a ∧ lines !! (2 * k + 1)%nat = Some b ∧
       read_dates strptime min_date max_date a b = inl m ∧
       (m = InvalidFormat ↔ strptime a = None ∨ strptime b = None)) ∧
  match r with
  | Accepted start_date end_date =>
      (min_date <= start_date <= max_date)%Z ∧
      (min_date <= end_date <= max_date)%Z ∧
      (start_date <= end_date)%Z ∧
      ∃ a b : string,
        lines !! (2 * length printed)%nat = Some a ∧
        lines !! (2 * length printed + 1)%nat = Some b ∧
        strptime a = Some start_date ∧ strptime b = Some end_date
  | EOFError => (length lines < 2 * length printed + 2)%nat
  end.
Proof.
  revert printed r. induction lines as [|x|x y lines IH] using pair_ind;
    intros printed r Hp.
  - injection Hp as <- <-. split; [done|]. simpl. lia.
  - injection Hp as <- <-. split; [done|]. simpl. lia.
  - cbn [prompt] in Hp.
    destruct (read_dates strptime min_date max_date x y) as [m|[s e]] eqn:E.
    + destruct (prompt strptime min_date max_date lines) as [ms r'] eqn:El.
      injection Hp as <- <-.
      destruct (IH ms r' eq_refl) as [Hrej Hend]. split.
      * intros [|k] m' Hk.
        { injection Hk as <-. exists x, y. repeat split; try done.
          - intros ->. revert E. unfold read_dates.
            destruct (strptime x); [|by left]. destruct (strptime y); [|by right].
            by destruct (valid_range _ _ _ _).
          - revert E. unfold read_dates.
            destruct (strptime x); [|by intros [= <-]].
            destruct (strptime y); [|by intros [= <-]].
            intros _ [|]; done. }
        destruct (Hrej k m' Hk) as (a & b & Ha & Hb & Hm).
        exists a, b.
        replace (2 * S k)%nat with (S (S (2 * k))) by lia.
        by replace (S (S (2 * k)) + 1)%nat with (S (S (2 * k + 1))) by lia.
      * destruct r' as [s e|].
        { destruct Hend as (Hs & He & Hse & a & b & Ha & Hb & Hpa & Hpb).
          repeat split; try lia. exists a, b. cbn [length].
          replace (2 * S (length ms))%nat with (S (S (2 * length ms))) by lia.
          by replace (S (S (2 * length ms)) + 1)%nat
            with (S (S (2 * length ms + 1))) by lia. }
        cbn [length]. lia.
    + injection Hp as <- <-. split; [done|].
      apply read_dates_accepts in E as (Hx & Hy & Hv).
      unfold valid_range in Hv.
      apply andb_prop in Hv as [Hv H5]. apply andb_prop in Hv as [Hv H4].
      apply andb_prop in Hv as [Hv H3]. apply andb_prop in Hv as [H1 H2].
      apply Z.leb_le in H1, H2, H3, H4, H5.
      repeat split; try lia. by exists x, y.
Qed.

Lemma prompt_accepts_first_valid_pair_witness :
  prompt two_dates monday_2024 (monday_2024 + 14 * NS_PER_DAY)
         ["2024-1-32"; "2024-01-01"; "2024-01-15"; "2024-01-01";
          "2024-01-01"; "2024-01-15"]%string =
    ([InvalidFormat; OutOfRange], Accepted monday_2024 (monday_2024 + 14 * NS_PER_DAY)) ∧
  (monday_2024 <= monday_2024 + 14 * NS_PER_DAY)%Z.
Proof.
  split; [vm_compute; reflexivity|].
  apply (prompt_accepts_first_valid_pair two_dates monday_2024
           (monday_2024 + 14 * NS_PER_DAY)
           ["2024-1-32"; "2024-01-01"; "2024-01-15"; "2024-01-01";
            "2024-01-01"; "2024-01-15"]%string
           [InvalidFormat; OutOfRange]
           (Accepted monday_2024 (monday_2024 + 14 * NS_PER_DAY))).
  vm_compute. reflexivity.
Defined.

(** ** The hourly simulator drops the hours with a missing value *)

Lemma first_valid_In (xs : list float) :
  PrimFloat.is_nan (first_valid xs) = false → In (first_valid xs) xs.
Proof.
  unfold first_valid.
  destruct (List.filter _ xs) as [|x ys] eqn:E; [by vm_compute|]. intros _.
  assert (In x (List.filter (fun x => negb (PrimFloat.is_nan x)) xs)) as Hin
    by (rewrite E; by left).
  by apply filter_In in Hin as [Hin _].
Qed.

Lemma select_In {A : Type} (mask : list bool) (xs : list A) (x : A) :
  In x (select mask xs) → In x xs.
Proof.
  intros (k & _ & Hk)%select_In_lookup.
  apply list_elem_of_In. by eapply list_elem_of_lookup_2.
Qed.

(** The cells of a column in the rows the hourly simulator buys at: none
    is NaN and each is a cell of the table. *)
Lemma hourly_cells (df : DataFrame) (name : string) (c : column float) :
  lookup_col name (columns df) = Some c →
  Forall (fun x => PrimFloat.is_nan x = false ∧ In x (col_floats c))
         (col_floats (matched_col Hourly df c)).
Proof.
  intros Hc. cbn [matched_col]. rewrite col_floats_select.
  apply Forall_forall. intros x Hx%list_elem_of_In.
  apply select_In_lookup in Hx as (k & Hmask & Hx).
  pose proof (notna_mask_lookup (resample_first_frame df) k name _ Hmask
                (lookup_col_In _ _ _ (resample_first_lookup df _ _ Hc))) as Hcell.
  unfold resample_first_col in Hcell, Hx. cbn [col_notna col_floats] in Hcell, Hx.
  rewrite lookup_map in Hcell. rewrite Hx in Hcell. simpl in Hcell.
  injection Hcell as Hcell. apply negb_true_iff in Hcell. split; [done|].
  rewrite lookup_map in Hx.
  destruct (bins (index df) !! k) as [b|]; [|done]. injection Hx as <-.
  eapply select_In. by apply first_valid_In.
Qed.

(** X15.  The hourly simulator buys in an hour only when every column of
    the table has a value in that hour ([dropna], line 20): no cell of
    [purchases] in a column of the table is NaN, and each is a cell of
    that column of the table.  In particular every price it buys at is a
    price of the table. *)
Theorem hourly_purchases_have_no_nan (h : heap) (data : loc) (df : DataFrame)
    (amount : scalar float) (open : column float) :
  h !! data = Some df →
  lookup_col "Open" (columns df) = Some open →
  ∃ (purchases : loc) (avg_price : float) (p : DataFrame),
    run (simulate_hourly_dca data amount) h = Return (purchases, avg_price) ∧
    snd (simulate_hourly_dca data amount h) !! purchases = Some p ∧
    ∀ (name : string) (c : column float),
      name ≠ "cost"%string → name ≠ "btc_bought"%string →
      lookup_col name (columns df) = Some c →
      ∃ c' : column float,
        lookup_col name (columns p) = Some c' ∧
        Forall (fun x => PrimFloat.is_nan x = false ∧ In x (col_floats c))
               (col_floats c').
Proof.
  intros Hd Hopen. unfold run.
  change (simulate_hourly_dca data amount) with (simulate Hourly data amount).
  rewrite (simulate_returns _ _ _ _ _ _ Hd (matched_lookup Hourly _ _ _ Hopen)).
  cbn [fst snd].
  eexists _, _, (bought amount (matched_col Hourly df open) (matched Hourly df)).
  split; [reflexivity|]. split; [apply lookup_purchases|].
  intros name c Hcost Hbtc Hc. exists (matched_col Hourly df c). split.
  - unfold bought. cbn [columns].
    rewrite !lookup_set_other by (apply String.eqb_neq; congruence).
    by apply matched_lookup.
  - by eapply hourly_cells.
Qed.

Lemma hourly_purchases_have_no_nan_witness :
  ∃ (purchases : loc) (avg_price : float) (p : DataFrame),
    run (simulate_hourly_dca 0%nat (SInt 100)) [gap_series] = Return (purchases, avg_price) ∧
    snd (simulate_hourly_dca 0%nat (SInt 100) [gap_series]) !! purchases = Some p ∧
    ∀ (name : string) (c : column float),
      name ≠ "cost"%string → name ≠ "btc_bought"%string →
      lookup_col name (columns gap_series) = Some c →
      ∃ c' : column float,
        lookup_col name (columns p) = Some c' ∧
        Forall (fun x => PrimFloat.is_nan x = false ∧ In x (col_floats c))
               (col_floats c').
Proof.
  apply (hourly_purchases_have_no_nan [gap_series] 0%nat gap_series (SInt 100)
           (FloatCol [100; 100]%float)); reflexivity.
Defined.

(** ** The recursion of the pairwise sum *)

Section PairwiseSum.
Context {F : Type} `{Number F}.

(** The length of the array is enough fuel: with that much or more the
    sum is the same, so that the branch for no fuel is never taken. *)
Lemma pairwise_sum_fuel (f g : nat) (xs : list F) :
  (length xs <= f)%nat → (length xs <= g)%nat →
  pairwise_sum f xs = pairwise_sum g xs.
Proof.
  revert g xs. induction f as [|f IH]; intros g xs Hf Hg.
  - destruct xs; [|simpl in Hf; lia]. by destruct g.
  - destruct g as [|g].
    + destruct xs; [done|simpl in Hg; lia].
    + cbn [pairwise_sum].
      destruct (Nat.ltb_spec (length xs) 8) as [|H8]; [done|].
      destruct (Nat.leb_spec (length xs) 128) as [|H128]; [done|].
      assert (0 < length xs / 2 - (length xs / 2) mod 8 <= length xs / 2)%nat as Hn2.
      { pose proof (Nat.mod_upper_bound (length xs / 2) 8).
        assert (64 <= length xs / 2)%nat by (apply Nat.div_le_lower_bound; lia). lia. }
      assert (length xs / 2 < length xs)%nat as Hhalf by (apply Nat.div_lt; lia).
      f_equal; apply IH; rewrite ?length_firstn, ?length_skipn; lia.
Qed.

End PairwiseSum.

(** Sixteen cells are added in eight running sums, not one after the
    other: for the amount 100 and the prices 1 to 16 the average price is
    [4.732707067631032], one unit in the last place below what adding from
    left to right would give. *)
Example sum_of_sixteen_cells :
  avg_price_of (SInt 100)
    (FloatCol [1; 2; 3; 4; 5; 6; 7; 8; 9; 10; 11; 12; 13; 14; 15; 16]%float) =
    0x1.2ee4ac2f417e7p+2%float ∧
  (truediv (SInt 1600)
     (SFloat (fold_left PrimFloat.add
                (map (fun p => (100 / p)%float)
                     [1; 2; 3; 4; 5; 6; 7; 8; 9; 10; 11; 12; 13; 14; 15; 16]%float)
                0%float)) = 0x1.2ee4ac2f417e8p+2%float).
Proof. split; vm_compute; reflexivity. Qed.

(** ** The date filter on an index in any order *)

Lemma is_monotonic_sorted (idx : list Z) :
  StronglySorted Z.le idx → is_monotonic Z.leb idx = true.
Proof.
  induction 1 as [|x idx _ IH Hx]; [done|].
  destruct idx as [|y idx]; [done|]. cbn [is_monotonic] in *. rewrite IH.
  inversion Hx as [|? ? Hxy _]; subst. by apply Z.leb_le in Hxy as ->.
Qed.

Lemma count_none_above (f : Z → bool) (x : Z) (idx : list Z) :
  Forall (Z.le x) idx → (∀ t, (x <= t)%Z → f t = false) →
  length (List.filter f idx) = 0%nat.
Proof.
  intros Hx Hf. induction Hx as [|t idx Ht _ IH]; simpl; [done|].
  by rewrite (Hf t Ht).
Qed.

Lemma occurrences_In (idx : list Z) (v : Z) :
  (0 < occurrences idx v)%nat → In v idx.
Proof.
  unfold occurrences. intros Hn.
  destruct (List.filter _ idx) as [|t ts] eqn:E; [simpl in Hn; lia|].
  assert (In t (List.filter (fun t => (t =? v)%Z) idx)) as Hin by (rewrite E; by left).
  apply filter_In in Hin as [Hin Ht%Z.eqb_eq]. by subst.
Qed.

(** On a monotonic increasing index the occurrences of a label are
    consecutive. *)
Lemma sorted_run (idx : list Z) (v : Z) :
  StronglySorted Z.le idx → Forall (Z.le v) idx →
  forallb (fun t => (t =? v)%Z) (firstn (occurrences idx v) idx) = true.
Proof.
  unfold occurrences.
  induction 1 as [|x idx _ IH Hx]; intros Hv; [done|].
  inversion Hv as [|? ? Hvx Hrest]; subst. cbn [List.filter].
  destruct (Z.eqb_spec x v) as [->|Hne].
  - cbn [length firstn forallb]. rewrite Z.eqb_refl. by apply IH.
  - rewrite (count_none_above (fun t => (t =? v)%Z) x idx Hx); [done|].
    intros t Ht. apply Z.eqb_neq. lia.
Qed.

Lemma first_position_sorted (idx : list Z) (v : Z) :
  StronglySorted Z.le idx → (0 < occurrences idx v)%nat →
  first_position idx v = searchsorted_left idx v ∧
  forallb (fun t => (t =? v)%Z)
          (firstn (occurrences idx v) (skipn (first_position idx v) idx)) = true.
Proof.
  unfold searchsorted_left.
  induction 1 as [|x idx Hs IH Hx]; intros Hn; [unfold occurrences in Hn; simpl in Hn; lia|].
  cbn [first_position List.filter].
  destruct (Z.eqb_spec x v) as [->|Hne].
  - rewrite Z.ltb_irrefl. split.
    + symmetry. apply (count_none_above _ v idx Hx). intros t Ht. apply Z.ltb_ge. lia.
    + cbn [skipn]. apply sorted_run; [by constructor|]. constructor; [lia|done].
  - assert (occurrences (x :: idx) v = occurrences idx v) as Hocc.
    { unfold occurrences. cbn [List.filter]. by destruct (Z.eqb_spec x v). }
    rewrite Hocc in *. destruct (IH Hn) as [Hpos Hrun].
    pose proof (occurrences_In idx v Hn) as Hin.
    apply list_elem_of_In in Hin. rewrite Forall_forall in Hx. specialize (Hx v Hin).
    destruct (Z.ltb_spec x v); [|lia]. cbn [length skipn].
    split; [by rewrite Hpos|exact Hrun].
Qed.

Lemma searchsorted_right_split (idx : list Z) (v : Z) :
  searchsorted_right idx v = (searchsorted_left idx v + occurrences idx v)%nat.
Proof.
  unfold searchsorted_right, searchsorted_left, occurrences.
  induction idx as [|x idx IH]; [done|]. cbn [List.filter].
  destruct (Z.leb_spec x v), (Z.ltb_spec x v), (Z.eqb_spec x v); cbn [length]; lia.
Qed.

Lemma get_slice_bound_sorted (idx : list Z) (v : Z) :
  Sorted Z.le idx →
  get_slice_bound idx v side_left = Some (searchsorted_left idx v) ∧
  get_slice_bound idx v side_right = Some (searchsorted_right idx v).
Proof.
  intros Hs. apply Sorted_StronglySorted in Hs; [|intros ? ? ?; lia].
  unfold get_slice_bound.
  destruct (Nat.eqb_spec (occurrences idx v) 0) as [E|E].
  - by rewrite (is_monotonic_sorted idx Hs).
  - destruct (first_position_sorted idx v Hs) as [Hpos Hrun]; [lia|].
    rewrite Hrun, Hpos. split; [done|]. by rewrite searchsorted_right_split.
Qed.

(** On a monotonic increasing index the general slice is the one [main]
    is modelled with. *)
Lemma loc_frame_sorted (start_date end_date : Z) (df : DataFrame) :
  Sorted Z.le (index df) →
  loc_frame start_date end_date df = Some (loc_slice_frame start_date end_date df).
Proof.
  intros Hs. unfold loc_frame.
  destruct (get_slice_bound_sorted (index df) start_date Hs) as [-> _].
  by destruct (get_slice_bound_sorted (index df) end_date Hs) as [_ ->].
Qed.

(** C4 (amended).  On a table whose index is monotonic increasing the
    date-range filter keeps both boundaries: for every pair of dates with
    [start_date <= end_date], a row whose timestamp is exactly
    [start_date] or exactly [end_date] is a row (same label, same cells)
    of the frame that [df.loc[start_date:end_date]] returns and that
    [main] passes to the comparator. *)
Theorem date_filter_inclusive (h : heap) (data : loc) (df : DataFrame)
    (start_date end_date : Z) (k : nat) (t : Z) :
  h !! data = Some df →
  Sorted Z.le (index df) →
  (start_date <= end_date)%Z →
  index df !! k = Some t →
  t = start_date ∨ t = end_date →
  ∃ (filtered_data : DataFrame) (k' : nat),
    loc_frame start_date end_date df = Some filtered_data ∧
    main data start_date end_date h =
      compare_strategies (length h) (h ++ [filtered_data]) ∧
    (h ++ [filtered_data]) !! length h = Some filtered_data ∧
    index filtered_data !! k' = Some t ∧
    same_row df k filtered_data k'.
Proof.
  intros Hd Hs Hle Hk Ht.
  exists (loc_slice_frame start_date end_date df),
    (k - searchsorted_left (index df) start_date)%nat.
  assert (searchsorted_left (index df) start_date <= k
          < searchsorted_right (index df) end_date)%nat as Hin.
  { split.
    - eapply searchsorted_left_le; eauto. lia.
    - eapply searchsorted_right_gt; eauto. lia. }
  pose proof (frame_slice_same_row _ _ _ df Hin) as Hrow.
  split; [by apply loc_frame_sorted|].
  split; [by apply main_run|]. split.
  - rewrite lookup_app_r by lia. by rewrite Nat.sub_diag.
  - split; [|exact Hrow]. destruct Hrow as [Hi _].
    unfold loc_slice_frame. by rewrite Hi.
Qed.

Lemma date_filter_inclusive_witness :
  ∃ (filtered_data : DataFrame) (k' : nat),
    loc_frame monday_2024 (monday_2024 + NS_PER_DAY)
              (constant_series monday_2024 48 100%float) = Some filtered_data ∧
    main 0%nat monday_2024 (monday_2024 + NS_PER_DAY)
         [constant_series monday_2024 48 100%float] =
      compare_strategies 1%nat ([constant_series monday_2024 48 100%float] ++ [filtered_data]) ∧
    ([constant_series monday_2024 48 100%float] ++ [filtered_data]) !! 1%nat = Some filtered_data ∧
    index filtered_data !! k' = Some (monday_2024 + NS_PER_DAY)%Z ∧
    same_row (constant_series monday_2024 48 100%float) 24 filtered_data k'.
Proof.
  apply (date_filter_inclusive [constant_series monday_2024 48 100%float] 0%nat
           (constant_series monday_2024 48 100%float)
           monday_2024 (monday_2024 + NS_PER_DAY) 24 (monday_2024 + NS_PER_DAY)).
  - reflexivity.
  - vm_compute index. repeat (constructor; try (intros [=])).
  - vm_compute. intros [=].
  - reflexivity.
  - by right.
Defined.

(** C4, as stated for every loaded table, fails on a table that has its
    newest row first.  The two rows are Tuesday and Monday, the dates
    Monday and Tuesday are the least and the greatest timestamp, so that
    the prompt accepts them, and each is the timestamp of a row; the start
    is found at position 1 and the end at position 0, and the slice from
    position 1 to position 1 has no row. *)
Lemma date_filter_drops_boundary_rows_newest_first :
  valid_range monday_2024 (monday_2024 + NS_PER_DAY)
              monday_2024 (monday_2024 + NS_PER_DAY) = true ∧
  index newest_first !! 1%nat = Some monday_2024 ∧
  index newest_first !! 0%nat = Some (monday_2024 + NS_PER_DAY)%Z ∧
  get_slice_bound (index newest_first) monday_2024 side_left = Some 1%nat ∧
  get_slice_bound (index newest_first) (monday_2024 + NS_PER_DAY) side_right = Some 1%nat ∧
  ∃ filtered_data : DataFrame,
    loc_frame monday_2024 (monday_2024 + NS_PER_DAY) newest_first = Some filtered_data ∧
    index filtered_data = [].
Proof.
  repeat split; try (vm_compute; reflexivity).
  eexists. split; [vm_compute; reflexivity|]. reflexivity.
Qed.

(** ** The chart without the weekly strategies *)

Lemma ranked_order_head_nan (r : result) (rs : list result) :
  ranked_order (r :: rs) →
  PrimFloat.is_nan (Avg_Price r) = true →
  Forall (fun r' => PrimFloat.is_nan (Avg_Price r') = true) rs.
Proof.
  intros (priced & nans & Hs & Hp & Hn & _) Hr.
  destruct priced as [|r1 priced]; simpl in Hs.
  - subst nans. by inversion Hn.
  - injection Hs as <- ->. inversion Hp as [|? ? Hr1 _]; subst. congruence.
Qed.

(** C6.  The filtered chart is drawn from the ranked table without its
    weekly rows: 168 rows fewer, none of them weekly, the others in the
    order of the table.  The top 30 are taken from what remains, which is
    all 25 rows.  The first bar has the least average price of the rows
    that remain: no bar has a lower one, and it is NaN only when every
    one is.  The deviation of every bar is recomputed against it, as
    [((avg - best) / best) * 100] with [best] the average price of the
    first bar. *)
Theorem filtered_chart_excludes_weekly (h : heap) (fd : loc) (df : DataFrame) :
  h !! fd = Some df →
  wf_frame df →
  is_Some (lookup_col "Open" (columns df)) →
  ∃ (table : list ranked) (best : ranked) (rest : list ranked),
    run (compare_strategies fd) h = Return table ∧
    (length (filtered_results table) + 168 = length table)%nat ∧
    Forall (fun r => String.prefix "Weekly" (Strategy (entry r)) = false)
           (filtered_results table) ∧
    map entry (filtered_results table) =
      List.filter (fun r => negb (String.prefix "Weekly" (Strategy r))) (map entry table) ∧
    visualize_filtered_bar_chart table = best :: rest ∧
    map entry (best :: rest) = map entry (filtered_results table) ∧
    Forall (fun r => PrimFloat.ltb (Avg_Price (entry r)) (Avg_Price (entry best)) = false)
           rest ∧
    (PrimFloat.is_nan (Avg_Price (entry best)) = true →
     Forall (fun r => PrimFloat.is_nan (Avg_Price (entry r)) = true) rest) ∧
    Forall (fun r =>
              Relative_Deviation r =
                (((Avg_Price (entry r) - Avg_Price (entry best)) / Avg_Price (entry best))
                 * 100)%float)
           (best :: rest).
Proof.
  intros Hd Hwf [open Hopen].
  pose proof (compare_strategies_run h fd df open Hd Hwf Hopen) as Hrun.
  pose proof (table_labels df open) as Hperm.
  apply filtered_results_length in Hperm as [Hn Hlen].
  pose proof (sort_values_ranked (map (strategy_result df open) all_strategies)) as Hrs.
  revert Hrun Hn Hlen Hrs.
  generalize (sort_values (map (strategy_result df open) all_strategies)).
  intros rs Hrun Hn Hlen Hrs.
  pose proof (filtered_entries rs) as Hent.
  assert (visualize_filtered_bar_chart (with_deviation rs) =
          with_deviation (map entry (filtered_results (with_deviation rs)))) as Hchart.
  { unfold visualize_filtered_bar_chart, visualize_bar_chart.
    by rewrite firstn_all2 by lia. }
  assert (Forall (fun r => String.prefix "Weekly" (Strategy (entry r)) = false)
                 (filtered_results (with_deviation rs))) as Hnone.
  { apply Forall_forall. intros r Hr. apply list_elem_of_In in Hr.
    unfold filtered_results in Hr. apply filter_In in Hr as [_ Hr].
    by apply negb_true_iff in Hr. }
  assert (map entry (filtered_results (with_deviation rs)) =
          List.filter (fun r => negb (String.prefix "Weekly" (Strategy r)))
                      (map entry (with_deviation rs))) as Hkept
    by (by rewrite entries_with_deviation).
  assert (length (filtered_results (with_deviation rs)) + 168 =
          length (with_deviation rs))%nat as Hcount by lia.
  apply (ranked_order_filter (fun r => negb (String.prefix "Weekly" (Strategy r)))) in Hrs.
  rewrite <- (length_map entry) in Hlen.
  rewrite <- Hent in Hrs.
  rewrite Hkept in Hchart, Hlen, Hrs.
  destruct (List.filter (fun r => negb (String.prefix "Weekly" (Strategy r)))
                        (map entry (with_deviation rs))) as [|r rest] eqn:E; [done|].
  pose proof (series_min_ranked _ Hrs) as Hmin.
  unfold with_deviation in Hchart at 2. rewrite Hmin in Hchart. cbn [map hd] in Hchart.
  eexists _, _, _. split; [exact Hrun|].
  split; [exact Hcount|].
  split; [exact Hnone|]. split; [by rewrite E|]. split; [exact Hchart|].
  cbn [entry Relative_Deviation map]. split; [|split; [|split]].
  - rewrite Hkept. f_equal. rewrite map_map. apply map_id.
  - apply Forall_map. by apply ranked_order_head.
  - intros Hnan. apply Forall_map. by apply (ranked_order_head_nan r).
  - constructor; [done|]. apply Forall_map. by apply Forall_forall.
Qed.

Lemma filtered_chart_excludes_weekly_witness :
  ∃ (table : list ranked) (best : ranked) (rest : list ranked),
    run (compare_strategies 0%nat) [fixture_10_20_30] = Return table ∧
    (length (filtered_results table) + 168 = length table)%nat ∧
    Forall (fun r => String.prefix "Weekly" (Strategy (entry r)) = false)
           (filtered_results table) ∧
    map entry (filtered_results table) =
      List.filter (fun r => negb (String.prefix "Weekly" (Strategy r))) (map entry table) ∧
    visualize_filtered_bar_chart table = best :: rest ∧
    map entry (best :: rest) = map entry (filtered_results table) ∧
    Forall (fun r => PrimFloat.ltb (Avg_Price (entry r)) (Avg_Price (entry best)) = false)
           rest ∧
    (PrimFloat.is_nan (Avg_Price (entry best)) = true →
     Forall (fun r => PrimFloat.is_nan (Avg_Price (entry r)) = true) rest) ∧
    Forall (fun r =>
              Relative_Deviation r =
                (((Avg_Price (entry r) - Avg_Price (entry best)) / Avg_Price (entry best))
                 * 100)%float)
           (best :: rest).
Proof.
  apply (filtered_chart_excludes_weekly [fixture_10_20_30] 0%nat fixture_10_20_30).
  - reflexivity.
  - repeat constructor.
  - by eexists.
Defined.
